(** * Voxel-grid downsampling (pcl::experimental): embedding and properties

    The development follows the C++ sources of the experimental grid
    filters: [GridFilterBase] (hashPoint, checkHashRange) and the two
    revisions of [VoxelStructT] (voxel_grid.h).

    Conventions of the embedding.
    - [float] is held as a rational: the arithmetic is exact, so rounding,
      infinities and NaN of binary32 are outside the model.  [std::floor]
      returns an integer-valued float, which is held in [Z].
    - [std::size_t] is a [Z] in [[0, 2^64)]; unsigned arithmetic wraps and the
      wrap is written out ([add_sz], [mul_sz]).
    - [int] is a [Z] in [[-2^31, 2^31)]; signed arithmetic wraps (two's
      complement), as it does on the targets the library is built for, and
      the wrap is written out ([wrap_int]).
    - An out-of-range float-to-integer conversion, a division by zero and an
      access outside a vector through [operator[]] are undefined in C++; they
      are the [None] of the option monad. *)

From Stdlib Require Import ZArith QArith Qround Lia Lqa List.
From stdpp Require Import gmap list fin_maps strings sorting.

Local Open Scope Z_scope.

(** ** Machine numbers *)

Definition float := Q.

Definition SIZE_MAX : Z := 2 ^ 64 - 1.
Definition INT_MIN : Z := - 2 ^ 31.
Definition INT_MAX : Z := 2 ^ 31 - 1.

(** Conversion of an integer-valued float to [std::size_t]; undefined when
    the value is not representable. *)
Definition to_size_t (v : Z) : option Z :=
  if (0 <=? v) && (v <=? SIZE_MAX) then Some v else None.

(** Conversion of an integer-valued float to [int]; undefined when the
    value is not representable. *)
Definition to_int (v : Z) : option Z :=
  if (INT_MIN <=? v) && (v <=? INT_MAX) then Some v else None.

(** The [int] with the same low 32 bits. *)
Definition wrap_int (v : Z) : Z := (v + 2 ^ 31) mod 2 ^ 32 - 2 ^ 31.

(** Implicit conversion of an [int] operand to [std::size_t]. *)
Definition int_to_size_t (i : Z) : Z := i mod 2 ^ 64.

(** Conversion of a [std::size_t] to [int] (modular). *)
Definition size_t_to_int (n : Z) : Z := wrap_int n.

Definition add_sz (a b : Z) : Z := (a + b) mod 2 ^ 64.
Definition mul_sz (a b : Z) : Z := (a * b) mod 2 ^ 64.
Definition div_sz (a b : Z) : option Z :=
  if b =? 0 then None else Some (a / b).

Definition int_add (a b : Z) : Z := wrap_int (a + b).
Definition int_sub (a b : Z) : Z := wrap_int (a - b).
Definition int_mul (a b : Z) : Z := wrap_int (a * b).

(** [std::floor] of a float. *)
Definition floor (v : float) : Z := Qfloor v.

(** ** Eigen vectors and points *)

Record Vector4 (A : Type) : Type := mkVector4 { c0 : A; c1 : A; c2 : A; c3 : A }.
Arguments mkVector4 {A} _ _ _ _.
Arguments c0 {A} _.
Arguments c1 {A} _.
Arguments c2 {A} _.
Arguments c3 {A} _.

Abbreviation Vector4f := (Vector4 float).
Abbreviation Vector4i := (Vector4 Z).

Record Vector3i : Type := mkVector3i { i0 : Z; i1 : Z; i2 : Z }.


(** [v.head<3>()] *)
Definition head3i (v : Vector4i) : Vector3i := mkVector3i (c0 v) (c1 v) (c2 v).

(** A point: the coordinates, the fourth entry of its [data] array (what
    [getVector4fMap] exposes next to x, y, z) and the further scalar fields of
    the point type, in declaration order. *)
Record PointT : Type := mkPoint {
  x : float; y : float; z : float;
  data3 : float;
  fields : list float
}.

Definition getVector4fMap (pt : PointT) : Vector4f :=
  mkVector4 (x pt) (y pt) (z pt) (data3 pt).

Definition PointXYZ (px py pz : float) : PointT :=
  mkPoint px py pz 1%Q [].

(** ** GridFilterBase: hashing and the hash-range check *)

Module GridFilterBase.

Definition hashPoint (pt : PointT) (inverse_leaf_size : Vector4f)
    (min_b divb_mul : Vector4i) : option Z :=
  ijk0 ← to_size_t (floor (x pt * c0 inverse_leaf_size)%Q - c0 min_b);
  ijk1 ← to_size_t (floor (y pt * c1 inverse_leaf_size)%Q - c1 min_b);
  ijk2 ← to_size_t (floor (z pt * c2 inverse_leaf_size)%Q - c2 min_b);
  Some (add_sz (add_sz (mul_sz ijk0 (int_to_size_t (c0 divb_mul)))
                       (mul_sz ijk1 (int_to_size_t (c1 divb_mul))))
               (mul_sz ijk2 (int_to_size_t (c2 divb_mul)))).

(** The three per-axis counts of the check, as [std::size_t]. *)
Definition hashRangeCounts (min_p max_p : Vector4f) (inverse_leaf_size : Vector4f)
    : option (Z * Z * Z) :=
  dx ← to_size_t (floor ((c0 max_p - c0 min_p) * c0 inverse_leaf_size)%Q + 1);
  dy ← to_size_t (floor ((c1 max_p - c1 min_p) * c1 inverse_leaf_size)%Q + 1);
  dz ← to_size_t (floor ((c2 max_p - c2 min_p) * c2 inverse_leaf_size)%Q + 1);
  Some (dx, dy, dz).

(** [dy > max_size / dx || dx * dy > max_size / dz]; the right operand of
    [||] is evaluated only when the left one is false. *)
Definition overflows (dx dy dz : Z) : option bool :=
  qx ← div_sz SIZE_MAX dx;
  if qx <? dy then Some true
  else qz ← div_sz SIZE_MAX dz; Some (qz <? mul_sz dx dy).

Definition checkHashRange (min_p max_p : Vector4f) (inverse_leaf_size : Vector4f)
    : option Z :=
  '(dx, dy, dz) ← hashRangeCounts min_p max_p inverse_leaf_size;
  o ← overflows dx dy dz;
  if (o : bool) then Some 0 else Some (mul_sz (mul_sz dx dy) dz).

End GridFilterBase.

(** ** Helpers on floats, vectors and the field accumulator *)

Definition Qlt_bool (a b : float) : bool := negb (Qle_bool b a).

Definition is_empty (name : string) : bool :=
  match name with EmptyString => true | _ => false end.

(** [int] dot product of two 4-vectors, left to right. *)
Definition dot4 (a b : Vector4i) : Z :=
  int_add (int_add (int_add (int_mul (c0 a) (c0 b)) (int_mul (c1 a) (c1 b)))
                   (int_mul (c2 a) (c2 b)))
          (int_mul (c3 a) (c3 b)).

Definition vec_lift2 (f : Z → Z → Z) (a b : Vector4i) : Vector4i :=
  mkVector4 (f (c0 a) (c0 b)) (f (c1 a) (c1 b)) (f (c2 a) (c2 b))
            (f (c3 a) (c3 b)).

(** [(p.array() * inverse_leaf_size).floor().cast<int>()] *)
Definition floor_cast_int (p inverse_leaf_size : Vector4f) : option Vector4i :=
  r0 ← to_int (floor (c0 p * c0 inverse_leaf_size)%Q);
  r1 ← to_int (floor (c1 p * c1 inverse_leaf_size)%Q);
  r2 ← to_int (floor (c2 p * c2 inverse_leaf_size)%Q);
  r3 ← to_int (floor (c3 p * c3 inverse_leaf_size)%Q);
  Some (mkVector4 r0 r1 r2 r3).

Definition vec_all2 (f : Z → Z → bool) (a b : Vector4i) : bool :=
  f (c0 a) (c0 b) && f (c1 a) (c1 b) && f (c2 a) (c2 b) && f (c3 a) (c3 b).

Definition vec4f_add (a b : Vector4f) : Vector4f :=
  mkVector4 (c0 a + c0 b)%Q (c1 a + c1 b)%Q (c2 a + c2 b)%Q (c3 a + c3 b)%Q.

Definition vec4f_div (a : Vector4f) (n : float) : Vector4f :=
  mkVector4 (c0 a / n)%Q (c1 a / n)%Q (c2 a / n)%Q (c3 a / n)%Q.

Definition vec4f_zero : Vector4f := mkVector4 0%Q 0%Q 0%Q 0%Q.
Definition vec4i_zero : Vector4i := mkVector4 0 0 0 0.

(** A [std::size_t] used as a float divisor. *)
Definition size_t_to_float (n : Z) : float := inject_Z n.

(** Every scalar field of a point, coordinates first. *)
Definition all_fields (pt : PointT) : list float :=
  x pt :: y pt :: z pt :: fields pt.

(** The float read by [memcpy] at the offset of field [idx]; reading at an
    index that names no field is undefined. *)
Definition field_value (pt : PointT) (idx : Z) : option float :=
  if idx <? 0 then None else all_fields pt !! Z.to_nat idx.

(** Field-wise sum of two rows of field values (the shorter one padded). *)
Fixpoint fields_add (a b : list float) : list float :=
  match a, b with
  | [], _ => b
  | _, [] => a
  | u :: a', v :: b' => (u + v)%Q :: fields_add a' b'
  end.

(** Modelled from the spec: [CentroidPoint] (pcl/common/centroid.h) is not
    among the sources.  Following section 4.3, it keeps a running sum of every
    scalar field of the points added and their number, and [get] divides each
    accumulated field by that number. *)
Record CentroidPoint : Type := mkCentroidPoint {
  field_sums : list float;
  num_points : Z
}.

Definition CentroidPoint_empty : CentroidPoint := mkCentroidPoint [] 0.

Definition CentroidPoint_add (c : CentroidPoint) (pt : PointT) : CentroidPoint :=
  mkCentroidPoint (fields_add (field_sums c) (all_fields pt))
                  (add_sz (num_points c) 1).

Definition CentroidPoint_getSize (c : CentroidPoint) : Z := num_points c.

(** The averaged fields written into a point that was built as [init]. *)
Definition CentroidPoint_get (c : CentroidPoint) (init : PointT) : PointT :=
  let avg := map (λ s, (s / size_t_to_float (num_points c))%Q) (field_sums c) in
  match avg with
  | ax :: ay :: az :: rest => mkPoint ax ay az (data3 init) rest
  | _ => init
  end.

(** The output cloud of a filter call. *)
Record PointCloud : Type := mkPointCloud {
  points : list PointT;
  is_dense : bool
}.

(** What the grid structure reads from the filter object it is part of
    ([getDerived()]): the input cloud, the indices and the filter settings. *)
Record Derived : Type := mkDerived {
  getInputCloud : list PointT;
  getIndices : list Z;
  getFilterFieldName : string;
  getFilterLimitMin : float;
  getFilterLimitMax : float;
  getFilterLimitsNegative : bool;
  getSaveLeafLayout : bool;
  getDownsampleAllData : bool;
  getMinimumPointsNumberPerVoxel : Z
}.

(** The setters of [GridFilterBase]; a filter object is built with
    [downsample_all_data_ = true] and [min_points_per_voxel_ = 0]. *)
Definition setDownsampleAllData (d : Derived) (downsample : bool) : Derived :=
  mkDerived (getInputCloud d) (getIndices d) (getFilterFieldName d)
    (getFilterLimitMin d) (getFilterLimitMax d) (getFilterLimitsNegative d)
    (getSaveLeafLayout d) downsample (getMinimumPointsNumberPerVoxel d).

Definition setMinimumPointsNumberPerVoxel (d : Derived)
    (min_points_per_voxel : Z) : Derived :=
  mkDerived (getInputCloud d) (getIndices d) (getFilterFieldName d)
    (getFilterLimitMin d) (getFilterLimitMax d) (getFilterLimitsNegative d)
    (getSaveLeafLayout d) (getDownsampleAllData d) min_points_per_voxel.

(** The functions of pcl/common that [setUp] calls and that are not among the
    sources, and the value-initialised point of the point type; they are
    parameters of the development. *)
Record Common : Type := mkCommon {
  getMinMax3D : list PointT → list Z → Vector4f * Vector4f;
  getMinMax3D_field :
    list PointT → list Z → string → float → float → bool → Vector4f * Vector4f;
  getFieldIndex : string → Z;
  default_point : PointT
}.

(** [std::fill(l.begin(), l.begin() + n, v)] *)
Definition fill_prefix (n : nat) (v : Z) (l : list Z) : list Z :=
  replicate n v ++ drop n l.

(** [l.resize(n, v)] *)
Definition resize_to (n : nat) (v : Z) (l : list Z) : list Z :=
  take n l ++ replicate (n - length l) v.

(** Unchecked [operator[]] of the leaf layout: reading outside the vector is
    undefined. *)
Definition layout_read (l : list Z) (idx : Z) : option Z :=
  if idx <? 0 then None else l !! Z.to_nat idx.

(** ** VoxelStructT, revision with the field-range test (own hashPoint and
    checkIfOverflow) *)

Module VoxelStructT.

Record Voxel : Type := mkVoxel {
  centroid : CentroidPoint;
  coord_centroid : Vector4f;
  num_pt : Z
}.

Definition Voxel_new : Voxel := mkVoxel CentroidPoint_empty vec4f_zero 0.

(** The members of the structure; [console_] is not a member: it collects the
    messages passed to PCL_WARN. *)
Record t : Type := mkT {
  filter_name_ : string;
  leaf_size_ : Vector4f;
  inverse_leaf_size_ : Vector4f;
  leaf_layout_ : list Z;
  min_b_ : Vector4i;
  max_b_ : Vector4i;
  div_b_ : Vector4i;
  divb_mul_ : Vector4i;
  grid_ : gmap Z Voxel;
  num_voxels_ : Z;
  filter_field_idx_ : Z;
  filter_limit_min_ : float;
  filter_limit_max_ : float;
  filter_field_name_ : string;
  console_ : list string
}.

Definition new : t :=
  mkT "VoxelGrid" vec4f_zero vec4f_zero [] vec4i_zero vec4i_zero vec4i_zero
      vec4i_zero ∅ 0 0 0%Q 0%Q "" [].

Definition set_leaf (s : t) (leaf inv : Vector4f) : t :=
  mkT (filter_name_ s) leaf inv (leaf_layout_ s) (min_b_ s) (max_b_ s)
      (div_b_ s) (divb_mul_ s) (grid_ s) (num_voxels_ s) (filter_field_idx_ s)
      (filter_limit_min_ s) (filter_limit_max_ s) (filter_field_name_ s)
      (console_ s).

Definition set_filter (s : t) (name : string) (lo hi : float) : t :=
  mkT (filter_name_ s) (leaf_size_ s) (inverse_leaf_size_ s) (leaf_layout_ s)
      (min_b_ s) (max_b_ s) (div_b_ s) (divb_mul_ s) (grid_ s) (num_voxels_ s)
      (filter_field_idx_ s) lo hi name (console_ s).

Definition set_field_idx (s : t) (idx : Z) : t :=
  mkT (filter_name_ s) (leaf_size_ s) (inverse_leaf_size_ s) (leaf_layout_ s)
      (min_b_ s) (max_b_ s) (div_b_ s) (divb_mul_ s) (grid_ s) (num_voxels_ s)
      idx (filter_limit_min_ s) (filter_limit_max_ s) (filter_field_name_ s)
      (console_ s).

Definition set_bounds (s : t) (mn mx dv mul : Vector4i) : t :=
  mkT (filter_name_ s) (leaf_size_ s) (inverse_leaf_size_ s) (leaf_layout_ s)
      mn mx dv mul (grid_ s) (num_voxels_ s) (filter_field_idx_ s)
      (filter_limit_min_ s) (filter_limit_max_ s) (filter_field_name_ s)
      (console_ s).

Definition set_grid (s : t) (g : gmap Z Voxel) : t :=
  mkT (filter_name_ s) (leaf_size_ s) (inverse_leaf_size_ s) (leaf_layout_ s)
      (min_b_ s) (max_b_ s) (div_b_ s) (divb_mul_ s) g (num_voxels_ s)
      (filter_field_idx_ s) (filter_limit_min_ s) (filter_limit_max_ s)
      (filter_field_name_ s) (console_ s).

Definition set_layout (s : t) (l : list Z) : t :=
  mkT (filter_name_ s) (leaf_size_ s) (inverse_leaf_size_ s) l
      (min_b_ s) (max_b_ s) (div_b_ s) (divb_mul_ s) (grid_ s) (num_voxels_ s)
      (filter_field_idx_ s) (filter_limit_min_ s) (filter_limit_max_ s)
      (filter_field_name_ s) (console_ s).

Definition set_num_voxels (s : t) (n : Z) : t :=
  mkT (filter_name_ s) (leaf_size_ s) (inverse_leaf_size_ s) (leaf_layout_ s)
      (min_b_ s) (max_b_ s) (div_b_ s) (divb_mul_ s) (grid_ s) n
      (filter_field_idx_ s) (filter_limit_min_ s) (filter_limit_max_ s)
      (filter_field_name_ s) (console_ s).

Definition PCL_WARN (s : t) (msg : string) : t :=
  mkT (filter_name_ s) (leaf_size_ s) (inverse_leaf_size_ s) (leaf_layout_ s)
      (min_b_ s) (max_b_ s) (div_b_ s) (divb_mul_ s) (grid_ s) (num_voxels_ s)
      (filter_field_idx_ s) (filter_limit_min_ s) (filter_limit_max_ s)
      (filter_field_name_ s) (console_ s ++ [msg]).

(** [1 / leaf_size_.array()]; the quotient by a zero component, an infinity
    in binary32, has no counterpart in the rationals. *)
Definition inverse_of (leaf : Vector4f) : Vector4f :=
  mkVector4 (1 / c0 leaf)%Q (1 / c1 leaf)%Q (1 / c2 leaf)%Q (1 / c3 leaf)%Q.

Definition avoid_division_errors (leaf : Vector4f) : Vector4f :=
  if Qeq_bool (c3 leaf) 0 then mkVector4 (c0 leaf) (c1 leaf) (c2 leaf) 1%Q
  else leaf.

(** [setLeafSize(const Eigen::Vector4f&)] *)
Definition setLeafSize4 (s : t) (leaf_size : Vector4f) : t :=
  let leaf := avoid_division_errors leaf_size in
  set_leaf s leaf (inverse_of leaf).

(** [setLeafSize(float lx, float ly, float lz)] *)
Definition setLeafSize (s : t) (lx ly lz : float) : t :=
  let leaf :=
    avoid_division_errors (mkVector4 lx ly lz (c3 (leaf_size_ s))) in
  set_leaf s leaf (inverse_of leaf).




Definition getNrDivisions (s : t) : Vector3i := head3i (div_b_ s).

Definition getDivisionMultiplier (s : t) : Vector3i := head3i (divb_mul_ s).

Definition getLeafLayout (s : t) : list Z := leaf_layout_ s.

Definition getGridCoordinates (s : t) (px py pz : float) : option Vector3i :=
  i ← to_int (floor (px * c0 (inverse_leaf_size_ s))%Q);
  j ← to_int (floor (py * c1 (inverse_leaf_size_ s))%Q);
  k ← to_int (floor (pz * c2 (inverse_leaf_size_ s))%Q);
  Some (mkVector3i i j k).

Definition with_zero (v : Vector3i) : Vector4i :=
  mkVector4 (i0 v) (i1 v) (i2 v) 0.

(** The cell of the query point, as the 4-vector [ijk]. *)
Definition query_cell (s : t) (px py pz : float) : option Vector4i :=
  with_zero <$> getGridCoordinates s px py pz.

(** Index into the leaf layout of the cell at [displacement] from [ijk]:
    [(ijk + displacement - min_b_).dot(divb_mul_)]. *)
Definition cell_index (s : t) (ijk displacement : Vector4i) : Z :=
  dot4 (vec_lift2 int_sub (vec_lift2 int_add ijk displacement) (min_b_ s))
       (divb_mul_ s).

(** [getNeighborCentroidIndices(x, y, z, const Eigen::MatrixXi&)]; the
    columns of the matrix are given as a list. *)
Definition getNeighborCentroidIndices (s : t) (px py pz : float)
    (relative_coordinates : list Vector3i) : option (list Z) :=
  ijk ← query_cell s px py pz;
  let diff2min := vec_lift2 int_sub (min_b_ s) ijk in
  let diff2max := vec_lift2 int_sub (max_b_ s) ijk in
  mapM (λ col,
          let displacement := with_zero col in
          if vec_all2 Z.leb diff2min displacement
             && vec_all2 Z.geb diff2max displacement
          then layout_read (leaf_layout_ s) (cell_index s ijk displacement)
          else Some (-1))
       relative_coordinates.

(** [getNeighborCentroidIndices(x, y, z, const std::vector<Eigen::Vector3i>&)] *)
Definition getNeighborCentroidIndices_vector (s : t) (px py pz : float)
    (relative_coordinates : list Vector3i) : option (list Z) :=
  ijk ← query_cell s px py pz;
  mapM (λ relative_coordinate,
          layout_read (leaf_layout_ s)
                      (cell_index s ijk (with_zero relative_coordinate)))
       relative_coordinates.

(** [getNeighborCentroidIndices(const PointT&, const Eigen::MatrixXi&)]: the
    same body, on the coordinates of the reference point. *)
Definition getNeighborCentroidIndices_point (s : t) (reference_point : PointT)
    (relative_coordinates : list Vector3i) : option (list Z) :=
  getNeighborCentroidIndices s (x reference_point) (y reference_point)
    (z reference_point) relative_coordinates.

Section Filtering.

Context (pcl : Common).

(** [boost::none] is the inner [None]. *)
Definition checkIfOverflow (s : t) (min_p max_p : Vector4f)
    : option (option Z) :=
  dx ← to_size_t
         (floor ((c0 max_p - c0 min_p) * c0 (inverse_leaf_size_ s))%Q + 1);
  dy ← to_size_t
         (floor ((c1 max_p - c1 min_p) * c1 (inverse_leaf_size_ s))%Q + 1);
  dz ← to_size_t
         (floor ((c2 max_p - c2 min_p) * c2 (inverse_leaf_size_ s))%Q + 1);
  o ← GridFilterBase.overflows dx dy dz;
  if (o : bool) then Some None else Some (Some (mul_sz (mul_sz dx dy) dz)).

Definition hashPoint (s : t) (pt : PointT) : option Z :=
  ijk0 ← to_size_t
           (floor (x pt * c0 (inverse_leaf_size_ s))%Q - c0 (min_b_ s));
  ijk1 ← to_size_t
           (floor (y pt * c1 (inverse_leaf_size_ s))%Q - c1 (min_b_ s));
  ijk2 ← to_size_t
           (floor (z pt * c2 (inverse_leaf_size_ s))%Q - c2 (min_b_ s));
  Some (add_sz (add_sz (mul_sz ijk0 (int_to_size_t (c0 (divb_mul_ s))))
                       (mul_sz ijk1 (int_to_size_t (c1 (divb_mul_ s)))))
               (mul_sz ijk2 (int_to_size_t (c2 (divb_mul_ s))))).


Definition getCentroidIndexAt (s : t) (ijk : Vector3i) : option Z :=
  let idx := dot4 (vec_lift2 int_sub (with_zero ijk) (min_b_ s))
                  (divb_mul_ s) in
  if (idx <? 0) || (size_t_to_int (Z.of_nat (length (leaf_layout_ s))) <=? idx)
  then Some (-1)
  else layout_read (leaf_layout_ s) idx.

(** The extrema that [setUp] obtains for the filter object [d]. *)
Definition extrema (d : Derived) : Vector4f * Vector4f :=
  if negb (is_empty (getFilterFieldName d)) then
    getMinMax3D_field pcl (getInputCloud d) (getIndices d)
      (getFilterFieldName d) (getFilterLimitMin d) (getFilterLimitMax d)
      (getFilterLimitsNegative d)
  else getMinMax3D pcl (getInputCloud d) (getIndices d).

(** Reset and growth of the leaf layout in [setUp]; running out of memory
    in [resize] is not modelled. *)
Definition reset_layout (new_layout_size : Z) (l : list Z) : list Z :=
  let reset_size := Z.min new_layout_size (Z.of_nat (length l)) in
  resize_to (Z.to_nat new_layout_size) (-1)
            (fill_prefix (Z.to_nat reset_size) (-1) l).

Definition setUp (d : Derived) (s : t) : option (bool * t) :=
  let s := set_filter s (getFilterFieldName d) (getFilterLimitMin d)
                      (getFilterLimitMax d) in
  let '(min_p, max_p) := extrema d in
  let s :=
    if negb (is_empty (filter_field_name_ s)) then
      let s := set_field_idx s (getFieldIndex pcl (filter_field_name_ s)) in
      if filter_field_idx_ s =? -1
      then PCL_WARN s "Invalid filter field name."
      else s
    else s in
  min_b ← floor_cast_int min_p (inverse_leaf_size_ s);
  max_b ← floor_cast_int max_p (inverse_leaf_size_ s);
  let div_b :=
    vec_lift2 int_add (vec_lift2 int_sub max_b min_b) (mkVector4 1 1 1 1) in
  let s := set_bounds s min_b max_b div_b
             (mkVector4 1 (c0 div_b) (int_mul (c0 div_b) (c1 div_b)) 0) in
  let s := set_num_voxels s 0 in
  max_num_voxels ← checkIfOverflow s min_p max_p;
  match max_num_voxels with
  | None =>
      Some (false,
            PCL_WARN s
              "Leaf size is too small for the input dataset. Integer indices would overflow.")
  | Some _ =>
      (* grid_.reserve(...) changes no content of the grid *)
      if getSaveLeafLayout d then
        let new_layout_size :=
          int_to_size_t (int_mul (int_mul (c0 (div_b_ s)) (c1 (div_b_ s)))
                                 (c2 (div_b_ s))) in
        Some (true, set_layout s (reset_layout new_layout_size (leaf_layout_ s)))
      else Some (true, s)
  end.

(** The field-range test of [addPointToGrid]: [true] when the point is to be
    skipped. *)
Definition rejected (d : Derived) (s : t) (pt : PointT) : option bool :=
  if negb (is_empty (filter_field_name_ s)) then
    distance_value ← field_value pt (filter_field_idx_ s);
    if getFilterLimitsNegative d then
      Some (Qlt_bool distance_value (filter_limit_max_ s)
            && Qlt_bool (filter_limit_min_ s) distance_value)
    else
      Some (Qlt_bool (filter_limit_max_ s) distance_value
            || Qlt_bool distance_value (filter_limit_min_ s))
  else Some false.

(** [grid_[h]]: the voxel at [h], created on first access. *)
Definition grid_at (g : gmap Z Voxel) (h : Z) : Voxel :=
  default Voxel_new (g !! h).

Definition addPointToGrid (d : Derived) (s : t) (pt : PointT) : option t :=
  skip ← rejected d s pt;
  if (skip : bool) then Some s
  else
    h ← hashPoint s pt;
    let v := grid_at (grid_ s) h in
    let v :=
      if negb (getDownsampleAllData d)
      then mkVoxel (centroid v)
                   (vec4f_add (coord_centroid v) (getVector4fMap pt))
                   (num_pt v)
      else mkVoxel (CentroidPoint_add (centroid v) pt) (coord_centroid v)
                   (num_pt v) in
    let v := mkVoxel (centroid v) (coord_centroid v) (add_sz (num_pt v) 1) in
    Some (set_grid s (<[h := v]> (grid_ s))).

(** [filterGrid(grid_it)]; the iterator is given by the key it points to. *)
Definition filterGrid (d : Derived) (s : t) (grid_it : Z)
    : option (option PointT * t) :=
  voxel ← grid_ s !! grid_it;
  if getMinimumPointsNumberPerVoxel d <=? num_pt voxel then
    s ← (if getSaveLeafLayout d then
           _ ← layout_read (leaf_layout_ s) grid_it;
           Some (set_num_voxels
                   (set_layout s (<[Z.to_nat grid_it :=
                                     size_t_to_int (num_voxels_ s)]>
                                  (leaf_layout_ s)))
                   (add_sz (num_voxels_ s) 1))
         else Some s);
    if negb (getDownsampleAllData d) then
      let cc := vec4f_div (coord_centroid voxel)
                          (size_t_to_float (num_pt voxel)) in
      let s := set_grid s (<[grid_it := mkVoxel (centroid voxel) cc
                                                (num_pt voxel)]> (grid_ s)) in
      Some (Some (mkPoint (c0 cc) (c1 cc) (c2 cc) (c3 cc)
                          (fields (default_point pcl))), s)
    else
      Some (Some (CentroidPoint_get (centroid voxel) (default_point pcl)), s)
  else Some (None, s).

Fixpoint add_points (d : Derived) (s : t) (pts : list PointT) : option t :=
  match pts with
  | [] => Some s
  | pt :: rest => s ← addPointToGrid d s pt; add_points d s rest
  end.

Definition emitted (o : option PointT) : list PointT :=
  match o with Some p => [p] | None => [] end.

Fixpoint filter_cells (d : Derived) (s : t) (cells : list Z)
    : option (list PointT * t) :=
  match cells with
  | [] => Some ([], s)
  | grid_it :: rest =>
      '(o, s) ← filterGrid d s grid_it;
      '(out, s) ← filter_cells d s rest;
      Some (emitted o ++ out, s)
  end.

(** The keys of the grid in the order the cells are visited;
    [std::unordered_map] leaves that order unspecified, the model takes the
    one of [map_to_list]. *)
Definition cells_of (g : gmap Z Voxel) : list Z := (map_to_list g).*1.

(** Modelled from the spec: [applyFilter], the driver of the three phases,
    belongs to the filter base class of this revision, which is not among the
    sources.  Following sections 4.1 and 7, an empty input gives an empty,
    non-dense output at once; otherwise [setUp] runs, [addPointToGrid] is
    called for every input point and [filterGrid] for every cell of the grid,
    each emitted point being appended to the output.  The output after a
    failed [setUp] is the one the test TEST(StructMethods, GridFilter) of the
    repository requires: a dense cloud with as many points as the input (the
    input cloud itself).  The driver does nothing to the grid before [setUp];
    the properties of a call below are stated for a structure whose grid is
    empty when the call starts. *)
Definition applyFilter (d : Derived) (s : t) : option (PointCloud * t) :=
  match getInputCloud d with
  | [] => Some (mkPointCloud [] false, s)
  | _ =>
      '(ok, s) ← setUp d s;
      if (ok : bool) then
        s ← add_points d s (getInputCloud d);
        '(out, s) ← filter_cells d s (cells_of (grid_ s));
        Some (mkPointCloud out true, s)
      else Some (mkPointCloud (getInputCloud d) true, s)
  end.

End Filtering.

End VoxelStructT.

(** ** VoxelStructT, revision that hashes through GridFilterBase and clears
    the grid in setUp *)

Module VoxelStructT_base.

Record t : Type := mkT {
  filter_name_ : string;
  leaf_size_ : Vector4f;
  inverse_leaf_size_ : Vector4f;
  save_leaf_layout_ : bool;
  leaf_layout_ : list Z;
  min_b_ : Vector4i;
  max_b_ : Vector4i;
  div_b_ : Vector4i;
  divb_mul_ : Vector4i;
  grid_ : gmap Z CentroidPoint;
  num_voxels_ : Z;
  downsample_all_data_ : bool;
  min_points_per_voxel_ : Z;
  console_ : list string
}.

Definition new : t :=
  mkT "VoxelGrid" vec4f_zero vec4f_zero false [] vec4i_zero vec4i_zero
      vec4i_zero vec4i_zero ∅ 0 false 0 [].

Definition set_leaf (s : t) (leaf inv : Vector4f) : t :=
  mkT (filter_name_ s) leaf inv (save_leaf_layout_ s) (leaf_layout_ s)
      (min_b_ s) (max_b_ s) (div_b_ s) (divb_mul_ s) (grid_ s) (num_voxels_ s)
      (downsample_all_data_ s) (min_points_per_voxel_ s) (console_ s).

Definition setSaveLeafLayout (s : t) (save_leaf_layout : bool) : t :=
  mkT (filter_name_ s) (leaf_size_ s) (inverse_leaf_size_ s) save_leaf_layout
      (leaf_layout_ s) (min_b_ s) (max_b_ s) (div_b_ s) (divb_mul_ s) (grid_ s)
      (num_voxels_ s) (downsample_all_data_ s) (min_points_per_voxel_ s)
      (console_ s).

Definition set_settings (s : t) (downsample : bool) (min_points : Z) : t :=
  mkT (filter_name_ s) (leaf_size_ s) (inverse_leaf_size_ s)
      (save_leaf_layout_ s) (leaf_layout_ s) (min_b_ s) (max_b_ s) (div_b_ s)
      (divb_mul_ s) (grid_ s) (num_voxels_ s) downsample min_points
      (console_ s).

Definition set_bounds (s : t) (mn mx dv mul : Vector4i) : t :=
  mkT (filter_name_ s) (leaf_size_ s) (inverse_leaf_size_ s)
      (save_leaf_layout_ s) (leaf_layout_ s) mn mx dv mul (grid_ s)
      (num_voxels_ s) (downsample_all_data_ s) (min_points_per_voxel_ s)
      (console_ s).

Definition set_grid (s : t) (g : gmap Z CentroidPoint) : t :=
  mkT (filter_name_ s) (leaf_size_ s) (inverse_leaf_size_ s)
      (save_leaf_layout_ s) (leaf_layout_ s) (min_b_ s) (max_b_ s) (div_b_ s)
      (divb_mul_ s) g (num_voxels_ s) (downsample_all_data_ s)
      (min_points_per_voxel_ s) (console_ s).

Definition set_layout (s : t) (l : list Z) : t :=
  mkT (filter_name_ s) (leaf_size_ s) (inverse_leaf_size_ s)
      (save_leaf_layout_ s) l (min_b_ s) (max_b_ s) (div_b_ s) (divb_mul_ s)
      (grid_ s) (num_voxels_ s) (downsample_all_data_ s)
      (min_points_per_voxel_ s) (console_ s).

Definition set_num_voxels (s : t) (n : Z) : t :=
  mkT (filter_name_ s) (leaf_size_ s) (inverse_leaf_size_ s)
      (save_leaf_layout_ s) (leaf_layout_ s) (min_b_ s) (max_b_ s) (div_b_ s)
      (divb_mul_ s) (grid_ s) n (downsample_all_data_ s)
      (min_points_per_voxel_ s) (console_ s).

Definition PCL_WARN (s : t) (msg : string) : t :=
  mkT (filter_name_ s) (leaf_size_ s) (inverse_leaf_size_ s)
      (save_leaf_layout_ s) (leaf_layout_ s) (min_b_ s) (max_b_ s) (div_b_ s)
      (divb_mul_ s) (grid_ s) (num_voxels_ s) (downsample_all_data_ s)
      (min_points_per_voxel_ s) (console_ s ++ [msg]).

(** [setLeafSize(const Eigen::Vector4f&)] *)
Definition setLeafSize4 (s : t) (leaf_size : Vector4f) : t :=
  let leaf := VoxelStructT.avoid_division_errors leaf_size in
  set_leaf s leaf (VoxelStructT.inverse_of leaf).

(** [setLeafSize(float lx, float ly, float lz)] *)
Definition setLeafSize (s : t) (lx ly lz : float) : t :=
  let leaf := VoxelStructT.avoid_division_errors
                (mkVector4 lx ly lz (c3 (leaf_size_ s))) in
  set_leaf s leaf (VoxelStructT.inverse_of leaf).

Definition getGridCoordinates (s : t) (px py pz : float) : option Vector3i :=
  i ← to_int (floor (px * c0 (inverse_leaf_size_ s))%Q);
  j ← to_int (floor (py * c1 (inverse_leaf_size_ s))%Q);
  k ← to_int (floor (pz * c2 (inverse_leaf_size_ s))%Q);
  Some (mkVector3i i j k).

Definition cell_index (s : t) (ijk displacement : Vector4i) : Z :=
  dot4 (vec_lift2 int_sub (vec_lift2 int_add ijk displacement) (min_b_ s))
       (divb_mul_ s).

(** [getNeighborCentroidIndices(x, y, z, const Eigen::MatrixXi&)] *)
Definition getNeighborCentroidIndices (s : t) (px py pz : float)
    (relative_coordinates : list Vector3i) : option (list Z) :=
  ijk ← VoxelStructT.with_zero <$> getGridCoordinates s px py pz;
  let diff2min := vec_lift2 int_sub (min_b_ s) ijk in
  let diff2max := vec_lift2 int_sub (max_b_ s) ijk in
  mapM (λ col,
          let displacement := VoxelStructT.with_zero col in
          if vec_all2 Z.leb diff2min displacement
             && vec_all2 Z.geb diff2max displacement
          then layout_read (leaf_layout_ s) (cell_index s ijk displacement)
          else Some (-1))
       relative_coordinates.

(** [getNeighborCentroidIndices(x, y, z, const std::vector<Eigen::Vector3i>&)] *)
Definition getNeighborCentroidIndices_vector (s : t) (px py pz : float)
    (relative_coordinates : list Vector3i) : option (list Z) :=
  ijk ← VoxelStructT.with_zero <$> getGridCoordinates s px py pz;
  mapM (λ relative_coordinate,
          layout_read (leaf_layout_ s)
            (cell_index s ijk (VoxelStructT.with_zero relative_coordinate)))
       relative_coordinates.

Section Filtering.

Context (pcl : Common).

Definition setUp (d : Derived) (s : t) : option (bool * t) :=
  let s := set_settings s (getDownsampleAllData d)
                        (getMinimumPointsNumberPerVoxel d) in
  let '(min_p, max_p) := getMinMax3D pcl (getInputCloud d) (getIndices d) in
  min_b ← floor_cast_int min_p (inverse_leaf_size_ s);
  max_b ← floor_cast_int max_p (inverse_leaf_size_ s);
  let div_b :=
    vec_lift2 int_add (vec_lift2 int_sub max_b min_b) (mkVector4 1 1 1 1) in
  let s := set_bounds s min_b max_b div_b
             (mkVector4 1 (c0 div_b) (int_mul (c0 div_b) (c1 div_b)) 0) in
  let s := set_num_voxels s 0 in
  let s := set_grid s ∅ in
  hash_range ← GridFilterBase.checkHashRange min_p max_p (inverse_leaf_size_ s);
  if hash_range =? 0 then
    Some (false,
          PCL_WARN s
            "Leaf size is too small for the input dataset. Integer indices would overflow.")
  else
    (* grid_.reserve(...) changes no content of the grid *)
    if save_leaf_layout_ s then
      let new_layout_size :=
        int_to_size_t (int_mul (int_mul (c0 (div_b_ s)) (c1 (div_b_ s)))
                               (c2 (div_b_ s))) in
      Some (true,
            set_layout s (VoxelStructT.reset_layout new_layout_size
                                                    (leaf_layout_ s)))
    else Some (true, s).

Definition addPointToGrid (s : t) (pt : PointT) : option t :=
  h ← GridFilterBase.hashPoint pt (inverse_leaf_size_ s) (min_b_ s)
                              (divb_mul_ s);
  Some (set_grid s (<[h := CentroidPoint_add
                             (default CentroidPoint_empty (grid_ s !! h)) pt]>
                    (grid_ s))).

Definition filterGrid (s : t) (grid_it : Z) : option (option PointT * t) :=
  voxel ← grid_ s !! grid_it;
  if min_points_per_voxel_ s <=? CentroidPoint_getSize voxel then
    let centroid :=
      if negb (downsample_all_data_ s) then
        let pt := CentroidPoint_get voxel (default_point pcl) in
        mkPoint (x pt) (y pt) (z pt) (data3 pt) (fields (default_point pcl))
      else CentroidPoint_get voxel (default_point pcl) in
    s ← (if save_leaf_layout_ s then
           _ ← layout_read (leaf_layout_ s) grid_it;
           Some (set_num_voxels
                   (set_layout s (<[Z.to_nat grid_it :=
                                     size_t_to_int (num_voxels_ s)]>
                                  (leaf_layout_ s)))
                   (add_sz (num_voxels_ s) 1))
         else Some s);
    Some (Some centroid, s)
  else Some (None, s).

Fixpoint add_points (s : t) (pts : list PointT) : option t :=
  match pts with
  | [] => Some s
  | pt :: rest => s ← addPointToGrid s pt; add_points s rest
  end.

Fixpoint filter_cells (s : t) (cells : list Z) : option (list PointT * t) :=
  match cells with
  | [] => Some ([], s)
  | grid_it :: rest =>
      '(o, s) ← filterGrid s grid_it;
      '(out, s) ← filter_cells s rest;
      Some (VoxelStructT.emitted o ++ out, s)
  end.

(** Modelled from the spec: [applyFilter] of [TransformFilter], the driver of
    the three phases, is not among the sources; it is modelled as for the
    other revision (sections 4.1 and 7, and the repository's test for the
    output after a failed [setUp]). *)
Definition applyFilter (d : Derived) (s : t) : option (PointCloud * t) :=
  match getInputCloud d with
  | [] => Some (mkPointCloud [] false, s)
  | _ =>
      '(ok, s) ← setUp d s;
      if (ok : bool) then
        s ← add_points s (getInputCloud d);
        '(out, s) ← filter_cells s (map_to_list (grid_ s)).*1;
        Some (mkPointCloud out true, s)
      else Some (mkPointCloud (getInputCloud d) true, s)
  end.

End Filtering.

End VoxelStructT_base.

(** ** LabeledVoxel (voxel_grid_label.h): a voxel that votes on the label *)

Module LabeledVoxel.

Record PointXYZRGBL : Type := mkPointXYZRGBL {
  lx : float; ly : float; lz : float; ldata3 : float;
  rgba : Z;
  label : Z
}.

Definition getArray4fMap (pt : PointXYZRGBL) : Vector4f :=
  mkVector4 (lx pt) (ly pt) (lz pt) (ldata3 pt).

(** Order of the entries of [std::map<std::uint32_t, std::size_t>]: by
    key. *)
Definition key_le (a b : Z * Z) : Prop := a.1 ≤ b.1.

#[global] Instance key_le_dec : RelDecision key_le :=
  λ a b, decide (a.1 ≤ b.1).

(** The entries of the map in the order a range-for visits them. *)
Definition entries (labels : gmap Z Z) : list (Z * Z) :=
  merge_sort key_le (map_to_list labels).

(** The loop of [get] over the label counts: [max] and [pt.label]. *)
Definition vote_step (acc : Z * Z) (entry : Z * Z) : Z * Z :=
  if acc.1 <? entry.2 then (entry.2, entry.1) else acc.

Definition vote (labels : gmap Z Z) (init : Z) : Z :=
  (foldl vote_step (0, init) (entries labels)).2.

Section WithBase.

(** The base class [Voxel<PointXYZRGBL>] of this header is not among the
    sources: the accumulator behind [centroid_.all_fields], the point a
    default constructor leaves and [Voxel::clear] are parameters; the
    members that [add] and [get] use are the fields of [Voxel]. *)
Context {AllFields : Type}.
Context (all_fields_add : AllFields → PointXYZRGBL → AllFields).
Context (all_fields_get : AllFields → PointXYZRGBL → PointXYZRGBL).
Context (default_point : PointXYZRGBL).

Record Voxel : Type := mkVoxel {
  num_pt_ : Z;
  downsample_all_data_ : bool;
  centroid_xyz : Vector4f;
  centroid_all_fields : AllFields
}.

Context (Voxel_clear : Voxel → Voxel).

Record t : Type := mkT {
  base : Voxel;
  labels_ : gmap Z Z
}.

Definition add (v : t) (pt : PointXYZRGBL) : t :=
  let b := base v in
  let n := add_sz (num_pt_ b) 1 in
  if downsample_all_data_ b then
    mkT (mkVoxel n (downsample_all_data_ b) (centroid_xyz b)
                 (all_fields_add (centroid_all_fields b) pt))
        (labels_ v)
  else
    mkT (mkVoxel n (downsample_all_data_ b)
                 (vec4f_add (centroid_xyz b) (getArray4fMap pt))
                 (centroid_all_fields b))
        (<[label pt := add_sz (default 0 (labels_ v !! label pt)) 1]>
           (labels_ v)).

Definition get (v : t) : PointXYZRGBL :=
  let b := base v in
  if downsample_all_data_ b then
    all_fields_get (centroid_all_fields b) default_point
  else
    let c := vec4f_div (centroid_xyz b) (size_t_to_float (num_pt_ b)) in
    mkPointXYZRGBL (c0 c) (c1 c) (c2 c) (c3 c) (rgba default_point)
      (vote (labels_ v) (label default_point)).

Definition clear (v : t) : t :=
  let b := Voxel_clear (base v) in
  if negb (downsample_all_data_ b) then mkT b ∅ else mkT b (labels_ v).

End WithBase.

End LabeledVoxel.

(** ** The helpers of the test file (test_filters_experimental.cpp) *)

Module Tests.


(** The comparison that EXPECT_POINTS_EQ hands to [std::sort]. *)
Definition pt_cmp (p1 p2 : PointT) : bool :=
  Qlt_bool (x p2) (x p1)
  || (Qeq_bool (x p1) (x p2) && Qlt_bool (y p2) (y p1))
  || (Qeq_bool (x p1) (x p2) && Qeq_bool (y p1) (y p2)
      && Qlt_bool (z p2) (z p1)).

End Tests.

(** ** An instance of the parameters, for the worked examples

    The extrema are the componentwise minimum and maximum over the points
    (over those passing the field test, in the field variant), starting from
    FLT_MAX and -FLT_MAX; the fields x, y, z have the indices 0, 1, 2. *)

Module Example.

Definition FLT_MAX : float := inject_Z 340282346638528859811704183484516925440.

Definition fmin (a b : float) : float := if Qle_bool a b then a else b.
Definition fmax (a b : float) : float := if Qle_bool a b then b else a.

Definition vmin (a b : Vector4f) : Vector4f :=
  mkVector4 (fmin (c0 a) (c0 b)) (fmin (c1 a) (c1 b)) (fmin (c2 a) (c2 b))
            (fmin (c3 a) (c3 b)).
Definition vmax (a b : Vector4f) : Vector4f :=
  mkVector4 (fmax (c0 a) (c0 b)) (fmax (c1 a) (c1 b)) (fmax (c2 a) (c2 b))
            (fmax (c3 a) (c3 b)).

Definition minmax (pts : list PointT) : Vector4f * Vector4f :=
  foldl (λ mm pt, (vmin mm.1 (getVector4fMap pt), vmax mm.2 (getVector4fMap pt)))
        (mkVector4 FLT_MAX FLT_MAX FLT_MAX FLT_MAX,
         mkVector4 (- FLT_MAX)%Q (- FLT_MAX)%Q (- FLT_MAX)%Q (- FLT_MAX)%Q)
        pts.

Definition field_index (name : string) : Z :=
  if String.eqb name "x" then 0
  else if String.eqb name "y" then 1
  else if String.eqb name "z" then 2
  else -1.

Definition passes (name : string) (lo hi : float) (negative : bool)
    (pt : PointT) : bool :=
  match field_value pt (field_index name) with
  | Some v =>
      if negative then negb (Qlt_bool v hi && Qlt_bool lo v)
      else negb (Qlt_bool hi v || Qlt_bool v lo)
  | None => true
  end.

Definition pcl : Common :=
  mkCommon (λ cloud _, minmax cloud)
           (λ cloud _ name lo hi negative,
              minmax (List.filter (passes name lo hi negative) cloud))
           field_index
           (mkPoint 0%Q 0%Q 0%Q 1%Q []).

(** The scenario of the spec: three points, two of them in one cell. *)
Definition cloud3 : list PointT :=
  [PointXYZ 0%Q 0%Q 0%Q; PointXYZ (1#100) (1#100) (1#100); PointXYZ 5%Q 5%Q 5%Q].

Definition settings (cloud : list PointT) (save all : bool) (min_points : Z)
    : Derived :=
  mkDerived cloud [] "" 0%Q 0%Q false save all min_points.

End Example.

(** * Vocabulary of the statements *)

(** The count of one axis as the check computes it, before its conversion to
    [std::size_t]. *)
Definition axis_count (lo hi inv : float) : Z :=
  floor ((hi - lo) * inv)%Q + 1.

(** The range test as the claim words it: the value fails when it is outside
    [[min, max]], or strictly inside [(min, max)] with the negative flag. *)
Definition fails_range_test (negative : bool) (lo hi v : float) : Prop :=
  if negative then (lo < v)%Q ∧ (v < hi)%Q else (v < lo)%Q ∨ (hi < v)%Q.

(** A 2 x 2 x 1 grid with bounding box (0,0,0)..(1,1,0), leaf size 1, whose
    four cells hold the output indices 3, 2, 1, 0. *)
Definition grid2x2 : VoxelStructT.t :=
  VoxelStructT.mkT "VoxelGrid" (mkVector4 1%Q 1%Q 1%Q 1%Q)
    (mkVector4 1%Q 1%Q 1%Q 1%Q) [3; 2; 1; 0]
    (mkVector4 0 0 0 0) (mkVector4 1 1 0 0) (mkVector4 2 2 1 1)
    (mkVector4 1 2 4 0) ∅ 4 0 0%Q 0%Q "" [].

Definition grid2x2_base : VoxelStructT_base.t :=
  VoxelStructT_base.mkT "VoxelGrid" (mkVector4 1%Q 1%Q 1%Q 1%Q)
    (mkVector4 1%Q 1%Q 1%Q 1%Q) true [3; 2; 1; 0]
    (mkVector4 0 0 0 0) (mkVector4 1 1 0 0) (mkVector4 2 2 1 1)
    (mkVector4 1 2 4 0) ∅ 4 false 0 [].

Definition within (lo hi : Vector4f) (pt : PointT) : Prop :=
  (c0 lo <= x pt)%Q ∧ (x pt <= c0 hi)%Q ∧ (c1 lo <= y pt)%Q
  ∧ (y pt <= c1 hi)%Q ∧ (c2 lo <= z pt)%Q ∧ (z pt <= c2 hi)%Q.

Definition nonneg_inverse (s : VoxelStructT.t) : Prop :=
  (0 <= c0 (VoxelStructT.inverse_leaf_size_ s))%Q
  ∧ (0 <= c1 (VoxelStructT.inverse_leaf_size_ s))%Q
  ∧ (0 <= c2 (VoxelStructT.inverse_leaf_size_ s))%Q.

(** Number of cells along an axis, from the bounding box, as an exact
    integer. *)
Definition cells_x (s : VoxelStructT.t) : Z :=
  c0 (VoxelStructT.max_b_ s) - c0 (VoxelStructT.min_b_ s) + 1.
Definition cells_y (s : VoxelStructT.t) : Z :=
  c1 (VoxelStructT.max_b_ s) - c1 (VoxelStructT.min_b_ s) + 1.
Definition cells_z (s : VoxelStructT.t) : Z :=
  c2 (VoxelStructT.max_b_ s) - c2 (VoxelStructT.min_b_ s) + 1.

Record setUp_facts (pcl : Common) (d : Derived) (s s1 : VoxelStructT.t)
    : Prop := mkSetUpFacts {
  su_inverse : VoxelStructT.inverse_leaf_size_ s1
               = VoxelStructT.inverse_leaf_size_ s;
  su_leaf : VoxelStructT.leaf_size_ s1 = VoxelStructT.leaf_size_ s;
  su_min_b : floor_cast_int (VoxelStructT.extrema pcl d).1
               (VoxelStructT.inverse_leaf_size_ s)
             = Some (VoxelStructT.min_b_ s1);
  su_max_b : floor_cast_int (VoxelStructT.extrema pcl d).2
               (VoxelStructT.inverse_leaf_size_ s)
             = Some (VoxelStructT.max_b_ s1);
  su_div_b : VoxelStructT.div_b_ s1
             = vec_lift2 int_add
                 (vec_lift2 int_sub (VoxelStructT.max_b_ s1)
                                    (VoxelStructT.min_b_ s1))
                 (mkVector4 1 1 1 1);
  su_divb_mul : VoxelStructT.divb_mul_ s1
                = mkVector4 1 (c0 (VoxelStructT.div_b_ s1))
                    (int_mul (c0 (VoxelStructT.div_b_ s1))
                             (c1 (VoxelStructT.div_b_ s1))) 0;
  su_num_voxels : VoxelStructT.num_voxels_ s1 = 0;
  su_grid : VoxelStructT.grid_ s1 = VoxelStructT.grid_ s;
  su_name : VoxelStructT.filter_field_name_ s1 = getFilterFieldName d;
  su_lo : VoxelStructT.filter_limit_min_ s1 = getFilterLimitMin d;
  su_hi : VoxelStructT.filter_limit_max_ s1 = getFilterLimitMax d
}.

(** The exact linear index of the cell of a point. *)
Definition linear_index (s : VoxelStructT.t) (pt : PointT) : Z :=
  (floor (x pt * c0 (VoxelStructT.inverse_leaf_size_ s))%Q
   - c0 (VoxelStructT.min_b_ s)) * c0 (VoxelStructT.divb_mul_ s)
  + (floor (y pt * c1 (VoxelStructT.inverse_leaf_size_ s))%Q
     - c1 (VoxelStructT.min_b_ s)) * c1 (VoxelStructT.divb_mul_ s)
  + (floor (z pt * c2 (VoxelStructT.inverse_leaf_size_ s))%Q
     - c2 (VoxelStructT.min_b_ s)) * c2 (VoxelStructT.divb_mul_ s).

(** The structure after setUp on the three-point cloud of the spec, leaf
    size 1. *)
Definition cloud3_ready : VoxelStructT.t :=
  Eval vm_compute in
    match VoxelStructT.setUp Example.pcl
            (Example.settings Example.cloud3 true false 0)
            (VoxelStructT.setLeafSize VoxelStructT.new 1%Q 1%Q 1%Q) with
    | Some (_, s) => s
    | None => VoxelStructT.new
    end.

(** The update of a voxel by one point, as addPointToGrid performs it. *)
Definition add_to_voxel (d : Derived) (v : VoxelStructT.Voxel) (pt : PointT)
    : VoxelStructT.Voxel :=
  let v :=
    if negb (getDownsampleAllData d)
    then VoxelStructT.mkVoxel (VoxelStructT.centroid v)
           (vec4f_add (VoxelStructT.coord_centroid v) (getVector4fMap pt))
           (VoxelStructT.num_pt v)
    else VoxelStructT.mkVoxel (CentroidPoint_add (VoxelStructT.centroid v) pt)
           (VoxelStructT.coord_centroid v) (VoxelStructT.num_pt v) in
  VoxelStructT.mkVoxel (VoxelStructT.centroid v) (VoxelStructT.coord_centroid v)
    (add_sz (VoxelStructT.num_pt v) 1).

(** The point passes the field-range test and lands in cell [h]. *)
Definition lands_in (d : Derived) (s : VoxelStructT.t) (h : Z) (pt : PointT)
    : bool :=
  match VoxelStructT.rejected d s pt, VoxelStructT.hashPoint s pt with
  | Some false, Some k => k =? h
  | _, _ => false
  end.

(** The points of a cloud assigned to cell [h], in the order of the cloud. *)
Definition cell_points (d : Derived) (s : VoxelStructT.t) (h : Z)
    (pts : list PointT) : list PointT :=
  List.filter (lands_in d s h) pts.

(** The point is either skipped by the range test or has a defined hash. *)
Definition binnable (d : Derived) (s : VoxelStructT.t) (pt : PointT) : Prop :=
  VoxelStructT.rejected d s pt = Some true
  ∨ (VoxelStructT.rejected d s pt = Some false
     ∧ is_Some (VoxelStructT.hashPoint s pt)).

Definition bin_step (d : Derived) (s : VoxelStructT.t)
    (g : gmap Z VoxelStructT.Voxel) (pt : PointT) : gmap Z VoxelStructT.Voxel :=
  match VoxelStructT.rejected d s pt, VoxelStructT.hashPoint s pt with
  | Some false, Some h =>
      <[h := add_to_voxel d (VoxelStructT.grid_at g h) pt]> g
  | _, _ => g
  end.

Definition bin (d : Derived) (s : VoxelStructT.t)
    (g : gmap Z VoxelStructT.Voxel) (pts : list PointT)
    : gmap Z VoxelStructT.Voxel :=
  foldl (bin_step d s) g pts.


(** The point emitted in geometry-only mode: the xyz running sum (and the
    fourth entry) divided by the occupancy, other fields value-initialised. *)
Definition geometry_point (pcl : Common) (v : VoxelStructT.Voxel) : PointT :=
  let cc := vec4f_div (VoxelStructT.coord_centroid v)
                      (size_t_to_float (VoxelStructT.num_pt v)) in
  mkPoint (c0 cc) (c1 cc) (c2 cc) (c3 cc) (fields (default_point pcl)).

Definition emits (d : Derived) (v : VoxelStructT.Voxel) : bool :=
  getMinimumPointsNumberPerVoxel d <=? VoxelStructT.num_pt v.

(** What filterGrid returns for a voxel. *)
Definition representative (pcl : Common) (d : Derived)
    (v : VoxelStructT.Voxel) : option PointT :=
  if emits d v then
    Some (if negb (getDownsampleAllData d) then geometry_point pcl v
          else CentroidPoint_get (VoxelStructT.centroid v) (default_point pcl))
  else None.

(** The cells of a list that emit a point, in the order of the list. *)
Definition emitting (d : Derived) (g : gmap Z VoxelStructT.Voxel)
    (cells : list Z) : list Z :=
  List.filter (λ h, emits d (VoxelStructT.grid_at g h)) cells.

(** The output of the emission phase over [cells]. *)
Definition emissions (pcl : Common) (d : Derived)
    (g : gmap Z VoxelStructT.Voxel) (cells : list Z) : list PointT :=
  flat_map (λ h, VoxelStructT.emitted
                   (representative pcl d (VoxelStructT.grid_at g h))) cells.

(** The leaf layout and the counter after the emitting cells [es] were
    recorded one after the other. *)
Fixpoint layout_after (l : list Z) (n : Z) (es : list Z) : list Z * Z :=
  match es with
  | [] => (l, n)
  | h :: rest =>
      layout_after (<[Z.to_nat h := size_t_to_int n]> l) (add_sz n 1) rest
  end.

(** The conditions under which a filter call runs to its end: setUp
    succeeds from a structure with an empty grid, the inverse leaf size is
    not negative, every point can be tested against the field range, the
    points passing the test lie within the extrema, and the bounding box is
    not empty and its number of cells fits [int]. *)
Record prepared (pcl : Common) (d : Derived) (s s1 : VoxelStructT.t)
    : Prop := mkPrepared {
  prep_input : getInputCloud d ≠ [];
  prep_setUp : VoxelStructT.setUp pcl d s = Some (true, s1);
  prep_grid : VoxelStructT.grid_ s = ∅;
  prep_inverse : nonneg_inverse s;
  prep_test : ∀ pt, pt ∈ getInputCloud d →
              is_Some (VoxelStructT.rejected d s1 pt);
  prep_within : ∀ pt, pt ∈ getInputCloud d →
                VoxelStructT.rejected d s1 pt = Some false →
                within (VoxelStructT.extrema pcl d).1
                       (VoxelStructT.extrema pcl d).2 pt;
  prep_box : 1 ≤ cells_x s1 ∧ 1 ≤ cells_y s1 ∧ 1 ≤ cells_z s1;
  prep_xyz : cells_x s1 * cells_y s1 * cells_z s1 ≤ INT_MAX;
  prep_size : Z.of_nat (length (getInputCloud d)) ≤ SIZE_MAX
}.

(** The grid after the binning phase of the call. *)
Definition binned (d : Derived) (s1 : VoxelStructT.t)
    : gmap Z VoxelStructT.Voxel :=
  bin d s1 ∅ (getInputCloud d).

(** Discharges [prepared] for a concrete cloud without a filter field: every
    component is evaluated. *)
Ltac solve_prepared :=
  constructor;
  [ discriminate
  | vm_compute; reflexivity
  | reflexivity
  | vm_compute; repeat split; discriminate
  | intros pt _; eexists; reflexivity
  | intros pt Hpt _;
    repeat (apply elem_of_cons in Hpt as [->|Hpt]);
    [ vm_compute; repeat split; discriminate .. | inversion Hpt ]
  | vm_compute; repeat split; discriminate
  | vm_compute; discriminate
  | vm_compute; discriminate ].










(** The bounding box as [int] values and the strides that setUp derives from
    it, when no product wraps. *)
Record box_facts (s1 : VoxelStructT.t) : Prop := mkBoxFacts {
  bx_min : INT_MIN ≤ c0 (VoxelStructT.min_b_ s1) ≤ INT_MAX
           ∧ INT_MIN ≤ c1 (VoxelStructT.min_b_ s1) ≤ INT_MAX
           ∧ INT_MIN ≤ c2 (VoxelStructT.min_b_ s1) ≤ INT_MAX;
  bx_max : INT_MIN ≤ c0 (VoxelStructT.max_b_ s1) ≤ INT_MAX
           ∧ INT_MIN ≤ c1 (VoxelStructT.max_b_ s1) ≤ INT_MAX
           ∧ INT_MIN ≤ c2 (VoxelStructT.max_b_ s1) ≤ INT_MAX;
  bx_div : VoxelStructT.getNrDivisions s1
           = mkVector3i (cells_x s1) (cells_y s1) (cells_z s1);
  bx_mul : VoxelStructT.getDivisionMultiplier s1
           = mkVector3i 1 (cells_x s1) (cells_x s1 * cells_y s1);
  bx_mul3 : c3 (VoxelStructT.divb_mul_ s1) = 0
}.

(** Componentwise order of the extrema along x, y, z. *)
Definition ordered (mm : Vector4f * Vector4f) : Prop :=
  (c0 mm.1 <= c0 mm.2)%Q ∧ (c1 mm.1 <= c1 mm.2)%Q ∧ (c2 mm.1 <= c2 mm.2)%Q.

(** The size of the leaf layout that setUp asks for: the [int] product of
    the division counts, converted to [std::size_t]. *)
Definition new_layout_size (s1 : VoxelStructT.t) : Z :=
  int_to_size_t
    (int_mul (int_mul (i0 (VoxelStructT.getNrDivisions s1))
                      (i1 (VoxelStructT.getNrDivisions s1)))
             (i2 (VoxelStructT.getNrDivisions s1))).

(** A structure whose leaf layout covers the bounding box, as a successful
    setUp with save-leaf-layout leaves it when the number of cells fits
    [int]. *)
Record layout_ready (s : VoxelStructT.t) : Prop := mkLayoutReady {
  lr_box : box_facts s;
  lr_pos : 1 ≤ cells_x s ∧ 1 ≤ cells_y s ∧ 1 ≤ cells_z s;
  lr_xyz : cells_x s * cells_y s * cells_z s ≤ INT_MAX;
  lr_len : Z.of_nat (length (VoxelStructT.leaf_layout_ s))
           = cells_x s * cells_y s * cells_z s;
  lr_w : INT_MIN ≤ c3 (VoxelStructT.min_b_ s) ≤ 0
         ∧ 0 ≤ c3 (VoxelStructT.max_b_ s) ≤ INT_MAX
}.

Definition fits_int (v : Z) : Prop := INT_MIN ≤ v ≤ INT_MAX.

(** The cell at the offset [col] from the cell [ijk], in exact integers. *)
Definition target (ijk : Vector4i) (col : Vector3i) : Vector3i :=
  mkVector3i (c0 ijk + i0 col) (c1 ijk + i1 col) (c2 ijk + i2 col).

(** The [int] differences that the query forms for an offset are exact. *)
Definition query_fits (s : VoxelStructT.t) (ijk : Vector4i) (col : Vector3i)
    : Prop :=
  fits_int (c0 (VoxelStructT.min_b_ s) - c0 ijk)
  ∧ fits_int (c1 (VoxelStructT.min_b_ s) - c1 ijk)
  ∧ fits_int (c2 (VoxelStructT.min_b_ s) - c2 ijk)
  ∧ fits_int (c0 (VoxelStructT.max_b_ s) - c0 ijk)
  ∧ fits_int (c1 (VoxelStructT.max_b_ s) - c1 ijk)
  ∧ fits_int (c2 (VoxelStructT.max_b_ s) - c2 ijk)
  ∧ fits_int (i0 (target ijk col)) ∧ fits_int (i1 (target ijk col))
  ∧ fits_int (i2 (target ijk col)).

(** The cell lies in the bounding box. *)
Definition in_box (s : VoxelStructT.t) (t : Vector3i) : bool :=
  (c0 (VoxelStructT.min_b_ s) <=? i0 t) && (i0 t <=? c0 (VoxelStructT.max_b_ s))
  && (c1 (VoxelStructT.min_b_ s) <=? i1 t) && (i1 t <=? c1 (VoxelStructT.max_b_ s))
  && (c2 (VoxelStructT.min_b_ s) <=? i2 t) && (i2 t <=? c2 (VoxelStructT.max_b_ s)).

(** The position of a cell of the box in the leaf layout. *)
Definition layout_position (s : VoxelStructT.t) (t : Vector3i) : Z :=
  (i0 t - c0 (VoxelStructT.min_b_ s))
  + (i1 t - c1 (VoxelStructT.min_b_ s)) * cells_x s
  + (i2 t - c2 (VoxelStructT.min_b_ s)) * (cells_x s * cells_y s).

(** What a checked query answers for one offset. *)
Definition neighbor_entry (s : VoxelStructT.t) (ijk : Vector4i)
    (col : Vector3i) : Z :=
  if in_box s (target ijk col)
  then nth (Z.to_nat (layout_position s (target ijk col)))
           (VoxelStructT.leaf_layout_ s) (-1)
  else -1.

Ltac solve_layout_ready :=
  constructor;
  [ constructor; vm_compute; repeat split; try reflexivity; discriminate
  | vm_compute; repeat split; discriminate
  | vm_compute; discriminate
  | vm_compute; reflexivity
  | vm_compute; repeat split; discriminate ].

Ltac solve_query_fits :=
  repeat constructor; vm_compute; repeat split; discriminate.



(** The sum of the occupancy counts of the cells of a grid. *)
Definition total_points (g : gmap Z VoxelStructT.Voxel) : Z :=
  map_fold (λ _ v acc, VoxelStructT.num_pt v + acc) 0 g.

(** The point passes the field-range test of addPointToGrid. *)
Definition passes_test (d : Derived) (s : VoxelStructT.t) (pt : PointT) : bool :=
  match VoxelStructT.rejected d s pt with Some false => true | _ => false end.

(** The two revisions of the structure hold the same grid: the same bounding
    box, leaf layout and counter, and for every cell the same accumulator,
    whose size is the occupancy count of the first revision; the settings
    that the second revision copies in setUp are those of the filter
    object, and no filter field is configured. *)
Record revisions_agree (d : Derived) (a : VoxelStructT.t)
    (b : VoxelStructT_base.t) : Prop := mkRevisionsAgree {
  ra_leaf : VoxelStructT.leaf_size_ a = VoxelStructT_base.leaf_size_ b;
  ra_inv : VoxelStructT.inverse_leaf_size_ a
           = VoxelStructT_base.inverse_leaf_size_ b;
  ra_min : VoxelStructT.min_b_ a = VoxelStructT_base.min_b_ b;
  ra_max : VoxelStructT.max_b_ a = VoxelStructT_base.max_b_ b;
  ra_div : VoxelStructT.div_b_ a = VoxelStructT_base.div_b_ b;
  ra_mul : VoxelStructT.divb_mul_ a = VoxelStructT_base.divb_mul_ b;
  ra_layout : VoxelStructT.leaf_layout_ a = VoxelStructT_base.leaf_layout_ b;
  ra_num : VoxelStructT.num_voxels_ a = VoxelStructT_base.num_voxels_ b;
  ra_grid : VoxelStructT_base.grid_ b
            = VoxelStructT.centroid <$> VoxelStructT.grid_ a;
  ra_size : ∀ h v, VoxelStructT.grid_ a !! h = Some v →
                   VoxelStructT.num_pt v
                   = CentroidPoint_getSize (VoxelStructT.centroid v);
  ra_name : is_empty (VoxelStructT.filter_field_name_ a) = true;
  ra_all : VoxelStructT_base.downsample_all_data_ b = getDownsampleAllData d;
  ra_pts : VoxelStructT_base.min_points_per_voxel_ b
           = getMinimumPointsNumberPerVoxel d;
  ra_save : VoxelStructT_base.save_leaf_layout_ b = getSaveLeafLayout d
}.

(** The results of one phase in the two revisions: both undefined, or both
    defined with the same value and structures that agree. *)
Definition agree_after {A} (d : Derived)
    (ra : option (A * VoxelStructT.t)) (rb : option (A * VoxelStructT_base.t))
    : Prop :=
  match ra, rb with
  | Some (u, a), Some (w, b) => u = w ∧ revisions_agree d a b
  | None, None => True
  | _, _ => False
  end.

(** Before setUp: the same leaf size and leaf layout, an empty grid in the
    first revision, and the save-leaf-layout flag of the filter object. *)
Definition agree_before (d : Derived) (a : VoxelStructT.t)
    (b : VoxelStructT_base.t) : Prop :=
  VoxelStructT.leaf_size_ a = VoxelStructT_base.leaf_size_ b
  ∧ VoxelStructT.inverse_leaf_size_ a = VoxelStructT_base.inverse_leaf_size_ b
  ∧ VoxelStructT.leaf_layout_ a = VoxelStructT_base.leaf_layout_ b
  ∧ VoxelStructT.grid_ a = ∅
  ∧ VoxelStructT_base.save_leaf_layout_ b = getSaveLeafLayout d.

(** The number of points of a list that carry the label [k]. *)
Definition label_count (k : Z) (pts : list LabeledVoxel.PointXYZRGBL) : Z :=
  Z.of_nat (length (List.filter (λ pt, LabeledVoxel.label pt =? k) pts)).

(** * Properties *)

(** ** The hash-range check *)

Lemma to_size_t_Some v : 0 ≤ v ≤ SIZE_MAX → to_size_t v = Some v.
Proof.
  intros [H0 H1]. unfold to_size_t.
  destruct (Z.leb_spec 0 v); [|lia].
  destruct (Z.leb_spec v SIZE_MAX); [reflexivity|lia].
Qed.

Lemma to_size_t_inv v n : to_size_t v = Some n → n = v ∧ 0 ≤ v ≤ SIZE_MAX.
Proof.
  unfold to_size_t.
  destruct (Z.leb_spec 0 v), (Z.leb_spec v SIZE_MAX); simpl; intros [= <-]; lia.
Qed.


Lemma to_int_inv v n : to_int v = Some n → n = v ∧ INT_MIN ≤ v ≤ INT_MAX.
Proof.
  unfold to_int.
  destruct (Z.leb_spec INT_MIN v), (Z.leb_spec v INT_MAX); simpl;
    intros [= <-]; lia.
Qed.

Lemma wrap_int_small v : INT_MIN ≤ v ≤ INT_MAX → wrap_int v = v.
Proof.
  unfold wrap_int, INT_MIN, INT_MAX. intros H.
  rewrite Z.mod_small; lia.
Qed.

Lemma mul_sz_small a b : 0 ≤ a * b ≤ SIZE_MAX → mul_sz a b = a * b.
Proof. unfold mul_sz, SIZE_MAX. intros H. apply Z.mod_small. lia. Qed.

Lemma add_sz_small a b : 0 ≤ a + b ≤ SIZE_MAX → add_sz a b = a + b.
Proof. unfold add_sz, SIZE_MAX. intros H. apply Z.mod_small. lia. Qed.

(** The quotient test is the comparison of the exact product. *)
Lemma div_lt_iff_mul m a b : 0 < a → (m / a < b ↔ m < a * b).
Proof.
  intros Ha. split; intros H.
  - destruct (Z.le_gt_cases (a * b) m) as [Hle|Hgt]; [|exact Hgt].
    apply Z.div_le_lower_bound in Hle; lia.
  - apply Z.div_lt_upper_bound; lia.
Qed.

Lemma axis_count_pos lo hi inv :
  (lo <= hi)%Q → (0 <= inv)%Q → 1 ≤ axis_count lo hi inv.
Proof.
  intros Hle Hinv. unfold axis_count, floor.
  assert (H : (0 <= (hi - lo) * inv)%Q).
  { apply Qmult_le_0_compat; [|exact Hinv].
    unfold Qminus. rewrite <- (Qplus_opp_r lo).
    apply Qplus_le_l. exact Hle. }
  apply Qfloor_resp_le in H. change (Qfloor 0) with 0 in H. lia.
Qed.

(** What [overflows] decides, for counts that are [std::size_t] values and
    not zero. *)
Lemma overflows_spec dx dy dz :
  1 ≤ dx ≤ SIZE_MAX → 0 ≤ dy ≤ SIZE_MAX → 1 ≤ dz ≤ SIZE_MAX →
  ∃ b, GridFilterBase.overflows dx dy dz = Some b
       ∧ (b = true ↔ SIZE_MAX < dx * dy * dz)
       ∧ (b = false → mul_sz dx dy = dx * dy
                      ∧ mul_sz (mul_sz dx dy) dz = dx * dy * dz).
Proof.
  intros Hx Hy Hz. unfold GridFilterBase.overflows, div_sz.
  destruct (Z.eqb_spec dx 0); [lia|]. simpl.
  destruct (Z.ltb_spec (SIZE_MAX / dx) dy) as [H1|H1].
  - exists true. split; [reflexivity|]. split; [|discriminate].
    split; [intros _|reflexivity].
    apply (div_lt_iff_mul SIZE_MAX dx dy) in H1; [|lia]. nia.
  - assert (Hxy : dx * dy ≤ SIZE_MAX).
    { destruct (Z.le_gt_cases (dx * dy) SIZE_MAX); [assumption|].
      assert (SIZE_MAX / dx < dy) by (apply div_lt_iff_mul; lia). lia. }
    destruct (Z.eqb_spec dz 0); [lia|]. simpl.
    rewrite (mul_sz_small dx dy) by nia.
    destruct (Z.ltb_spec (SIZE_MAX / dz) (dx * dy)) as [H2|H2].
    + exists true. split; [reflexivity|]. split; [|discriminate].
      split; [intros _|reflexivity].
      apply (div_lt_iff_mul SIZE_MAX dz (dx * dy)) in H2; [|lia]. lia.
    + exists false. split; [reflexivity|].
      assert (Hxyz : dx * dy * dz ≤ SIZE_MAX).
      { destruct (Z.le_gt_cases (dx * dy * dz) SIZE_MAX); [assumption|].
        assert (SIZE_MAX / dz < dx * dy) by (apply div_lt_iff_mul; [lia|nia]).
        lia. }
      split; [split; [discriminate|lia]|].
      intros _. split; [reflexivity|]. apply mul_sz_small. nia.
Qed.




(** The same with an extent of 2^64 along x and leaf size 1: the exact
    product of the counts exceeds the largest [std::size_t], yet neither
    function reports the failure, the conversion of the x count to
    [std::size_t] being undefined. *)
Lemma overflow_check_huge_axis :
  let min_p := vec4f_zero in
  let max_p := mkVector4 (inject_Z (2 ^ 64)) 0%Q 0%Q 0%Q in
  let s := VoxelStructT.setLeafSize VoxelStructT.new 1%Q 1%Q 1%Q in
  let inv := VoxelStructT.inverse_leaf_size_ s in
  SIZE_MAX < axis_count (c0 min_p) (c0 max_p) (c0 inv)
             * axis_count (c1 min_p) (c1 max_p) (c1 inv)
             * axis_count (c2 min_p) (c2 max_p) (c2 inv)
  ∧ GridFilterBase.checkHashRange min_p max_p inv ≠ Some 0
  ∧ VoxelStructT.checkIfOverflow s min_p max_p ≠ Some None
  ∧ GridFilterBase.checkHashRange min_p max_p inv = None
  ∧ VoxelStructT.checkIfOverflow s min_p max_p = None.
Proof. vm_compute. repeat split; congruence. Qed.

(** C1, the code at the failing input.  Extrema (0,0,0) and (1,1,1) with the
    leaf size 1e-20: every per-axis count is 10^20 + 1, so the product of the
    counts exceeds the largest [std::size_t] and the leaf size is too small
    for the data.  Neither function reports it: the conversion of the x
    count to [std::size_t] is undefined, and no value 0 or [boost::none] is
    returned. *)
Theorem overflow_check_tiny_leaf :
  let min_p := vec4f_zero in
  let max_p := mkVector4 1%Q 1%Q 1%Q 1%Q in
  let leaf := (1 # 100000000000000000000)%Q in
  let s := VoxelStructT.setLeafSize VoxelStructT.new leaf leaf leaf in
  let inv := VoxelStructT.inverse_leaf_size_ s in
  axis_count (c0 min_p) (c0 max_p) (c0 inv) = 10 ^ 20 + 1
  ∧ SIZE_MAX < axis_count (c0 min_p) (c0 max_p) (c0 inv)
  ∧ SIZE_MAX < axis_count (c0 min_p) (c0 max_p) (c0 inv)
               * axis_count (c1 min_p) (c1 max_p) (c1 inv)
               * axis_count (c2 min_p) (c2 max_p) (c2 inv)
  ∧ to_size_t (axis_count (c0 min_p) (c0 max_p) (c0 inv)) = None
  ∧ GridFilterBase.checkHashRange min_p max_p inv = None
  ∧ VoxelStructT.checkIfOverflow s min_p max_p = None.
Proof. vm_compute. repeat split; reflexivity. Qed.

(** ** Leaf size *)



(** ** The field-range test *)

Lemma Qlt_bool_iff a b : Qlt_bool a b = true ↔ (a < b)%Q.
Proof.
  unfold Qlt_bool. rewrite negb_true_iff. split.
  - intros H. apply Qnot_le_lt. intros Hle.
    apply Qle_bool_iff in Hle. congruence.
  - intros H. destruct (Qle_bool b a) eqn:E; [|reflexivity].
    apply Qle_bool_iff in E. exfalso. exact (Qlt_not_le _ _ H E).
Qed.

Lemma rejected_of_fails d s pt v :
  is_empty (VoxelStructT.filter_field_name_ s) = false →
  field_value pt (VoxelStructT.filter_field_idx_ s) = Some v →
  fails_range_test (getFilterLimitsNegative d)
    (VoxelStructT.filter_limit_min_ s) (VoxelStructT.filter_limit_max_ s) v →
  VoxelStructT.rejected d s pt = Some true.
Proof.
  intros Hname Hv Hfail. unfold VoxelStructT.rejected.
  rewrite Hname, Hv. simpl. unfold fails_range_test in Hfail.
  destruct (getFilterLimitsNegative d).
  - destruct Hfail as [H1 H2].
    apply Qlt_bool_iff in H1, H2. rewrite H1, H2. reflexivity.
  - f_equal. apply orb_true_iff.
    destruct Hfail as [H|H]; apply Qlt_bool_iff in H; auto.
Qed.

(** [addPointToGrid] changes the grid only. *)
Lemma addPointToGrid_frame d s pt s' :
  VoxelStructT.addPointToGrid d s pt = Some s' →
  ∃ g, s' = VoxelStructT.set_grid s g.
Proof.
  unfold VoxelStructT.addPointToGrid. intros H.
  destruct (VoxelStructT.rejected d s pt) as [[|]|]; simpl in H;
    try discriminate.
  - injection H as <-. exists (VoxelStructT.grid_ s). destruct s; reflexivity.
  - destruct (VoxelStructT.hashPoint s pt); simpl in H; [|discriminate].
    injection H as <-. eexists. reflexivity.
Qed.

Lemma rejected_set_grid d s g pt :
  VoxelStructT.rejected d (VoxelStructT.set_grid s g) pt
  = VoxelStructT.rejected d s pt.
Proof. reflexivity. Qed.

Lemma hashPoint_set_grid s g pt :
  VoxelStructT.hashPoint (VoxelStructT.set_grid s g) pt
  = VoxelStructT.hashPoint s pt.
Proof. reflexivity. Qed.

(** C6.  With a filter field name configured, a point whose field value fails
    the range test is skipped by addPointToGrid: the call returns the
    structure unchanged (sums, counts and the set of occupied cells), and a
    cloud containing the point is binned exactly as the cloud without it. *)
Theorem failing_point_is_skipped (d : Derived)
    (s : VoxelStructT.t) (pt : PointT) (v : float) :
  is_empty (VoxelStructT.filter_field_name_ s) = false →
  field_value pt (VoxelStructT.filter_field_idx_ s) = Some v →
  fails_range_test (getFilterLimitsNegative d)
    (VoxelStructT.filter_limit_min_ s) (VoxelStructT.filter_limit_max_ s) v →
  VoxelStructT.addPointToGrid d s pt = Some s
  ∧ ∀ before after,
      VoxelStructT.add_points d s (before ++ pt :: after)
      = VoxelStructT.add_points d s (before ++ after).
Proof.
  intros Hname Hv Hfail.
  assert (Hskip : ∀ g,
            VoxelStructT.addPointToGrid d (VoxelStructT.set_grid s g) pt
            = Some (VoxelStructT.set_grid s g)).
  { intros g. unfold VoxelStructT.addPointToGrid.
    rewrite rejected_set_grid, (rejected_of_fails d s pt v) by assumption.
    reflexivity. }
  assert (Hs : s = VoxelStructT.set_grid s (VoxelStructT.grid_ s))
    by (destruct s; reflexivity).
  split.
  - specialize (Hskip (VoxelStructT.grid_ s)). rewrite <- Hs in Hskip.
    exact Hskip.
  - intros before after.
    assert (Hgen : ∀ g,
              VoxelStructT.add_points d (VoxelStructT.set_grid s g)
                (before ++ pt :: after)
              = VoxelStructT.add_points d (VoxelStructT.set_grid s g)
                  (before ++ after)).
    { induction before as [|p before IH]; intros g; simpl.
      - rewrite Hskip. reflexivity.
      - destruct (VoxelStructT.addPointToGrid d (VoxelStructT.set_grid s g) p)
          as [s1|] eqn:E; simpl; [|reflexivity].
        apply addPointToGrid_frame in E as [g1 ->].
        apply (IH g1). }
    specialize (Hgen (VoxelStructT.grid_ s)). rewrite <- Hs in Hgen.
    exact Hgen.
Qed.

(** Witness of [failing_point_is_skipped]: field z limited to [[0, 1]] and a
    point with z = 5. *)
Lemma failing_point_is_skipped_witness :
  let d := mkDerived [] [] "z" 0%Q 1%Q false false false 0 in
  let s := VoxelStructT.set_field_idx
             (VoxelStructT.set_filter
                (VoxelStructT.setLeafSize VoxelStructT.new 1%Q 1%Q 1%Q)
                "z" 0%Q 1%Q) 2 in
  let pt := PointXYZ 0%Q 0%Q 5%Q in
  VoxelStructT.addPointToGrid d s pt = Some s
  ∧ ∀ before after,
      VoxelStructT.add_points d s (before ++ pt :: after)
      = VoxelStructT.add_points d s (before ++ after).
Proof.
  apply (failing_point_is_skipped _ _ _ 5%Q).
  - reflexivity.
  - reflexivity.
  - right. vm_compute. reflexivity.
Defined.

(** ** Neighbour queries *)

(** The overload taking the offsets as a matrix is checked: an offset that
    fails the comparison with the bounding box gives -1 and the leaf layout
    is not read. *)
Lemma getNeighborCentroidIndices_checked s px py pz ijk col :
  VoxelStructT.query_cell s px py pz = Some ijk →
  vec_all2 Z.leb (vec_lift2 int_sub (VoxelStructT.min_b_ s) ijk)
                 (VoxelStructT.with_zero col)
  && vec_all2 Z.geb (vec_lift2 int_sub (VoxelStructT.max_b_ s) ijk)
                    (VoxelStructT.with_zero col) = false →
  VoxelStructT.getNeighborCentroidIndices s px py pz [col] = Some [-1].
Proof.
  intros Hq Hout. unfold VoxelStructT.getNeighborCentroidIndices.
  rewrite Hq. simpl. rewrite Hout. reflexivity.
Qed.

(** C7, the code at the failing input.  In the 2 x 2 x 1 grid, the query at
    the point (1, 0, 0) with the offset (1, 0, 0) asks for the cell (2, 0, 0),
    which is outside the bounding box.  The overload taking a matrix answers
    -1; the overload taking a std::vector does no comparison with the
    bounding box: it reads leaf_layout_[2], the entry of the cell (0, 1, 0),
    and answers 1.  With the offset (0, -1, 0) it reads leaf_layout_[-1],
    outside the vector.  Both revisions behave alike. *)
Theorem neighbor_query_vector_unchecked :
  VoxelStructT.getNeighborCentroidIndices grid2x2 1%Q 0%Q 0%Q
    [mkVector3i 1 0 0] = Some [-1]
  ∧ VoxelStructT.getNeighborCentroidIndices_vector grid2x2 1%Q 0%Q 0%Q
      [mkVector3i 1 0 0] = Some [1]
  ∧ VoxelStructT.getNeighborCentroidIndices_vector grid2x2 1%Q 0%Q 0%Q
      [mkVector3i 0 (-1) 0] = None
  ∧ VoxelStructT_base.getNeighborCentroidIndices grid2x2_base 1%Q 0%Q 0%Q
      [mkVector3i 1 0 0] = Some [-1]
  ∧ VoxelStructT_base.getNeighborCentroidIndices_vector grid2x2_base
      1%Q 0%Q 0%Q [mkVector3i 1 0 0] = Some [1]
  ∧ VoxelStructT_base.getNeighborCentroidIndices_vector grid2x2_base
      1%Q 0%Q 0%Q [mkVector3i 0 (-1) 0] = None.
Proof. vm_compute. repeat split; reflexivity. Qed.

(** ** What setUp establishes *)

Lemma floor_cast_int_inv p inv v :
  floor_cast_int p inv = Some v →
  c0 v = floor (c0 p * c0 inv)%Q ∧ c1 v = floor (c1 p * c1 inv)%Q
  ∧ c2 v = floor (c2 p * c2 inv)%Q
  ∧ INT_MIN ≤ c0 v ≤ INT_MAX ∧ INT_MIN ≤ c1 v ≤ INT_MAX
  ∧ INT_MIN ≤ c2 v ≤ INT_MAX.
Proof.
  unfold floor_cast_int. intros H.
  destruct (to_int (floor (c0 p * c0 inv)%Q)) as [r0|] eqn:E0; [|discriminate].
  destruct (to_int (floor (c1 p * c1 inv)%Q)) as [r1|] eqn:E1; [|discriminate].
  destruct (to_int (floor (c2 p * c2 inv)%Q)) as [r2|] eqn:E2; [|discriminate].
  destruct (to_int (floor (c3 p * c3 inv)%Q)) as [r3|] eqn:E3; [|discriminate].
  cbn [mbind option_bind] in H. injection H as <-. cbn [c0 c1 c2].
  apply to_int_inv in E0, E1, E2. lia.
Qed.

Lemma setUp_inv pcl d s b s1 :
  VoxelStructT.setUp pcl d s = Some (b, s1) →
  setUp_facts pcl d s s1
  ∧ ∃ o, VoxelStructT.checkIfOverflow s1 (VoxelStructT.extrema pcl d).1
           (VoxelStructT.extrema pcl d).2 = Some o
         ∧ (b = false ↔ o = None)
         ∧ (b = false →
            last (VoxelStructT.console_ s1)
            = Some "Leaf size is too small for the input dataset. Integer indices would overflow."
            ∧ VoxelStructT.leaf_layout_ s1 = VoxelStructT.leaf_layout_ s)
         ∧ (b = true →
            VoxelStructT.leaf_layout_ s1
            = if getSaveLeafLayout d then
                VoxelStructT.reset_layout
                  (int_to_size_t
                     (int_mul (int_mul (c0 (VoxelStructT.div_b_ s1))
                                       (c1 (VoxelStructT.div_b_ s1)))
                              (c2 (VoxelStructT.div_b_ s1))))
                  (VoxelStructT.leaf_layout_ s)
              else VoxelStructT.leaf_layout_ s).
Proof.
  unfold VoxelStructT.setUp.
  destruct (VoxelStructT.extrema pcl d) as [min_p max_p] eqn:Eext. simpl.
  set (s0 := if negb (is_empty (getFilterFieldName d)) then _ else _).
  assert (Hs0 : VoxelStructT.inverse_leaf_size_ s0
                = VoxelStructT.inverse_leaf_size_ s
                ∧ VoxelStructT.leaf_size_ s0 = VoxelStructT.leaf_size_ s
                ∧ VoxelStructT.grid_ s0 = VoxelStructT.grid_ s
                ∧ VoxelStructT.leaf_layout_ s0 = VoxelStructT.leaf_layout_ s
                ∧ VoxelStructT.filter_field_name_ s0 = getFilterFieldName d
                ∧ VoxelStructT.filter_limit_min_ s0 = getFilterLimitMin d
                ∧ VoxelStructT.filter_limit_max_ s0 = getFilterLimitMax d).
  { subst s0. destruct (negb (is_empty (getFilterFieldName d))); simpl;
      [|repeat split].
    match goal with |- context [if ?c then _ else _] => destruct c end;
      repeat split. }
  destruct Hs0 as (Hi & Hl & Hg & Hlay & Hn & Hlo & Hhi).
  rewrite Hi.
  destruct (floor_cast_int min_p _) as [min_b|] eqn:Emin; [|discriminate].
  destruct (floor_cast_int max_p _) as [max_b|] eqn:Emax; [|discriminate].
  simpl.
  match goal with
  | |- context [VoxelStructT.checkIfOverflow ?st _ _] => set (s2 := st)
  end.
  destruct (VoxelStructT.checkIfOverflow s2 min_p max_p) as [o|] eqn:Eo;
    [|discriminate].
  simpl. destruct o as [n|].
  - destruct (getSaveLeafLayout d) eqn:Esave; intros [= <- <-];
      (split; [constructor; simpl; rewrite ?Eext; auto|]);
      exists (Some n); (split; [exact Eo|]);
      (split; [split; discriminate|]);
      (split; [discriminate|]); intros _; simpl; congruence.
  - intros [= <- <-]. split; [constructor; simpl; rewrite ?Eext; auto|].
    exists None. split; [exact Eo|]. split; [tauto|].
    split; [|discriminate]. intros _. simpl. split; [|exact Hlay].
    apply last_snoc.
Qed.

(** ** Bound of the hash *)

Lemma floor_mul_mono a b inv :
  (a <= b)%Q → (0 <= inv)%Q → floor (a * inv)%Q ≤ floor (b * inv)%Q.
Proof.
  intros Hab Hinv. unfold floor. apply Qfloor_resp_le.
  apply Qmult_le_compat_r; assumption.
Qed.

Lemma int_to_size_t_small v : 0 ≤ v ≤ SIZE_MAX → int_to_size_t v = v.
Proof. unfold int_to_size_t, SIZE_MAX. intros H. apply Z.mod_small. lia. Qed.

Lemma hashPoint_agree s pt :
  VoxelStructT.hashPoint s pt
  = GridFilterBase.hashPoint pt (VoxelStructT.inverse_leaf_size_ s)
      (VoxelStructT.min_b_ s) (VoxelStructT.divb_mul_ s).
Proof. reflexivity. Qed.

Lemma hash_bound_core pcl d s s1 pt :
  setUp_facts pcl d s s1 →
  nonneg_inverse s →
  within (VoxelStructT.extrema pcl d).1 (VoxelStructT.extrema pcl d).2 pt →
  cells_x s1 * cells_y s1 ≤ INT_MAX →
  cells_z s1 ≤ INT_MAX →
  c0 (VoxelStructT.div_b_ s1) = cells_x s1
  ∧ c1 (VoxelStructT.div_b_ s1) = cells_y s1
  ∧ c2 (VoxelStructT.div_b_ s1) = cells_z s1
  ∧ 1 ≤ cells_x s1 ∧ 1 ≤ cells_y s1 ∧ 1 ≤ cells_z s1
  ∧ VoxelStructT.hashPoint s1 pt = Some (linear_index s1 pt)
  ∧ 0 ≤ linear_index s1 pt < cells_x s1 * cells_y s1 * cells_z s1.
Proof.
  intros F (I0 & I1 & I2) (Hx0 & Hx1 & Hy0 & Hy1 & Hz0 & Hz1) Hxy Hz.
  destruct F as [Hinv _ Hmin Hmax Hdiv Hmul _ _ _ _ _].
  apply floor_cast_int_inv in Hmin as (M0 & M1 & M2 & R0 & R1 & R2).
  apply floor_cast_int_inv in Hmax as (N0 & N1 & N2 & S0 & S1 & S2).
  pose proof (floor_mul_mono _ _ _ Hx0 I0) as A0.
  pose proof (floor_mul_mono _ _ _ Hx1 I0) as B0.
  pose proof (floor_mul_mono _ _ _ Hy0 I1) as A1.
  pose proof (floor_mul_mono _ _ _ Hy1 I1) as B1.
  pose proof (floor_mul_mono _ _ _ Hz0 I2) as A2.
  pose proof (floor_mul_mono _ _ _ Hz1 I2) as B2.
  rewrite <- M0, <- N0 in *. rewrite <- M1, <- N1 in *.
  rewrite <- M2, <- N2 in *.
  unfold cells_x, cells_y, cells_z in *.
  set (mn := VoxelStructT.min_b_ s1) in *.
  set (mx := VoxelStructT.max_b_ s1) in *.
  assert (P0 : 1 ≤ c0 mx - c0 mn + 1) by lia.
  assert (P1 : 1 ≤ c1 mx - c1 mn + 1) by lia.
  assert (P2 : 1 ≤ c2 mx - c2 mn + 1) by lia.
  assert (Q0 : c0 mx - c0 mn + 1 ≤ INT_MAX) by nia.
  assert (Q1 : c1 mx - c1 mn + 1 ≤ INT_MAX) by nia.
  assert (D0 : c0 (VoxelStructT.div_b_ s1) = c0 mx - c0 mn + 1).
  { rewrite Hdiv. cbn [vec_lift2 c0]. unfold int_add, int_sub.
    rewrite (wrap_int_small (c0 mx - c0 mn)) by (unfold INT_MIN, INT_MAX in *; lia).
    apply wrap_int_small. unfold INT_MIN, INT_MAX in *; lia. }
  assert (D1 : c1 (VoxelStructT.div_b_ s1) = c1 mx - c1 mn + 1).
  { rewrite Hdiv. cbn [vec_lift2 c1]. unfold int_add, int_sub.
    rewrite (wrap_int_small (c1 mx - c1 mn)) by (unfold INT_MIN, INT_MAX in *; lia).
    apply wrap_int_small. unfold INT_MIN, INT_MAX in *; lia. }
  assert (D2 : c2 (VoxelStructT.div_b_ s1) = c2 mx - c2 mn + 1).
  { rewrite Hdiv. cbn [vec_lift2 c2]. unfold int_add, int_sub.
    rewrite (wrap_int_small (c2 mx - c2 mn)) by (unfold INT_MIN, INT_MAX in *; lia).
    apply wrap_int_small. unfold INT_MIN, INT_MAX in *; lia. }
  repeat (split; [assumption|]).
  unfold VoxelStructT.hashPoint, linear_index.
  rewrite Hmul. cbn [c0 c1 c2]. rewrite D0, D1. fold mn.
  rewrite Hinv.
  set (a0 := floor (x pt * c0 (VoxelStructT.inverse_leaf_size_ s))%Q - c0 mn) in *.
  set (a1 := floor (y pt * c1 (VoxelStructT.inverse_leaf_size_ s))%Q - c1 mn) in *.
  set (a2 := floor (z pt * c2 (VoxelStructT.inverse_leaf_size_ s))%Q - c2 mn) in *.
  set (X := c0 mx - c0 mn + 1) in *.
  set (Y := c1 mx - c1 mn + 1) in *.
  set (Z2 := c2 mx - c2 mn + 1) in *.
  assert (Ha0 : 0 ≤ a0 ≤ X - 1) by (subst a0 X; lia).
  assert (Ha1 : 0 ≤ a1 ≤ Y - 1) by (subst a1 Y; lia).
  assert (Ha2 : 0 ≤ a2 ≤ Z2 - 1) by (subst a2 Z2; lia).
  assert (HXY : int_mul X Y = X * Y).
  { unfold int_mul. apply wrap_int_small. unfold INT_MIN, INT_MAX in *. nia. }
  rewrite HXY.
  assert (Hbig : X * Y * Z2 ≤ INT_MAX * INT_MAX) by nia.
  assert (Hsum : 0 ≤ a0 * 1 + a1 * X + a2 * (X * Y) < X * Y * Z2) by nia.
  assert (Hsm : INT_MAX * INT_MAX < SIZE_MAX) by (vm_compute; reflexivity).
  assert (T1 : 0 ≤ a1 * X) by nia.
  assert (T2 : 0 ≤ a2 * (X * Y)) by nia.
  rewrite !to_size_t_Some by (unfold INT_MAX, SIZE_MAX in *; lia).
  cbn [mbind option_bind].
  rewrite !int_to_size_t_small by (unfold INT_MAX, SIZE_MAX in *; nia).
  rewrite (mul_sz_small a0 1) by lia.
  rewrite (mul_sz_small a1 X) by lia.
  rewrite (mul_sz_small a2 (X * Y)) by lia.
  rewrite (add_sz_small (a0 * 1)) by lia.
  rewrite add_sz_small by lia.
  split; [reflexivity|]. lia.
Qed.




(** The check passes on a 65536 x 32768 x 2 grid (2^32 cells), yet the
    stride div_b[0] * div_b[1] = 2^31 does not fit [int]: the point in the
    last cell, within the extrema, hashes to 2^64 - 1. *)
Lemma hashPoint_stride_wraps :
  let far := PointXYZ (inject_Z 65535) (inject_Z 32767) 1%Q in
  let d := Example.settings [PointXYZ 0%Q 0%Q 0%Q; far] false false 0 in
  let s := VoxelStructT.setLeafSize VoxelStructT.new 1%Q 1%Q 1%Q in
  ∃ s1,
    VoxelStructT.setUp Example.pcl d s = Some (true, s1)
    ∧ within (VoxelStructT.extrema Example.pcl d).1
             (VoxelStructT.extrema Example.pcl d).2 far
    ∧ VoxelStructT.checkIfOverflow s1 (VoxelStructT.extrema Example.pcl d).1
        (VoxelStructT.extrema Example.pcl d).2 = Some (Some (2 ^ 32))
    ∧ cells_x s1 * cells_y s1 * cells_z s1 = 2 ^ 32
    ∧ VoxelStructT.hashPoint s1 far = Some (2 ^ 64 - 1).
Proof.
  eexists. split; [vm_compute; reflexivity|].
  split; [vm_compute; repeat split; discriminate|].
  repeat split; vm_compute; reflexivity.
Qed.

(** ** Binning *)

Lemma set_grid_idem s g : VoxelStructT.set_grid s (VoxelStructT.grid_ s) = s
  ∧ VoxelStructT.set_grid (VoxelStructT.set_grid s g) g
    = VoxelStructT.set_grid s g.
Proof. destruct s; split; reflexivity. Qed.

Lemma addPointToGrid_bin d s g pt :
  binnable d s pt →
  VoxelStructT.addPointToGrid d (VoxelStructT.set_grid s g) pt
  = Some (VoxelStructT.set_grid s (bin_step d s g pt)).
Proof.
  unfold VoxelStructT.addPointToGrid, bin_step.
  rewrite rejected_set_grid, hashPoint_set_grid.
  intros [Hr|[Hr [h Hh]]]; rewrite Hr; cbn [mbind option_bind].
  - reflexivity.
  - rewrite Hh. cbn [mbind option_bind]. reflexivity.
Qed.

Lemma add_points_bin d s pts : ∀ g,
  Forall (binnable d s) pts →
  VoxelStructT.add_points d (VoxelStructT.set_grid s g) pts
  = Some (VoxelStructT.set_grid s (bin d s g pts)).
Proof.
  induction pts as [|pt pts IH]; intros g Hall.
  - reflexivity.
  - inversion Hall as [|? ? Hpt Hrest]; subst. simpl.
    rewrite addPointToGrid_bin by assumption. cbn [mbind option_bind].
    apply IH. assumption.
Qed.

Lemma grid_at_insert (g : gmap Z VoxelStructT.Voxel) h k v :
  VoxelStructT.grid_at (<[h := v]> g) k
  = if decide (h = k) then v else VoxelStructT.grid_at g k.
Proof.
  unfold VoxelStructT.grid_at. rewrite lookup_insert.
  destruct (decide (h = k)); reflexivity.
Qed.

Lemma bin_lookup d s pts : ∀ g h,
  bin d s g pts !! h
  = match cell_points d s h pts with
    | [] => g !! h
    | c => Some (foldl (add_to_voxel d) (VoxelStructT.grid_at g h) c)
    end.
Proof.
  unfold bin, cell_points.
  induction pts as [|pt pts IH]; intros g h; [reflexivity|].
  simpl. rewrite IH. unfold bin_step, lands_in.
  destruct (VoxelStructT.rejected d s pt) as [[|]|]; try reflexivity.
  destruct (VoxelStructT.hashPoint s pt) as [k|]; try reflexivity.
  destruct (Z.eqb_spec k h) as [->|Hne].
  - rewrite grid_at_insert, decide_True, lookup_insert_eq by reflexivity.
    simpl. destruct (List.filter _ pts); reflexivity.
  - rewrite grid_at_insert, decide_False, lookup_insert_ne by assumption.
    reflexivity.
Qed.

(** ** The voxel of a cell *)





(** ** Emission *)

Lemma layout_read_Some (l : list Z) h :
  0 ≤ h < Z.of_nat (length l) → is_Some (layout_read l h).
Proof.
  intros H. unfold layout_read. destruct (Z.ltb_spec h 0); [lia|].
  apply lookup_lt_is_Some. lia.
Qed.

Lemma emissions_ext pcl d g g' cells :
  (∀ h, h ∈ cells → g' !! h = g !! h) →
  emissions pcl d g' cells = emissions pcl d g cells
  ∧ emitting d g' cells = emitting d g cells.
Proof.
  unfold emissions, emitting, VoxelStructT.grid_at.
  induction cells as [|h cells IH]; intros Hext; [split; reflexivity|].
  destruct IH as [IH1 IH2].
  { intros k Hk. apply Hext. right. exact Hk. }
  simpl. rewrite IH1, IH2, (Hext h) by left. split; reflexivity.
Qed.

Lemma length_emissions pcl d g cells :
  length (emissions pcl d g cells) = length (emitting d g cells).
Proof.
  unfold emissions, emitting, representative.
  induction cells as [|h cells IH]; [reflexivity|].
  simpl. rewrite length_app, IH.
  destruct (emits d (VoxelStructT.grid_at g h)); reflexivity.
Qed.

(** One call of filterGrid on a cell of the grid. *)
Lemma filterGrid_step pcl d s h v :
  VoxelStructT.grid_ s !! h = Some v →
  (getSaveLeafLayout d = true →
   0 ≤ h < Z.of_nat (length (VoxelStructT.leaf_layout_ s))) →
  ∃ s',
    VoxelStructT.filterGrid pcl d s h = Some (representative pcl d v, s')
    ∧ (∀ k, k ≠ h → VoxelStructT.grid_ s' !! k = VoxelStructT.grid_ s !! k)
    ∧ (∀ k, is_Some (VoxelStructT.grid_ s !! k) →
            is_Some (VoxelStructT.grid_ s' !! k))
    ∧ (VoxelStructT.leaf_layout_ s', VoxelStructT.num_voxels_ s')
      = (if getSaveLeafLayout d && emits d v
         then layout_after (VoxelStructT.leaf_layout_ s)
                           (VoxelStructT.num_voxels_ s) [h]
         else (VoxelStructT.leaf_layout_ s, VoxelStructT.num_voxels_ s)).
Proof.
  intros Hv Hrange. unfold VoxelStructT.filterGrid, representative, emits.
  rewrite Hv. cbn [mbind option_bind].
  destruct (getMinimumPointsNumberPerVoxel d <=? VoxelStructT.num_pt v).
  2:{ exists s. rewrite andb_false_r. auto. }
  rewrite andb_true_r.
  destruct (getSaveLeafLayout d) eqn:Esave.
  - destruct (layout_read_Some _ _ (Hrange eq_refl)) as [e He].
    rewrite He. cbn [mbind option_bind].
    destruct (negb (getDownsampleAllData d)); eexists; (split; [reflexivity|]);
      cbn; repeat split; auto.
    + intros k Hk. apply lookup_insert_ne. congruence.
    + intros k Hk. destruct (decide (h = k)) as [->|Hne].
      * rewrite lookup_insert_eq. eauto.
      * rewrite lookup_insert_ne by assumption. exact Hk.
  - cbn [mbind option_bind].
    destruct (negb (getDownsampleAllData d)); eexists; (split; [reflexivity|]);
      cbn; repeat split; auto.
    + intros k Hk. apply lookup_insert_ne. congruence.
    + intros k Hk. destruct (decide (h = k)) as [->|Hne].
      * rewrite lookup_insert_eq. eauto.
      * rewrite lookup_insert_ne by assumption. exact Hk.
Qed.

Lemma layout_after_length es : ∀ l n,
  length (layout_after l n es).1 = length l.
Proof.
  induction es as [|h es IH]; intros l n; simpl; [reflexivity|].
  rewrite IH. apply length_insert.
Qed.

(** The emission phase over a duplicate-free list of cells of the grid. *)
Lemma filter_cells_spec pcl d cells : ∀ s,
  NoDup cells →
  (∀ h, h ∈ cells → is_Some (VoxelStructT.grid_ s !! h)) →
  (getSaveLeafLayout d = true →
   ∀ h, h ∈ cells → 0 ≤ h < Z.of_nat (length (VoxelStructT.leaf_layout_ s))) →
  ∃ s',
    VoxelStructT.filter_cells pcl d s cells
    = Some (emissions pcl d (VoxelStructT.grid_ s) cells, s')
    ∧ (VoxelStructT.leaf_layout_ s', VoxelStructT.num_voxels_ s')
      = (if getSaveLeafLayout d
         then layout_after (VoxelStructT.leaf_layout_ s)
                (VoxelStructT.num_voxels_ s)
                (emitting d (VoxelStructT.grid_ s) cells)
         else (VoxelStructT.leaf_layout_ s, VoxelStructT.num_voxels_ s)).
Proof.
  induction cells as [|h cells IH]; intros s Hnd Hin Hrange.
  - exists s. split; [reflexivity|]. destruct (getSaveLeafLayout d); reflexivity.
  - apply NoDup_cons in Hnd as [Hh Hnd].
    destruct (Hin h) as [v Hv]; [left|].
    destruct (filterGrid_step pcl d s h v Hv) as (s1 & Hf & Hother & Hkeep & Hlay).
    { intros Hs. apply Hrange; [exact Hs|left]. }
    assert (Hlen : length (VoxelStructT.leaf_layout_ s1)
                   = length (VoxelStructT.leaf_layout_ s)).
    { destruct (getSaveLeafLayout d && emits d v);
        injection Hlay as -> _; [apply length_insert|reflexivity]. }
    destruct (IH s1 Hnd) as (s' & Hrest & Hlay').
    { intros k Hk. apply Hkeep, Hin. right. exact Hk. }
    { intros Hs k Hk. rewrite Hlen. apply Hrange; [exact Hs|right; exact Hk]. }
    exists s'. split.
    + cbn [VoxelStructT.filter_cells]. rewrite Hf. cbn [mbind option_bind].
      rewrite Hrest. cbn [mbind option_bind].
      destruct (emissions_ext pcl d (VoxelStructT.grid_ s)
                  (VoxelStructT.grid_ s1) cells) as [-> _].
      { intros k Hk. apply Hother. intros ->. contradiction. }
      change (emissions pcl d (VoxelStructT.grid_ s) (h :: cells))
        with (VoxelStructT.emitted
                (representative pcl d
                   (VoxelStructT.grid_at (VoxelStructT.grid_ s) h))
              ++ emissions pcl d (VoxelStructT.grid_ s) cells).
      unfold VoxelStructT.grid_at. rewrite Hv. reflexivity.
    + rewrite Hlay'.
      destruct (emissions_ext pcl d (VoxelStructT.grid_ s)
                  (VoxelStructT.grid_ s1) cells) as [_ ->].
      { intros k Hk. apply Hother. intros ->. contradiction. }
      change (emitting d (VoxelStructT.grid_ s) (h :: cells))
        with (if emits d (VoxelStructT.grid_at (VoxelStructT.grid_ s) h)
              then h :: emitting d (VoxelStructT.grid_ s) cells
              else emitting d (VoxelStructT.grid_ s) cells).
      unfold VoxelStructT.grid_at. rewrite Hv. cbn [default from_option id].
      destruct (getSaveLeafLayout d); cbn [andb] in Hlay.
      * destruct (emits d v); injection Hlay as -> ->; reflexivity.
      * injection Hlay as -> ->. reflexivity.
Qed.




(** ** A whole filter call *)

Lemma reset_layout_fresh n (l : list Z) :
  0 ≤ n → VoxelStructT.reset_layout n l = replicate (Z.to_nat n) (-1).
Proof.
  intros Hn. unfold VoxelStructT.reset_layout, resize_to, fill_prefix.
  destruct (Z.le_gt_cases (Z.of_nat (length l)) n) as [Hle|Hgt].
  - rewrite Z.min_r by lia. rewrite Nat2Z.id.
    rewrite drop_all, app_nil_r, length_replicate.
    rewrite take_ge by (rewrite length_replicate; lia).
    rewrite <- replicate_add. f_equal. lia.
  - rewrite Z.min_l by lia.
    rewrite take_app_length' by (rewrite length_replicate; reflexivity).
    rewrite length_app, length_replicate, length_drop.
    replace (Z.to_nat n - (Z.to_nat n + (length l - Z.to_nat n)))%nat
      with 0%nat by lia.
    apply app_nil_r.
Qed.

Lemma product_bounds a b c m :
  1 ≤ a → 1 ≤ b → 1 ≤ c → a * b * c ≤ m →
  a ≤ m ∧ b ≤ m ∧ c ≤ m ∧ a * b ≤ m ∧ 1 ≤ a * b ∧ 1 ≤ a * b * c.
Proof.
  intros B0 B1 B2 H.
  assert (0 ≤ a * b * (c - 1)) by (apply Z.mul_nonneg_nonneg; nia).
  assert (0 ≤ (a * b - 1) * c) by (apply Z.mul_nonneg_nonneg; nia).
  assert (0 ≤ a * (b - 1)) by (apply Z.mul_nonneg_nonneg; nia).
  assert (0 ≤ (a - 1) * b) by (apply Z.mul_nonneg_nonneg; nia).
  repeat split; lia.
Qed.

Lemma prepared_xy_z pcl d s s1 :
  prepared pcl d s s1 →
  cells_x s1 * cells_y s1 ≤ INT_MAX ∧ cells_z s1 ≤ INT_MAX.
Proof.
  intros P. destruct (prep_box _ _ _ _ P) as (B0 & B1 & B2).
  pose proof (prep_xyz _ _ _ _ P) as H.
  destruct (product_bounds _ _ _ _ B0 B1 B2 H) as (_ & _ & ? & ? & _).
  split; assumption.
Qed.

(** The division counts and the size of the leaf layout are exact. *)
Lemma hash_bound_dims pcl d s s1 :
  prepared pcl d s s1 →
  c0 (VoxelStructT.div_b_ s1) = cells_x s1
  ∧ c1 (VoxelStructT.div_b_ s1) = cells_y s1
  ∧ c2 (VoxelStructT.div_b_ s1) = cells_z s1
  ∧ int_to_size_t (int_mul (int_mul (cells_x s1) (cells_y s1)) (cells_z s1))
    = cells_x s1 * cells_y s1 * cells_z s1.
Proof.
  intros P. destruct (prep_box _ _ _ _ P) as (B0 & B1 & B2).
  destruct (prepared_xy_z _ _ _ _ P) as [Hxy Hz].
  pose proof (prep_xyz _ _ _ _ P) as Hxyz.
  destruct (setUp_inv _ _ _ _ _ (prep_setUp _ _ _ _ P)) as [F _].
  destruct F as [_ _ Hmin Hmax Hdiv _ _ _ _ _ _].
  apply floor_cast_int_inv in Hmin as (_ & _ & _ & R0 & R1 & R2).
  apply floor_cast_int_inv in Hmax as (_ & _ & _ & S0 & S1 & S2).
  unfold cells_x, cells_y, cells_z in *.
  set (mn := VoxelStructT.min_b_ s1) in *.
  set (mx := VoxelStructT.max_b_ s1) in *.
  destruct (product_bounds _ _ _ _ B0 B1 B2 Hxyz)
    as (Q0 & Q1 & Q2 & Q3 & Q4 & Q5).
  rewrite Hdiv. cbn [vec_lift2 c0 c1 c2]. unfold int_add, int_sub, int_mul.
  rewrite (wrap_int_small (c0 mx - c0 mn)) by (unfold INT_MIN, INT_MAX in *; lia).
  rewrite (wrap_int_small (c1 mx - c1 mn)) by (unfold INT_MIN, INT_MAX in *; lia).
  rewrite (wrap_int_small (c2 mx - c2 mn)) by (unfold INT_MIN, INT_MAX in *; lia).
  rewrite (wrap_int_small (c0 mx - c0 mn + 1)) by (unfold INT_MIN, INT_MAX in *; lia).
  rewrite (wrap_int_small (c1 mx - c1 mn + 1)) by (unfold INT_MIN, INT_MAX in *; lia).
  rewrite (wrap_int_small (c2 mx - c2 mn + 1)) by (unfold INT_MIN, INT_MAX in *; lia).
  repeat (split; [reflexivity|]).
  rewrite (wrap_int_small ((c0 mx - c0 mn + 1) * (c1 mx - c1 mn + 1)))
    by (unfold INT_MIN, INT_MAX in *; lia).
  rewrite wrap_int_small by (unfold INT_MIN, INT_MAX in *; lia).
  apply int_to_size_t_small. unfold INT_MAX, SIZE_MAX in *. lia.
Qed.

Lemma prepared_binnable pcl d s s1 pt :
  prepared pcl d s s1 → pt ∈ getInputCloud d →
  binnable d s1 pt
  ∧ (VoxelStructT.rejected d s1 pt = Some false →
     ∀ h, VoxelStructT.hashPoint s1 pt = Some h →
          0 ≤ h < cells_x s1 * cells_y s1 * cells_z s1).
Proof.
  intros P Hpt. destruct (prep_test _ _ _ _ P pt Hpt) as [b Hb].
  destruct (setUp_inv _ _ _ _ _ (prep_setUp _ _ _ _ P)) as [F _].
  destruct b.
  - split; [left; exact Hb|]. congruence.
  - destruct (hash_bound_core pcl d s s1 pt F (prep_inverse _ _ _ _ P)
                (prep_within _ _ _ _ P pt Hpt Hb)
                (proj1 (prepared_xy_z _ _ _ _ P))
                (proj2 (prepared_xy_z _ _ _ _ P)))
      as (_ & _ & _ & _ & _ & _ & Hh & Hbound).
    split.
    + right. split; [exact Hb|]. rewrite Hh. eauto.
    + intros _ h Hh'. rewrite Hh in Hh'. injection Hh' as <-. exact Hbound.
Qed.

Lemma cell_points_elem d s h pts pt :
  pt ∈ cell_points d s h pts ↔
  pt ∈ pts ∧ VoxelStructT.rejected d s pt = Some false
  ∧ VoxelStructT.hashPoint s pt = Some h.
Proof.
  unfold cell_points. rewrite !list_elem_of_In, filter_In, <- list_elem_of_In.
  unfold lands_in. split.
  - intros [Hin Hl]. split; [exact Hin|].
    destruct (VoxelStructT.rejected d s pt) as [[|]|]; try discriminate.
    destruct (VoxelStructT.hashPoint s pt) as [k|]; try discriminate.
    apply Z.eqb_eq in Hl. subst. auto.
  - intros (Hin & -> & ->). split; [exact Hin|]. apply Z.eqb_refl.
Qed.

Lemma binned_lookup d s1 h :
  binned d s1 !! h
  = match cell_points d s1 h (getInputCloud d) with
    | [] => None
    | c => Some (foldl (add_to_voxel d) VoxelStructT.Voxel_new c)
    end.
Proof.
  unfold binned. rewrite bin_lookup. unfold VoxelStructT.grid_at.
  rewrite lookup_empty. reflexivity.
Qed.

Lemma binned_key_range pcl d s s1 h :
  prepared pcl d s s1 → is_Some (binned d s1 !! h) →
  0 ≤ h < cells_x s1 * cells_y s1 * cells_z s1.
Proof.
  intros P [v Hv]. rewrite binned_lookup in Hv.
  destruct (cell_points d s1 h (getInputCloud d)) as [|pt c] eqn:Ec;
    [discriminate|].
  assert (Hpt : pt ∈ cell_points d s1 h (getInputCloud d))
    by (rewrite Ec; left).
  apply cell_points_elem in Hpt as (Hin & Hr & Hh).
  destruct (prepared_binnable pcl d s s1 pt P Hin) as [_ Hb].
  exact (Hb Hr h Hh).
Qed.

Lemma cells_of_spec (g : gmap Z VoxelStructT.Voxel) :
  NoDup (VoxelStructT.cells_of g)
  ∧ ∀ h, h ∈ VoxelStructT.cells_of g ↔ is_Some (g !! h).
Proof.
  unfold VoxelStructT.cells_of. split.
  - apply NoDup_fst_map_to_list.
  - intros h. rewrite list_elem_of_fmap. split.
    + intros [[k v] [-> Hkv]]. apply elem_of_map_to_list in Hkv. eauto.
    + intros [v Hv]. exists (h, v). split; [reflexivity|].
      apply elem_of_map_to_list. exact Hv.
Qed.

(** A prepared call returns: the output is the emission over the cells of
    the binned grid, and the leaf layout, when it is saved, is the fresh
    layout in which the emitting cells were recorded. *)
Lemma applyFilter_spec pcl d s s1 :
  prepared pcl d s s1 →
  ∃ s',
    VoxelStructT.applyFilter pcl d s
    = Some (mkPointCloud
              (emissions pcl d (binned d s1)
                         (VoxelStructT.cells_of (binned d s1))) true, s')
    ∧ (getSaveLeafLayout d = true →
       (VoxelStructT.leaf_layout_ s', VoxelStructT.num_voxels_ s')
       = layout_after
           (replicate (Z.to_nat (cells_x s1 * cells_y s1 * cells_z s1)) (-1))
           0 (emitting d (binned d s1) (VoxelStructT.cells_of (binned d s1)))).
Proof.
  intros P. pose proof (prep_setUp _ _ _ _ P) as Hset.
  destruct (setUp_inv _ _ _ _ _ Hset) as [F (o & _ & _ & _ & Hlay)].
  specialize (Hlay eq_refl).
  assert (Hs1 : s1 = VoxelStructT.set_grid s1 ∅).
  { rewrite <- (prep_grid _ _ _ _ P), <- (su_grid _ _ _ _ F).
    symmetry. apply set_grid_idem. exact ∅. }
  assert (Hadd : VoxelStructT.add_points d s1 (getInputCloud d)
                 = Some (VoxelStructT.set_grid s1 (binned d s1))).
  { rewrite Hs1 at 1. apply add_points_bin. apply Forall_forall.
    intros pt Hpt. apply (prepared_binnable pcl d s s1 pt P Hpt). }
  destruct (cells_of_spec (binned d s1)) as [Hnd Hcells].
  destruct (filter_cells_spec pcl d (VoxelStructT.cells_of (binned d s1))
              (VoxelStructT.set_grid s1 (binned d s1)) Hnd)
    as (s' & Hfc & Hfl).
  { intros h Hh. apply Hcells. exact Hh. }
  { intros Hsave h Hh. apply Hcells in Hh.
    apply (binned_key_range pcl d s s1 h P) in Hh.
    change (VoxelStructT.leaf_layout_ (VoxelStructT.set_grid s1 (binned d s1)))
      with (VoxelStructT.leaf_layout_ s1).
    rewrite Hlay, Hsave.
    destruct (hash_bound_dims pcl d s s1 P) as (D0 & D1 & D2 & D3).
    rewrite D0, D1, D2, D3, reset_layout_fresh, length_replicate; lia. }
  exists s'. split.
  - unfold VoxelStructT.applyFilter.
    destruct (getInputCloud d) eqn:Ein; [destruct (prep_input _ _ _ _ P Ein)|].
    rewrite Hset. cbn [mbind option_bind].
    rewrite Hadd. cbn [mbind option_bind].
    change (VoxelStructT.grid_ (VoxelStructT.set_grid s1 (binned d s1)))
      with (binned d s1) in *.
    rewrite Hfc. reflexivity.
  - intros Hsave. rewrite Hfl, Hsave.
    change (VoxelStructT.leaf_layout_ (VoxelStructT.set_grid s1 (binned d s1)))
      with (VoxelStructT.leaf_layout_ s1).
    change (VoxelStructT.num_voxels_ (VoxelStructT.set_grid s1 (binned d s1)))
      with (VoxelStructT.num_voxels_ s1).
    change (VoxelStructT.grid_ (VoxelStructT.set_grid s1 (binned d s1)))
      with (binned d s1).
    rewrite (su_num_voxels _ _ _ _ F), Hlay, Hsave.
    destruct (hash_bound_dims pcl d s s1 P) as (D0 & D1 & D2 & D3).
    rewrite D0, D1, D2, D3, reset_layout_fresh; [reflexivity|].
    destruct (prep_box _ _ _ _ P) as (B0 & B1 & B2). nia.
Qed.







(** ** The leaf layout after a call *)






(** ** The emitted point is the mean of its cell *)














(** ** A call whose cell count overflows *)






(** ** Successive calls (revision with grid_.clear() in setUp) *)


















(** X2.  The setUp of the revision with the field-range test does not touch the
    grid: whatever it held before the call is still there afterwards. *)
Lemma setUp_keeps_grid pcl d s ok s1 :
  VoxelStructT.setUp pcl d s = Some (ok, s1) →
  VoxelStructT.grid_ s1 = VoxelStructT.grid_ s.
Proof. intros H. apply setUp_inv in H as [F _]. exact (su_grid _ _ _ _ F). Qed.

(** Witness of [setUp_keeps_grid]: setUp on a structure that still holds the
    two cells of an earlier call. *)
Lemma setUp_keeps_grid_witness :
  let d := Example.settings Example.cloud3 true false 0 in
  let s := VoxelStructT.set_grid
             (VoxelStructT.setLeafSize VoxelStructT.new 1%Q 1%Q 1%Q)
             (binned d cloud3_ready) in
  size (VoxelStructT.grid_ s) = 2%nat
  ∧ ∃ ok s1,
      VoxelStructT.setUp Example.pcl d s = Some (ok, s1)
      ∧ VoxelStructT.grid_ s1 = VoxelStructT.grid_ s.
Proof.
  intros d s. split; [vm_compute; reflexivity|].
  destruct (VoxelStructT.setUp Example.pcl d s) as [[ok s1]|] eqn:E;
    [|vm_compute in E; discriminate E].
  exists ok, s1. split; [reflexivity|].
  exact (setUp_keeps_grid Example.pcl d s ok s1 E).
Defined.

(** ** The hash, the bounding box and the leaf layout after setUp *)














(** X6.  setUp and the leaf layout. A successful setUp with save-leaf-layout
    leaves a layout of the requested size in which every entry is -1, whatever
    the layout held before; without save-leaf-layout, and when setUp fails,
    the layout is the one of the structure before the call. *)
Theorem setUp_leaf_layout (pcl : Common) (d : Derived)
    (s s1 : VoxelStructT.t) (ok : bool) :
  VoxelStructT.setUp pcl d s = Some (ok, s1) →
  VoxelStructT.getLeafLayout s1
  = if ok && getSaveLeafLayout d
    then replicate (Z.to_nat (new_layout_size s1)) (-1)
    else VoxelStructT.getLeafLayout s.
Proof.
  intros Hset. apply setUp_inv in Hset as [_ (o & _ & _ & Hfail & Hok)].
  unfold VoxelStructT.getLeafLayout. destruct ok; cbn [andb].
  - rewrite (Hok eq_refl). destruct (getSaveLeafLayout d); [|reflexivity].
    apply reset_layout_fresh. unfold int_to_size_t.
    apply Z.mod_pos_bound. reflexivity.
  - apply (Hfail eq_refl).
Qed.

(** Witness of [setUp_leaf_layout]: a layout left by an earlier call is
    wiped by setUp on the three-point cloud. *)
Lemma setUp_leaf_layout_witness :
  let d := Example.settings Example.cloud3 true false 0 in
  let s := VoxelStructT.set_layout
             (VoxelStructT.setLeafSize VoxelStructT.new 1%Q 1%Q 1%Q)
             [7; 8; 9] in
  ∃ s1,
    VoxelStructT.setUp Example.pcl d s = Some (true, s1)
    ∧ VoxelStructT.getLeafLayout s1
      = if true && getSaveLeafLayout d
        then replicate (Z.to_nat (new_layout_size s1)) (-1)
        else VoxelStructT.getLeafLayout s.
Proof.
  intros d s.
  destruct (VoxelStructT.setUp Example.pcl d s) as [[ok s1]|] eqn:E;
    [|vm_compute in E; discriminate E].
  assert (Hok : ok = true) by (vm_compute in E; congruence). subst ok.
  exists s1. split; [reflexivity|].
  exact (setUp_leaf_layout Example.pcl d s s1 true E).
Defined.

Lemma in_console_warn s msg :
  msg ∈ VoxelStructT.console_ (VoxelStructT.PCL_WARN s msg).
Proof. cbn. apply elem_of_app. right. left. Qed.

(** X7.  An unknown filter field name is only warned about: setUp goes on with
    the index -1, and addPointToGrid then reads the field description at that
    index for every point, which is outside [filter_fields_]. *)
Theorem invalid_field_name_only_warns (pcl : Common) (d : Derived)
    (s s1 : VoxelStructT.t) (ok : bool) (pt : PointT) :
  VoxelStructT.setUp pcl d s = Some (ok, s1) →
  is_empty (getFilterFieldName d) = false →
  getFieldIndex pcl (getFilterFieldName d) = -1 →
  "Invalid filter field name." ∈ VoxelStructT.console_ s1
  ∧ VoxelStructT.filter_field_idx_ s1 = -1
  ∧ VoxelStructT.addPointToGrid d s1 pt = None.
Proof.
  intros Hset Hname Hidx.
  assert (H : "Invalid filter field name." ∈ VoxelStructT.console_ s1
              ∧ VoxelStructT.filter_field_idx_ s1 = -1
              ∧ is_empty (VoxelStructT.filter_field_name_ s1) = false).
  { revert Hset. unfold VoxelStructT.setUp.
    destruct (VoxelStructT.extrema pcl d) as [min_p max_p].
    cbn [VoxelStructT.filter_field_name_ VoxelStructT.set_filter].
    rewrite Hname. cbn [negb].
    cbn [VoxelStructT.filter_field_idx_ VoxelStructT.set_field_idx].
    rewrite Hidx. cbn [Z.eqb Pos.eqb].
    set (s0 := VoxelStructT.PCL_WARN _ _).
    assert (H0 : "Invalid filter field name." ∈ VoxelStructT.console_ s0)
      by apply in_console_warn.
    destruct (floor_cast_int min_p _) as [min_b|]; [|discriminate].
    destruct (floor_cast_int max_p _) as [max_b|]; [|discriminate].
    cbn [mbind option_bind].
    destruct (VoxelStructT.checkIfOverflow _ _ _) as [[n|]|];
      cbn [mbind option_bind]; try discriminate.
    - destruct (getSaveLeafLayout d); intros [= <- <-];
        (split; [exact H0|]); split; try reflexivity; exact Hname.
    - intros [= <- <-]. split; [|split; [reflexivity|exact Hname]].
      cbn. apply elem_of_app. left. exact H0. }
  destruct H as (Hw & Hi & Hn). split; [exact Hw|]. split; [exact Hi|].
  unfold VoxelStructT.addPointToGrid, VoxelStructT.rejected.
  rewrite Hn, Hi. reflexivity.
Qed.

(** Witness of [invalid_field_name_only_warns]: the field name w on points
    with the fields x, y, z. *)
Lemma invalid_field_name_only_warns_witness :
  let d := mkDerived Example.cloud3 [] "w" 0%Q 1%Q false false false 0 in
  let s := VoxelStructT.setLeafSize VoxelStructT.new 1%Q 1%Q 1%Q in
  ∃ ok s1,
    VoxelStructT.setUp Example.pcl d s = Some (ok, s1)
    ∧ "Invalid filter field name." ∈ VoxelStructT.console_ s1
    ∧ VoxelStructT.filter_field_idx_ s1 = -1
    ∧ VoxelStructT.addPointToGrid d s1 (PointXYZ 0%Q 0%Q 0%Q) = None.
Proof.
  intros d s.
  destruct (VoxelStructT.setUp Example.pcl d s) as [[ok s1]|] eqn:E;
    [|vm_compute in E; discriminate E].
  exists ok, s1. split; [reflexivity|].
  apply (invalid_field_name_only_warns Example.pcl d s s1 ok _ E);
    reflexivity.
Defined.

(** ** The field-range test at and beyond its limits *)

Lemma Qlt_bool_false a b : (b <= a)%Q → Qlt_bool a b = false.
Proof.
  intros H. unfold Qlt_bool. apply negb_false_iff, Qle_bool_iff. exact H.
Qed.

(** X8.  The limits are inclusive in both modes: with [limit_min <= limit_max],
    a point whose field value equals one of the limits is kept by the normal
    test and by the negative test alike. *)
Theorem limits_are_kept (d : Derived) (s : VoxelStructT.t) (pt : PointT)
    (v : float) :
  is_empty (VoxelStructT.filter_field_name_ s) = false →
  field_value pt (VoxelStructT.filter_field_idx_ s) = Some v →
  (VoxelStructT.filter_limit_min_ s <= VoxelStructT.filter_limit_max_ s)%Q →
  (v == VoxelStructT.filter_limit_min_ s)%Q
  ∨ (v == VoxelStructT.filter_limit_max_ s)%Q →
  VoxelStructT.rejected d s pt = Some false.
Proof.
  intros Hname Hv Hle Hlim. unfold VoxelStructT.rejected.
  rewrite Hname, Hv. cbn [negb mbind option_bind].
  set (lo := VoxelStructT.filter_limit_min_ s) in *.
  set (hi := VoxelStructT.filter_limit_max_ s) in *.
  destruct (getFilterLimitsNegative d); f_equal.
  - destruct Hlim as [E|E].
    + rewrite (Qlt_bool_false lo v) by (rewrite E; apply Qle_refl).
      apply andb_false_r.
    + rewrite (Qlt_bool_false v hi) by (rewrite E; apply Qle_refl).
      reflexivity.
  - destruct Hlim as [E|E].
    + rewrite (Qlt_bool_false hi v) by (rewrite E; exact Hle).
      rewrite (Qlt_bool_false v lo) by (rewrite E; apply Qle_refl).
      reflexivity.
    + rewrite (Qlt_bool_false hi v) by (rewrite E; apply Qle_refl).
      rewrite (Qlt_bool_false v lo) by (rewrite E; exact Hle).
      reflexivity.
Qed.

(** Witness of [limits_are_kept]: field z limited to [[0, 1]], negative
    test, and a point with z = 1. *)
Lemma limits_are_kept_witness :
  let d := mkDerived [] [] "z" 0%Q 1%Q true false false 0 in
  let s := VoxelStructT.set_field_idx
             (VoxelStructT.set_filter
                (VoxelStructT.setLeafSize VoxelStructT.new 1%Q 1%Q 1%Q)
                "z" 0%Q 1%Q) 2 in
  VoxelStructT.rejected d s (PointXYZ 0%Q 0%Q 1%Q) = Some false.
Proof.
  apply (limits_are_kept _ _ _ 1%Q).
  - reflexivity.
  - reflexivity.
  - vm_compute. discriminate.
  - right. reflexivity.
Defined.

(** X9.  Limits given in the wrong order ([limit_max < limit_min]): the normal
    test skips every point and the negative test keeps every point. *)
Theorem inverted_limits (d : Derived) (s : VoxelStructT.t) (pt : PointT)
    (v : float) :
  is_empty (VoxelStructT.filter_field_name_ s) = false →
  field_value pt (VoxelStructT.filter_field_idx_ s) = Some v →
  (VoxelStructT.filter_limit_max_ s < VoxelStructT.filter_limit_min_ s)%Q →
  VoxelStructT.rejected d s pt = Some (negb (getFilterLimitsNegative d)).
Proof.
  intros Hname Hv Hlt. unfold VoxelStructT.rejected.
  rewrite Hname, Hv. cbn [negb mbind option_bind].
  set (lo := VoxelStructT.filter_limit_min_ s) in *.
  set (hi := VoxelStructT.filter_limit_max_ s) in *.
  destruct (getFilterLimitsNegative d); cbn [negb]; f_equal.
  - destruct (Qlt_le_dec v hi) as [H|H].
    + rewrite (Qlt_bool_false lo v); [apply andb_false_r|].
      apply Qlt_le_weak. eapply Qlt_trans; eassumption.
    + rewrite (Qlt_bool_false v hi) by exact H. reflexivity.
  - apply orb_true_iff. destruct (Qlt_le_dec hi v) as [H|H].
    + left. apply Qlt_bool_iff. exact H.
    + right. apply Qlt_bool_iff. eapply Qle_lt_trans; eassumption.
Qed.

(** Witness of [inverted_limits]: the limits (1, 0) on the field z. *)
Lemma inverted_limits_witness :
  let d := mkDerived [] [] "z" 1%Q 0%Q true false false 0 in
  let s := VoxelStructT.set_field_idx
             (VoxelStructT.set_filter
                (VoxelStructT.setLeafSize VoxelStructT.new 1%Q 1%Q 1%Q)
                "z" 1%Q 0%Q) 2 in
  VoxelStructT.rejected d s (PointXYZ 0%Q 0%Q 5%Q)
  = Some (negb (getFilterLimitsNegative d)).
Proof.
  apply (inverted_limits _ _ _ 5%Q).
  - reflexivity.
  - reflexivity.
  - vm_compute. reflexivity.
Defined.

(** ** The checked neighbour query and the centroid index *)

Lemma mapM_map {A B} (f : A → option B) (g : A → B) (l : list A) :
  (∀ a, a ∈ l → f a = Some (g a)) → mapM f l = Some (map g l).
Proof.
  induction l as [|a l IH]; intros H; [reflexivity|].
  simpl. rewrite (H a) by left. simpl.
  rewrite IH by (intros b Hb; apply H; right; exact Hb). reflexivity.
Qed.

Lemma query_cell_inv s px py pz ijk :
  VoxelStructT.query_cell s px py pz = Some ijk → c3 ijk = 0.
Proof.
  unfold VoxelStructT.query_cell. intros H.
  destruct (VoxelStructT.getGridCoordinates s px py pz) as [g|];
    [|discriminate].
  injection H as <-. reflexivity.
Qed.

Lemma in_box_spec s t :
  in_box s t = true ↔
  c0 (VoxelStructT.min_b_ s) ≤ i0 t ≤ c0 (VoxelStructT.max_b_ s)
  ∧ c1 (VoxelStructT.min_b_ s) ≤ i1 t ≤ c1 (VoxelStructT.max_b_ s)
  ∧ c2 (VoxelStructT.min_b_ s) ≤ i2 t ≤ c2 (VoxelStructT.max_b_ s).
Proof. unfold in_box. rewrite !andb_true_iff, !Z.leb_le. lia. Qed.

(** The comparison with the bounding box that the checked query makes. *)
Lemma box_check_spec s ijk col :
  c3 ijk = 0 →
  INT_MIN ≤ c3 (VoxelStructT.min_b_ s) ≤ 0
  ∧ 0 ≤ c3 (VoxelStructT.max_b_ s) ≤ INT_MAX →
  query_fits s ijk col →
  vec_all2 Z.leb (vec_lift2 int_sub (VoxelStructT.min_b_ s) ijk)
                 (VoxelStructT.with_zero col)
  && vec_all2 Z.geb (vec_lift2 int_sub (VoxelStructT.max_b_ s) ijk)
                    (VoxelStructT.with_zero col)
  = in_box s (target ijk col).
Proof.
  intros H3 [Hw0 Hw1] (F0 & F1 & F2 & G0 & G1 & G2 & _).
  unfold fits_int in *.
  unfold vec_all2, vec_lift2, VoxelStructT.with_zero, in_box, target.
  cbn [c0 c1 c2 c3 i0 i1 i2]. unfold int_sub. rewrite H3.
  rewrite !wrap_int_small by lia.
  apply eq_true_iff_eq.
  rewrite !andb_true_iff, !Z.leb_le, !Z.geb_le. lia.
Qed.

Lemma cell_index_spec s ijk col :
  layout_ready s → c3 ijk = 0 → query_fits s ijk col →
  in_box s (target ijk col) = true →
  VoxelStructT.cell_index s ijk (VoxelStructT.with_zero col)
  = layout_position s (target ijk col)
  ∧ 0 ≤ layout_position s (target ijk col)
    < Z.of_nat (length (VoxelStructT.leaf_layout_ s)).
Proof.
  intros R H3 (_ & _ & _ & _ & _ & _ & T0 & T1 & T2) Hin.
  apply in_box_spec in Hin as (B0 & B1 & B2).
  destruct R as [B (P0 & P1 & P2) Hxyz Hlen _].
  destruct (product_bounds _ _ _ _ P0 P1 P2 Hxyz) as (Q0 & Q1 & Q2 & Q3 & Q4 & Q5).
  pose proof (bx_mul _ B) as Hm.
  unfold VoxelStructT.getDivisionMultiplier, head3i in Hm.
  injection Hm as E0 E1 E2. pose proof (bx_mul3 _ B) as E3.
  rewrite Hlen. unfold layout_position, VoxelStructT.cell_index, dot4, vec_lift2,
    VoxelStructT.with_zero, target, fits_int in *.
  cbn [c0 c1 c2 c3 i0 i1 i2] in *. rewrite E0, E1, E2, E3, H3.
  unfold cells_x, cells_y, cells_z in *.
  set (mn := VoxelStructT.min_b_ s) in *.
  set (mx := VoxelStructT.max_b_ s) in *.
  set (a0 := c0 ijk + i0 col - c0 mn).
  set (a1 := c1 ijk + i1 col - c1 mn).
  set (a2 := c2 ijk + i2 col - c2 mn).
  set (X := c0 mx - c0 mn + 1) in *.
  set (Y := c1 mx - c1 mn + 1) in *.
  set (Z2 := c2 mx - c2 mn + 1) in *.
  assert (Ha0 : 0 ≤ a0 ≤ X - 1) by (subst a0 X; lia).
  assert (Ha1 : 0 ≤ a1 ≤ Y - 1) by (subst a1 Y; lia).
  assert (Ha2 : 0 ≤ a2 ≤ Z2 - 1) by (subst a2 Z2; lia).
  assert (T3 : 0 ≤ a1 * X) by nia.
  assert (T4 : 0 ≤ a2 * (X * Y)) by nia.
  assert (Hsum : a0 + a1 * X + a2 * (X * Y) < X * Y * Z2) by nia.
  unfold int_add, int_sub, int_mul.
  rewrite (wrap_int_small (c0 ijk + i0 col)) by lia.
  rewrite (wrap_int_small (c1 ijk + i1 col)) by lia.
  rewrite (wrap_int_small (c2 ijk + i2 col)) by lia.
  fold a0 a1 a2.
  rewrite (wrap_int_small a0) by (unfold INT_MIN, INT_MAX in *; lia).
  rewrite (wrap_int_small a1) by (unfold INT_MIN, INT_MAX in *; lia).
  rewrite (wrap_int_small a2) by (unfold INT_MIN, INT_MAX in *; lia).
  rewrite (wrap_int_small (a0 * 1)) by (unfold INT_MIN, INT_MAX in *; lia).
  rewrite (wrap_int_small (a1 * X)) by (unfold INT_MIN, INT_MAX in *; lia).
  rewrite (wrap_int_small (a2 * (X * Y))) by (unfold INT_MIN, INT_MAX in *; lia).
  rewrite (wrap_int_small (a0 * 1 + a1 * X)) by (unfold INT_MIN, INT_MAX in *; lia).
  rewrite (wrap_int_small (a0 * 1 + a1 * X + a2 * (X * Y)))
    by (unfold INT_MIN, INT_MAX in *; lia).
  rewrite Z.mul_0_r. change (wrap_int 0) with 0.
  rewrite wrap_int_small by (unfold INT_MIN, INT_MAX in *; lia).
  lia.
Qed.

Lemma layout_read_nth (l : list Z) idx :
  0 ≤ idx < Z.of_nat (length l) →
  layout_read l idx = Some (nth (Z.to_nat idx) l (-1)).
Proof.
  intros H. unfold layout_read. destruct (Z.ltb_spec idx 0); [lia|].
  destruct (lookup_lt_is_Some_2 l (Z.to_nat idx)) as [e He]; [lia|].
  rewrite He. f_equal. symmetry. apply nth_lookup_Some with (d := -1) in He.
  exact He.
Qed.

Lemma matrix_query_entries (s : VoxelStructT.t) (px py pz : float)
    (ijk : Vector4i) (cols : list Vector3i) :
  layout_ready s →
  VoxelStructT.query_cell s px py pz = Some ijk →
  Forall (query_fits s ijk) cols →
  VoxelStructT.getNeighborCentroidIndices s px py pz cols
  = Some (map (neighbor_entry s ijk) cols).
Proof.
  intros R Hq Hfit. unfold VoxelStructT.getNeighborCentroidIndices.
  rewrite Hq. cbn [mbind option_bind].
  pose proof (query_cell_inv _ _ _ _ _ Hq) as H3.
  apply mapM_map. intros col Hcol.
  rewrite Forall_forall in Hfit. specialize (Hfit col Hcol).
  rewrite (box_check_spec s ijk col H3 (lr_w _ R) Hfit).
  unfold neighbor_entry. destruct (in_box s (target ijk col)) eqn:Hin;
    [|reflexivity].
  destruct (cell_index_spec s ijk col R H3 Hfit Hin) as [-> Hr].
  apply layout_read_nth. exact Hr.
Qed.

(** X10.  The query that takes the offsets as a matrix never reads outside the
    leaf layout: for a cell outside the bounding box it answers -1, for a cell
    of the box it answers the entry of that cell. *)
Theorem neighbor_query_matrix_checked (s : VoxelStructT.t) (px py pz : float)
    (ijk : Vector4i) (cols : list Vector3i) :
  layout_ready s →
  VoxelStructT.query_cell s px py pz = Some ijk →
  Forall (query_fits s ijk) cols →
  VoxelStructT.getNeighborCentroidIndices s px py pz cols
  = Some (map (neighbor_entry s ijk) cols).
Proof. exact (matrix_query_entries s px py pz ijk cols). Qed.

(** Witness of [neighbor_query_matrix_checked]: in the 2 x 2 x 1 grid, from
    the cell (1, 0, 0), one offset that leaves the box and one that stays. *)
Lemma neighbor_query_matrix_checked_witness :
  let cols := [mkVector3i 1 0 0; mkVector3i (-1) 1 0] in
  VoxelStructT.getNeighborCentroidIndices grid2x2 1%Q 0%Q 0%Q cols
  = Some (map (neighbor_entry grid2x2 (mkVector4 1 0 0 0)) cols).
Proof.
  apply (neighbor_query_matrix_checked grid2x2 1%Q 0%Q 0%Q
           (mkVector4 1 0 0 0)).
  - solve_layout_ready.
  - reflexivity.
  - solve_query_fits.
Defined.

(** X11.  The fourth component of the bounding box takes part in the comparison
    of the checked query, against the 0 that the query puts in the fourth
    place: when [min_b_[3]] is positive or [max_b_[3]] negative, every offset
    is answered with -1, also those of cells of the box. *)
Theorem neighbor_query_fourth_component (s : VoxelStructT.t)
    (px py pz : float) (ijk : Vector4i) (cols : list Vector3i) :
  VoxelStructT.query_cell s px py pz = Some ijk →
  0 < c3 (VoxelStructT.min_b_ s) ≤ INT_MAX
  ∨ INT_MIN ≤ c3 (VoxelStructT.max_b_ s) < 0 →
  VoxelStructT.getNeighborCentroidIndices s px py pz cols
  = Some (replicate (length cols) (-1)).
Proof.
  intros Hq Hw. unfold VoxelStructT.getNeighborCentroidIndices.
  rewrite Hq. cbn [mbind option_bind].
  pose proof (query_cell_inv _ _ _ _ _ Hq) as H3.
  replace (replicate (length cols) (-1)) with (map (λ _ : Vector3i, -1) cols)
    by (induction cols as [|c cols IH]; [reflexivity|simpl; f_equal; exact IH]).
  apply mapM_map. intros col _.
  unfold vec_all2, vec_lift2, VoxelStructT.with_zero.
  cbn [c0 c1 c2 c3]. unfold int_sub. rewrite H3.
  destruct Hw as [Hw|Hw].
  - rewrite (wrap_int_small (c3 (VoxelStructT.min_b_ s) - 0))
      by (unfold INT_MIN in *; lia).
    replace (c3 (VoxelStructT.min_b_ s) - 0 <=? 0) with false
      by (symmetry; apply Z.leb_gt; lia).
    rewrite !andb_false_r. reflexivity.
  - rewrite (wrap_int_small (c3 (VoxelStructT.max_b_ s) - 0))
      by (unfold INT_MAX in *; lia).
    replace (c3 (VoxelStructT.max_b_ s) - 0 >=? 0) with false
      by (symmetry; rewrite Z.geb_leb; apply Z.leb_gt; lia).
    rewrite !andb_false_r. reflexivity.
Qed.

(** Witness of [neighbor_query_fourth_component]: after setUp on the
    three-point cloud, whose points carry 1 in the fourth place, the query at
    the first point for its own cell and for a neighbour. *)
Lemma neighbor_query_fourth_component_witness :
  VoxelStructT.getNeighborCentroidIndices cloud3_ready 0%Q 0%Q 0%Q
    [mkVector3i 0 0 0; mkVector3i 1 0 0]
  = Some (replicate 2 (-1)).
Proof.
  apply (neighbor_query_fourth_component cloud3_ready 0%Q 0%Q 0%Q
           (mkVector4 0 0 0 0) [mkVector3i 0 0 0; mkVector3i 1 0 0]).
  - reflexivity.
  - left. vm_compute. split; [reflexivity|discriminate].
Defined.



Lemma wrap_int_le v : 0 ≤ v → wrap_int v ≤ v.
Proof.
  intros H. unfold wrap_int.
  pose proof (Z.mod_le (v + 2 ^ 31) (2 ^ 32)). lia.
Qed.

(** X13.  getCentroidIndexAt never reads outside the leaf layout, whatever the
    structure holds and whatever cell is asked for: it returns -1 or an entry
    of the layout, and -1 when the layout is empty. *)
Theorem getCentroidIndexAt_is_checked (s : VoxelStructT.t) (ijk : Vector3i) :
  ∃ e, VoxelStructT.getCentroidIndexAt s ijk = Some e
       ∧ (e = -1 ∨ e ∈ VoxelStructT.getLeafLayout s)
       ∧ (VoxelStructT.getLeafLayout s = [] → e = -1).
Proof.
  unfold VoxelStructT.getCentroidIndexAt, VoxelStructT.getLeafLayout.
  set (idx := dot4 _ _). set (l := VoxelStructT.leaf_layout_ s).
  destruct (Z.ltb_spec idx 0) as [Hneg|Hpos]; cbn [orb].
  { exists (-1). auto. }
  destruct (Z.leb_spec (size_t_to_int (Z.of_nat (length l))) idx) as [Hge|Hlt].
  { exists (-1). auto. }
  assert (Hlen : idx < Z.of_nat (length l)).
  { unfold size_t_to_int in Hlt.
    pose proof (wrap_int_le (Z.of_nat (length l)) ltac:(lia)). lia. }
  unfold layout_read. destruct (Z.ltb_spec idx 0); [lia|].
  destruct (lookup_lt_is_Some_2 l (Z.to_nat idx)) as [e He]; [lia|].
  exists e. split; [exact He|]. split.
  - right. eapply list_elem_of_lookup_2. exact He.
  - intros Hnil. rewrite Hnil in He. discriminate He.
Qed.




(** ** Index queries after a filter call *)











(** ** The emitted point and its cell *)












(** ** Occupancy counts *)

Lemma total_points_insert_new g h v :
  g !! h = None →
  total_points (<[h := v]> g) = VoxelStructT.num_pt v + total_points g.
Proof.
  intros Hn. unfold total_points.
  rewrite (map_fold_insert_L
             (λ (_ : Z) (w : VoxelStructT.Voxel) (acc : Z),
                VoxelStructT.num_pt w + acc) 0 h v g);
    [reflexivity|intros; lia|exact Hn].
Qed.

Lemma total_points_delete g h v :
  g !! h = Some v →
  total_points g = VoxelStructT.num_pt v + total_points (delete h g).
Proof.
  intros Hv. rewrite <- (insert_delete_id g h v Hv) at 1.
  apply total_points_insert_new. apply lookup_delete_eq.
Qed.

Lemma total_points_insert g h v :
  total_points (<[h := v]> g)
  = VoxelStructT.num_pt v + total_points g
    - VoxelStructT.num_pt (VoxelStructT.grid_at g h)
    + (if g !! h is Some _ then 0
       else VoxelStructT.num_pt VoxelStructT.Voxel_new).
Proof.
  unfold VoxelStructT.grid_at. destruct (g !! h) as [v0|] eqn:E.
  - cbn [default from_option id]. rewrite (total_points_delete g h v0 E).
    rewrite <- (insert_delete_eq g).
    rewrite total_points_insert_new by apply lookup_delete_eq. lia.
  - cbn [default from_option id]. rewrite total_points_insert_new by exact E.
    lia.
Qed.

Lemma total_points_nonneg g :
  (∀ h v, g !! h = Some v → 0 ≤ VoxelStructT.num_pt v) →
  0 ≤ total_points g.
Proof.
  induction g as [|h v g Hn IH] using map_ind; intros Hall.
  - reflexivity.
  - rewrite total_points_insert_new by exact Hn.
    assert (0 ≤ VoxelStructT.num_pt v)
      by (apply (Hall h); apply lookup_insert_eq).
    assert (0 ≤ total_points g).
    { apply IH. intros k w Hk. apply (Hall k).
      rewrite lookup_insert_ne; [exact Hk|]. intros ->. congruence. }
    lia.
Qed.

Lemma total_points_bound g h :
  (∀ k v, g !! k = Some v → 0 ≤ VoxelStructT.num_pt v) →
  0 ≤ VoxelStructT.num_pt (VoxelStructT.grid_at g h) ≤ total_points g.
Proof.
  intros Hall. unfold VoxelStructT.grid_at.
  pose proof (total_points_nonneg g Hall) as Hg.
  destruct (g !! h) as [v|] eqn:E; cbn [default from_option id].
  - rewrite (total_points_delete g h v E).
    assert (0 ≤ total_points (delete h g)).
    { apply total_points_nonneg. intros k w Hk.
      apply lookup_delete_Some in Hk as [_ Hk]. exact (Hall k w Hk). }
    specialize (Hall h v E). lia.
  - cbn. lia.
Qed.

(** The binning of a cloud, one point after the other: every cell holds at
    least one point, the counts add up to the number of binned points, and
    there are at most as many cells as binned points. *)
Lemma bin_counts d s pts : ∀ g,
  Forall (binnable d s) pts →
  (∀ h v, g !! h = Some v → 1 ≤ VoxelStructT.num_pt v) →
  total_points g + Z.of_nat (length pts) ≤ SIZE_MAX →
  (∀ h v, bin d s g pts !! h = Some v → 1 ≤ VoxelStructT.num_pt v)
  ∧ total_points (bin d s g pts)
    = total_points g + Z.of_nat (length (List.filter (passes_test d s) pts))
  ∧ (size (bin d s g pts)
     ≤ size g + length (List.filter (passes_test d s) pts))%nat.
Proof.
  unfold bin.
  induction pts as [|pt pts IH]; intros g Hall Hg Hle.
  - cbn. split; [exact Hg|]. split; lia.
  - inversion Hall as [|? ? Hpt Hrest]; subst.
    cbn [foldl length List.filter] in *. rewrite Nat2Z.inj_succ in Hle.
    destruct Hpt as [Hr|[Hr [h Hh]]].
    + assert (Ha : passes_test d s pt = false)
        by (unfold passes_test; rewrite Hr; reflexivity).
      assert (Hs : bin_step d s g pt = g)
        by (unfold bin_step; rewrite Hr; reflexivity).
      rewrite Ha, Hs. apply IH; [exact Hrest|exact Hg|lia].
    + assert (Ha : passes_test d s pt = true)
        by (unfold passes_test; rewrite Hr; reflexivity).
      assert (Hs : bin_step d s g pt
                   = <[h := add_to_voxel d (VoxelStructT.grid_at g h) pt]> g)
        by (unfold bin_step; rewrite Hr, Hh; reflexivity).
      rewrite Ha, Hs.
      assert (Hnn : ∀ k v, g !! k = Some v → 0 ≤ VoxelStructT.num_pt v)
        by (intros k v Hk; specialize (Hg k v Hk); lia).
      pose proof (total_points_bound g h Hnn) as Hb.
      set (v0 := VoxelStructT.grid_at g h) in *.
      assert (Hnum : VoxelStructT.num_pt (add_to_voxel d v0 pt)
                     = VoxelStructT.num_pt v0 + 1).
      { unfold add_to_voxel. cbn [VoxelStructT.num_pt].
        destruct (negb (getDownsampleAllData d)); cbn [VoxelStructT.num_pt];
          apply add_sz_small; lia. }
      assert (Htot : total_points (<[h := add_to_voxel d v0 pt]> g)
                     = total_points g + 1).
      { rewrite total_points_insert, Hnum. fold v0.
        destruct (g !! h); cbn; lia. }
      destruct (IH (<[h := add_to_voxel d v0 pt]> g) Hrest) as (I1 & I2 & I3).
      { intros k v Hk. destruct (decide (h = k)) as [->|Hne].
        - rewrite lookup_insert_eq in Hk. injection Hk as <-. lia.
        - rewrite lookup_insert_ne in Hk by exact Hne. exact (Hg k v Hk). }
      { lia. }
      split; [exact I1|]. cbn [length]. rewrite Nat2Z.inj_succ.
      split; [lia|].
      rewrite map_size_insert in I3. destruct (g !! h); cbn in I3; lia.
Qed.

(** What add_points returns, when it returns. *)
Lemma add_points_inv d s pts : ∀ g s',
  VoxelStructT.add_points d (VoxelStructT.set_grid s g) pts = Some s' →
  Forall (binnable d s) pts ∧ s' = VoxelStructT.set_grid s (bin d s g pts).
Proof.
  induction pts as [|pt pts IH]; intros g s' H.
  - injection H as <-. split; [constructor|reflexivity].
  - cbn [VoxelStructT.add_points] in H.
    assert (Hb : binnable d s pt).
    { unfold VoxelStructT.addPointToGrid in H.
      rewrite rejected_set_grid, hashPoint_set_grid in H. unfold binnable.
      destruct (VoxelStructT.rejected d s pt) as [[|]|]; [auto| |discriminate].
      right. split; [reflexivity|].
      destruct (VoxelStructT.hashPoint s pt); [eauto|discriminate]. }
    rewrite (addPointToGrid_bin d s g pt Hb) in H. cbn [mbind option_bind] in H.
    destruct (IH _ _ H) as [Hall ->]. split; [constructor; assumption|].
    reflexivity.
Qed.

(** X18.  Binning loses no point and counts none twice: after add_points on an
    empty grid, the occupancy counts of the cells add up to the number of
    points that passed the field-range test, every cell of the grid holds at
    least one point, and there are at most as many cells as such points. *)
Theorem every_binned_point_is_counted (d : Derived)
    (s s' : VoxelStructT.t) (pts : list PointT) :
  VoxelStructT.grid_ s = ∅ →
  Z.of_nat (length pts) ≤ SIZE_MAX →
  VoxelStructT.add_points d s pts = Some s' →
  total_points (VoxelStructT.grid_ s')
  = Z.of_nat (length (List.filter (passes_test d s) pts))
  ∧ (∀ h v, VoxelStructT.grid_ s' !! h = Some v → 1 ≤ VoxelStructT.num_pt v)
  ∧ (size (VoxelStructT.grid_ s')
     ≤ length (List.filter (passes_test d s) pts))%nat.
Proof.
  intros Hg Hle Hadd.
  rewrite <- (proj1 (set_grid_idem s ∅)), Hg in Hadd.
  apply add_points_inv in Hadd as [Hall ->].
  change (VoxelStructT.grid_ (VoxelStructT.set_grid s (bin d s ∅ pts)))
    with (bin d s ∅ pts).
  destruct (bin_counts d s pts ∅ Hall) as (I1 & I2 & I3).
  - intros h v Hv. rewrite lookup_empty in Hv. discriminate.
  - change (total_points ∅) with 0. lia.
  - change (total_points ∅) with 0 in I2. rewrite map_size_empty in I3.
    split; [lia|]. split; [exact I1|lia].
Qed.

(** Witness of [every_binned_point_is_counted]: the three-point cloud. *)
Lemma every_binned_point_is_counted_witness :
  let d := Example.settings Example.cloud3 true false 0 in
  ∃ s',
    VoxelStructT.add_points d cloud3_ready Example.cloud3 = Some s'
    ∧ total_points (VoxelStructT.grid_ s')
      = Z.of_nat (length (List.filter (passes_test d cloud3_ready) Example.cloud3))
    ∧ (∀ h v, VoxelStructT.grid_ s' !! h = Some v → 1 ≤ VoxelStructT.num_pt v)
    ∧ (size (VoxelStructT.grid_ s')
       ≤ length (List.filter (passes_test d cloud3_ready) Example.cloud3))%nat.
Proof.
  intros d.
  destruct (VoxelStructT.add_points d cloud3_ready Example.cloud3)
    as [s'|] eqn:E; [|vm_compute in E; discriminate E].
  exists s'. split; [reflexivity|].
  apply (every_binned_point_is_counted d cloud3_ready s' Example.cloud3).
  - reflexivity.
  - vm_compute. discriminate.
  - exact E.
Defined.

Lemma filter_Permutation {A} (f : A → bool) (l l' : list A) :
  l ≡ₚ l' → List.filter f l ≡ₚ List.filter f l'.
Proof.
  induction 1 as [|a l l' _ IH|a b l|l l' l'' _ IH1 _ IH2]; simpl.
  - reflexivity.
  - destruct (f a); [constructor|]; exact IH.
  - destruct (f a), (f b); try reflexivity. apply perm_swap.
  - etrans; eassumption.
Qed.

Lemma num_pt_fold_length d c : ∀ c' v v',
  length c = length c' → VoxelStructT.num_pt v = VoxelStructT.num_pt v' →
  VoxelStructT.num_pt (foldl (add_to_voxel d) v c)
  = VoxelStructT.num_pt (foldl (add_to_voxel d) v' c').
Proof.
  induction c as [|pt c IH]; intros [|pt' c'] v v' Hlen Hv;
    try discriminate; [exact Hv|].
  cbn [foldl]. apply IH; [simpl in Hlen; lia|].
  unfold add_to_voxel. cbn [VoxelStructT.num_pt].
  destruct (negb (getDownsampleAllData d)); cbn [VoxelStructT.num_pt];
    rewrite Hv; reflexivity.
Qed.

(** X19.  The occupied cells and their occupancy counts do not depend on the
    order of the input points: binning a permutation of the cloud succeeds as
    well and leaves the same count in every cell. *)
Theorem occupancy_independent_of_order (d : Derived)
    (s s1 : VoxelStructT.t) (pts pts' : list PointT) :
  pts ≡ₚ pts' →
  VoxelStructT.add_points d s pts = Some s1 →
  ∃ s2,
    VoxelStructT.add_points d s pts' = Some s2
    ∧ ∀ h, VoxelStructT.num_pt <$> (VoxelStructT.grid_ s2 !! h)
           = VoxelStructT.num_pt <$> (VoxelStructT.grid_ s1 !! h).
Proof.
  intros Hperm Hadd.
  rewrite <- (proj1 (set_grid_idem s ∅)) in Hadd.
  apply add_points_inv in Hadd as [Hall ->].
  assert (Hall' : Forall (binnable d s) pts')
    by (rewrite <- Hperm; exact Hall).
  exists (VoxelStructT.set_grid s (bin d s (VoxelStructT.grid_ s) pts')).
  split.
  - rewrite <- (proj1 (set_grid_idem s ∅)) at 1.
    apply add_points_bin. exact Hall'.
  - intros h. cbn [VoxelStructT.grid_ VoxelStructT.set_grid].
    rewrite !bin_lookup.
    pose proof (filter_Permutation (lands_in d s h) pts pts' Hperm) as Hp.
    fold (cell_points d s h pts) (cell_points d s h pts') in Hp.
    pose proof (Permutation_length Hp) as Hlen.
    destruct (cell_points d s h pts) as [|q c] eqn:E,
             (cell_points d s h pts') as [|q' c'] eqn:E';
      try discriminate; [reflexivity|].
    cbn [fmap option_fmap option_map]. f_equal.
    apply num_pt_fold_length; [symmetry; exact Hlen|reflexivity].
Qed.

(** Witness of [occupancy_independent_of_order]: the three-point cloud and
    its reversal. *)
Lemma occupancy_independent_of_order_witness :
  let d := Example.settings Example.cloud3 true false 0 in
  ∃ s1 s2,
    VoxelStructT.add_points d cloud3_ready Example.cloud3 = Some s1
    ∧ VoxelStructT.add_points d cloud3_ready (rev Example.cloud3) = Some s2
    ∧ ∀ h, VoxelStructT.num_pt <$> (VoxelStructT.grid_ s2 !! h)
           = VoxelStructT.num_pt <$> (VoxelStructT.grid_ s1 !! h).
Proof.
  intros d.
  destruct (VoxelStructT.add_points d cloud3_ready Example.cloud3)
    as [s1|] eqn:E; [|vm_compute in E; discriminate E].
  exists s1.
  destruct (occupancy_independent_of_order d cloud3_ready s1 Example.cloud3
              (rev Example.cloud3)) as (s2 & H2 & H).
  - apply Permutation_rev.
  - exact E.
  - exists s2. split; [reflexivity|]. split; [exact H2|exact H].
Defined.

Lemma passes_test_length d s pts :
  (length (List.filter (passes_test d s) pts) ≤ length pts)%nat.
Proof. apply filter_length_le. Qed.

(** X20.  Downsampling: a filter call never returns more points than it was
    given, and never more than there are occupied cells. *)
Theorem output_not_larger_than_input (pcl : Common) (d : Derived)
    (s s1 : VoxelStructT.t) :
  prepared pcl d s s1 →
  ∃ out s',
    VoxelStructT.applyFilter pcl d s = Some (out, s')
    ∧ (length (points out) ≤ size (binned d s1))%nat
    ∧ (size (binned d s1) ≤ length (getInputCloud d))%nat.
Proof.
  intros P. destruct (applyFilter_spec pcl d s s1 P) as (s' & Happ & _).
  eexists. exists s'. split; [exact Happ|]. cbn [points].
  rewrite length_emissions. split.
  - etrans; [apply filter_length_le|].
    unfold VoxelStructT.cells_of. rewrite length_fmap, length_map_to_list.
    reflexivity.
  - destruct (bin_counts d s1 (getInputCloud d) ∅) as (_ & _ & I3).
    + apply Forall_forall. intros pt Hpt.
      apply (prepared_binnable pcl d s s1 pt P Hpt).
    + intros h v Hv. rewrite lookup_empty in Hv. discriminate.
    + change (total_points ∅) with 0. pose proof (prep_size _ _ _ _ P). lia.
    + rewrite map_size_empty in I3. unfold binned.
      pose proof (passes_test_length d s1 (getInputCloud d)). lia.
Qed.

(** Witness of [output_not_larger_than_input]: the three-point cloud. *)
Lemma output_not_larger_than_input_witness :
  let d := Example.settings Example.cloud3 true false 0 in
  ∃ out s',
    VoxelStructT.applyFilter Example.pcl d
      (VoxelStructT.setLeafSize VoxelStructT.new 1%Q 1%Q 1%Q) = Some (out, s')
    ∧ (length (points out) ≤ size (binned d cloud3_ready))%nat
    ∧ (size (binned d cloud3_ready) ≤ length (getInputCloud d))%nat.
Proof.
  apply (output_not_larger_than_input Example.pcl
           (Example.settings Example.cloud3 true false 0)
           (VoxelStructT.setLeafSize VoxelStructT.new 1%Q 1%Q 1%Q)
           cloud3_ready).
  solve_prepared.
Defined.

(** ** The threshold, and emitting a cell twice *)

Lemma emissions_sublist pcl d d' g cells :
  getDownsampleAllData d' = getDownsampleAllData d →
  (∀ v, emits d' v = true → emits d v = true) →
  sublist (emissions pcl d' g cells) (emissions pcl d g cells).
Proof.
  intros Hmode Hem. unfold emissions.
  induction cells as [|h cells IH]; [constructor|].
  cbn [flat_map]. apply sublist_app; [|exact IH].
  unfold representative. rewrite Hmode.
  destruct (emits d' (VoxelStructT.grid_at g h)) eqn:E'.
  - rewrite (Hem _ E'). reflexivity.
  - apply sublist_nil_l.
Qed.

Lemma prepared_threshold pcl d s s1 m :
  prepared pcl d s s1 →
  prepared pcl (setMinimumPointsNumberPerVoxel d m) s s1.
Proof. intros []. constructor; assumption. Qed.

(** X21.  Raising the minimum number of points per voxel only removes points
    from the output: the output for the larger threshold is a sublist of the
    output for the smaller one. *)
Theorem raising_threshold_removes_points (pcl : Common) (d : Derived)
    (s s1 : VoxelStructT.t) (m : Z) :
  prepared pcl d s s1 →
  getMinimumPointsNumberPerVoxel d ≤ m →
  ∃ out s' out2 s2,
    VoxelStructT.applyFilter pcl d s = Some (out, s')
    ∧ VoxelStructT.applyFilter pcl (setMinimumPointsNumberPerVoxel d m) s
      = Some (out2, s2)
    ∧ sublist (points out2) (points out).
Proof.
  intros P Hm.
  destruct (applyFilter_spec pcl d s s1 P) as (s' & Happ & _).
  destruct (applyFilter_spec pcl (setMinimumPointsNumberPerVoxel d m) s s1
              (prepared_threshold pcl d s s1 m P)) as (s2 & Happ2 & _).
  eexists. exists s'. eexists. exists s2.
  split; [exact Happ|]. split; [exact Happ2|]. cbn [points].
  change (binned (setMinimumPointsNumberPerVoxel d m) s1) with (binned d s1).
  apply emissions_sublist; [reflexivity|].
  intros v. unfold emits. cbn [getMinimumPointsNumberPerVoxel
                               setMinimumPointsNumberPerVoxel].
  rewrite !Z.leb_le. lia.
Qed.

(** Witness of [raising_threshold_removes_points]: the three-point cloud,
    thresholds 0 and 2. *)
Lemma raising_threshold_removes_points_witness :
  let d := Example.settings Example.cloud3 true false 0 in
  let s := VoxelStructT.setLeafSize VoxelStructT.new 1%Q 1%Q 1%Q in
  ∃ out s' out2 s2,
    VoxelStructT.applyFilter Example.pcl d s = Some (out, s')
    ∧ VoxelStructT.applyFilter Example.pcl
        (setMinimumPointsNumberPerVoxel d 2) s = Some (out2, s2)
    ∧ sublist (points out2) (points out).
Proof.
  apply (raising_threshold_removes_points Example.pcl
           (Example.settings Example.cloud3 true false 0)
           (VoxelStructT.setLeafSize VoxelStructT.new 1%Q 1%Q 1%Q)
           cloud3_ready 2).
  - solve_prepared.
  - vm_compute. discriminate.
Defined.

(** X22.  In geometry-only mode filterGrid of the first revision divides the
    coordinate sum of the cell in place: a second call on the same cell emits
    the first point divided once more by the occupancy. *)
Theorem filterGrid_consumes_the_sum (pcl : Common) (d : Derived)
    (s s1 : VoxelStructT.t) (h : Z) (v : VoxelStructT.Voxel) (p : PointT) :
  getDownsampleAllData d = false →
  VoxelStructT.grid_ s !! h = Some v →
  VoxelStructT.filterGrid pcl d s h = Some (Some p, s1) →
  let N := size_t_to_float (VoxelStructT.num_pt v) in
  ∃ q s2,
    VoxelStructT.filterGrid pcl d s1 h = Some (Some q, s2)
    ∧ x q = (x p / N)%Q ∧ y q = (y p / N)%Q ∧ z q = (z p / N)%Q.
Proof.
  intros Hd Hv Hf N.
  unfold VoxelStructT.filterGrid in Hf. rewrite Hv in Hf.
  cbn [mbind option_bind] in Hf. rewrite Hd in Hf. cbn [negb] in Hf.
  destruct (getMinimumPointsNumberPerVoxel d <=? VoxelStructT.num_pt v)
    eqn:Hem; [|discriminate].
  unfold VoxelStructT.filterGrid.
  destruct (getSaveLeafLayout d) eqn:Hsave.
  - destruct (layout_read (VoxelStructT.leaf_layout_ s) h) as [e|] eqn:He;
      [|discriminate].
    cbn [mbind option_bind] in Hf. injection Hf as <- <-.
    cbn [VoxelStructT.grid_ VoxelStructT.set_grid VoxelStructT.set_layout
         VoxelStructT.set_num_voxels VoxelStructT.leaf_layout_].
    rewrite lookup_insert_eq. cbn [mbind option_bind VoxelStructT.num_pt].
    rewrite Hem, Hd.
    assert (Hr : is_Some (layout_read
                            (<[Z.to_nat h := size_t_to_int
                                               (VoxelStructT.num_voxels_ s)]>
                               (VoxelStructT.leaf_layout_ s)) h)).
    { unfold layout_read in *. destruct (h <? 0); [discriminate|].
      apply lookup_lt_is_Some. rewrite length_insert.
      eapply lookup_lt_Some. exact He. }
    destruct Hr as [e' ->]. cbn [mbind option_bind negb].
    eexists. eexists. split; [reflexivity|].
    cbn [x y z VoxelStructT.coord_centroid vec4f_div c0 c1 c2].
    fold N. auto.
  - cbn [mbind option_bind] in Hf. injection Hf as <- <-.
    cbn [VoxelStructT.grid_ VoxelStructT.set_grid].
    rewrite lookup_insert_eq. cbn [mbind option_bind VoxelStructT.num_pt].
    rewrite Hem, Hd. cbn [mbind option_bind negb].
    eexists. eexists. split; [reflexivity|].
    cbn [x y z VoxelStructT.coord_centroid vec4f_div c0 c1 c2].
    fold N. auto.
Qed.

(** Witness of [filterGrid_consumes_the_sum]: the cell of the first two
    points of the three-point cloud. *)
Lemma filterGrid_consumes_the_sum_witness :
  let d := Example.settings Example.cloud3 true false 0 in
  let s := VoxelStructT.set_grid cloud3_ready (binned d cloud3_ready) in
  ∃ v p s1 q s2,
    VoxelStructT.grid_ s !! 0 = Some v
    ∧ VoxelStructT.filterGrid Example.pcl d s 0 = Some (Some p, s1)
    ∧ VoxelStructT.filterGrid Example.pcl d s1 0 = Some (Some q, s2)
    ∧ x q = (x p / size_t_to_float (VoxelStructT.num_pt v))%Q
    ∧ y q = (y p / size_t_to_float (VoxelStructT.num_pt v))%Q
    ∧ z q = (z p / size_t_to_float (VoxelStructT.num_pt v))%Q.
Proof.
  intros d s.
  destruct (VoxelStructT.grid_ s !! 0) as [v|] eqn:Ev;
    [|vm_compute in Ev; discriminate Ev].
  destruct (VoxelStructT.filterGrid Example.pcl d s 0) as [[[p|] s1]|] eqn:Ef;
    [|vm_compute in Ef; discriminate Ef..].
  destruct (filterGrid_consumes_the_sum Example.pcl d s s1 0 v p eq_refl Ev Ef)
    as (q & s2 & H).
  exists v, p, s1, q, s2. split; [reflexivity|]. split; [reflexivity|exact H].
Defined.

(** X23.  filterGrid of the second revision only reads the cell: the grid is as
    before the call, and a second call on the same cell emits the same point. *)
Theorem filterGrid_base_reads_only (pcl : Common)
    (sb sb1 : VoxelStructT_base.t) (h : Z) (o : option PointT) :
  VoxelStructT_base.filterGrid pcl sb h = Some (o, sb1) →
  VoxelStructT_base.grid_ sb1 = VoxelStructT_base.grid_ sb
  ∧ ∃ sb2, VoxelStructT_base.filterGrid pcl sb1 h = Some (o, sb2).
Proof.
  intros Hfb. unfold VoxelStructT_base.filterGrid in *.
  destruct (VoxelStructT_base.grid_ sb !! h) as [vb|] eqn:Evb;
    [|discriminate].
  cbn [mbind option_bind] in Hfb.
  destruct (VoxelStructT_base.min_points_per_voxel_ sb
            <=? CentroidPoint_getSize vb) eqn:Hem.
  2:{ injection Hfb as <- <-. split; [reflexivity|].
      rewrite Evb. cbn [mbind option_bind]. rewrite Hem. eauto. }
  destruct (VoxelStructT_base.save_leaf_layout_ sb) eqn:Hsave.
  - destruct (layout_read (VoxelStructT_base.leaf_layout_ sb) h) as [e|]
      eqn:He; [|discriminate].
    cbn [mbind option_bind] in Hfb. injection Hfb as <- <-.
    split; [reflexivity|].
    cbn [VoxelStructT_base.grid_ VoxelStructT_base.set_layout
         VoxelStructT_base.set_num_voxels VoxelStructT_base.leaf_layout_
         VoxelStructT_base.min_points_per_voxel_
         VoxelStructT_base.save_leaf_layout_
         VoxelStructT_base.downsample_all_data_].
    rewrite Evb. cbn [mbind option_bind]. rewrite Hem, Hsave.
    assert (Hr : is_Some (layout_read
                            (<[Z.to_nat h := size_t_to_int
                                 (VoxelStructT_base.num_voxels_ sb)]>
                               (VoxelStructT_base.leaf_layout_ sb)) h)).
    { unfold layout_read in *. destruct (h <? 0); [discriminate|].
      apply lookup_lt_is_Some. rewrite length_insert.
      eapply lookup_lt_Some. exact He. }
    destruct Hr as [e' ->]. cbn [mbind option_bind]. eauto.
  - cbn [mbind option_bind] in Hfb. injection Hfb as <- <-.
    split; [reflexivity|].
    rewrite Evb. cbn [mbind option_bind]. rewrite Hem, Hsave.
    cbn [mbind option_bind]. eauto.
Qed.

(** Witness of [filterGrid_base_reads_only]: a cell holding one point. *)
Lemma filterGrid_base_reads_only_witness :
  let sb := VoxelStructT_base.set_grid
              (VoxelStructT_base.setLeafSize VoxelStructT_base.new
                 1%Q 1%Q 1%Q)
              {[ 0 := CentroidPoint_add CentroidPoint_empty
                        (PointXYZ 0%Q 0%Q 0%Q) ]} in
  ∃ o sb1,
    VoxelStructT_base.filterGrid Example.pcl sb 0 = Some (o, sb1)
    ∧ VoxelStructT_base.grid_ sb1 = VoxelStructT_base.grid_ sb
    ∧ ∃ sb2, VoxelStructT_base.filterGrid Example.pcl sb1 0 = Some (o, sb2).
Proof.
  intros sb.
  destruct (VoxelStructT_base.filterGrid Example.pcl sb 0) as [[o sb1]|] eqn:E;
    [|vm_compute in E; discriminate E].
  exists o, sb1. split; [reflexivity|].
  exact (filterGrid_base_reads_only Example.pcl sb sb1 0 o E).
Defined.

(** ** The order of the test comparison *)

Lemma pt_cmp_spec p q :
  Tests.pt_cmp p q = true ↔
  (x q < x p)%Q ∨ ((x p == x q)%Q ∧ (y q < y p)%Q)
  ∨ ((x p == x q)%Q ∧ (y p == y q)%Q ∧ (z q < z p)%Q).
Proof.
  unfold Tests.pt_cmp.
  rewrite !orb_true_iff, !andb_true_iff, !Qlt_bool_iff, !Qeq_bool_iff.
  tauto.
Qed.

(** X24.  The comparison used to sort the clouds in the tests is a strict total
    order on the coordinate triples, as [std::sort] requires of it. *)
Theorem pt_cmp_is_strict_order (p q r : PointT) :
  Tests.pt_cmp p p = false
  ∧ (Tests.pt_cmp p q = true → Tests.pt_cmp q p = false)
  ∧ (Tests.pt_cmp p q = true → Tests.pt_cmp q r = true →
     Tests.pt_cmp p r = true)
  ∧ (Tests.pt_cmp p q = false → Tests.pt_cmp q p = false →
     (x p == x q)%Q ∧ (y p == y q)%Q ∧ (z p == z q)%Q).
Proof.
  split; [|split; [|split]].
  - apply not_true_iff_false. rewrite pt_cmp_spec. lra.
  - intros H. apply not_true_iff_false. rewrite pt_cmp_spec in *. lra.
  - rewrite !pt_cmp_spec. lra.
  - intros H1 H2. apply not_true_iff_false in H1, H2.
    rewrite pt_cmp_spec in H1, H2.
    destruct (Q_dec (x p) (x q)) as [[?|?]|Ex]; [lra|lra|].
    destruct (Q_dec (y p) (y q)) as [[?|?]|Ey]; [lra|lra|].
    destruct (Q_dec (z p) (z q)) as [[?|?]|Ez]; [lra|lra|].
    auto.
Qed.

(** ** Cells and coordinates *)






(** ** The two revisions side by side *)

Lemma addPointToGrid_agree d a b pt :
  getDownsampleAllData d = true → revisions_agree d a b →
  agree_after d (pair tt <$> VoxelStructT.addPointToGrid d a pt)
                (pair tt <$> VoxelStructT_base.addPointToGrid b pt).
Proof.
  intros Hall R. destruct R.
  unfold VoxelStructT.addPointToGrid, VoxelStructT.rejected,
    VoxelStructT_base.addPointToGrid.
  rewrite ra_name0. cbn [negb mbind option_bind].
  rewrite hashPoint_agree, ra_inv0, ra_min0, ra_mul0.
  destruct (GridFilterBase.hashPoint pt _ _ _) as [h|]; cbn; [|exact I].
  split; [reflexivity|]. rewrite Hall. cbn [negb].
  constructor; cbn; auto.
  - rewrite ra_grid0, fmap_insert, lookup_fmap. cbn. f_equal.
    unfold VoxelStructT.grid_at.
    destruct (VoxelStructT.grid_ a !! h); reflexivity.
  - intros k v. destruct (decide (h = k)) as [->|Hne].
    + rewrite lookup_insert_eq. intros [= <-]. cbn.
      unfold CentroidPoint_getSize. cbn. f_equal.
      unfold VoxelStructT.grid_at.
      destruct (VoxelStructT.grid_ a !! k) as [v0|] eqn:E; cbn.
      * exact (ra_size0 k v0 E).
      * reflexivity.
    + rewrite lookup_insert_ne by exact Hne. apply ra_size0.
Qed.

Lemma filterGrid_agree pcl d a b h :
  getDownsampleAllData d = true → revisions_agree d a b →
  agree_after d (VoxelStructT.filterGrid pcl d a h)
                (VoxelStructT_base.filterGrid pcl b h).
Proof.
  intros Hall R. destruct R.
  unfold VoxelStructT.filterGrid, VoxelStructT_base.filterGrid.
  rewrite ra_grid0, lookup_fmap, ra_pts0, ra_all0, ra_save0, Hall.
  destruct (VoxelStructT.grid_ a !! h) as [v|] eqn:Ev; cbn; [|exact I].
  rewrite <- (ra_size0 h v Ev).
  destruct (getMinimumPointsNumberPerVoxel d <=? VoxelStructT.num_pt v);
    [|cbn; split; [reflexivity|constructor; auto]].
  destruct (getSaveLeafLayout d) eqn:Hsave.
  - rewrite <- ra_layout0, <- ra_num0.
    destruct (layout_read (VoxelStructT.leaf_layout_ a) h); cbn; [|exact I].
    split; [reflexivity|]. constructor; cbn; auto; congruence.
  - cbn. split; [reflexivity|]. constructor; auto; congruence.
Qed.

(** The two checks compute the same: checkHashRange returns what
    checkIfOverflow returns, with 0 in the place of [boost::none]. *)
Lemma checks_agree s min_p max_p :
  GridFilterBase.checkHashRange min_p max_p (VoxelStructT.inverse_leaf_size_ s)
  = default 0 <$> VoxelStructT.checkIfOverflow s min_p max_p.
Proof.
  unfold GridFilterBase.checkHashRange, GridFilterBase.hashRangeCounts,
    VoxelStructT.checkIfOverflow.
  destruct (to_size_t (floor ((c0 max_p - c0 min_p) * _)%Q + 1)) as [dx|];
    [|reflexivity].
  destruct (to_size_t (floor ((c1 max_p - c1 min_p) * _)%Q + 1)) as [dy|];
    [|reflexivity].
  destruct (to_size_t (floor ((c2 max_p - c2 min_p) * _)%Q + 1)) as [dz|];
    [|reflexivity].
  cbn [mbind option_bind].
  destruct (GridFilterBase.overflows dx dy dz) as [[|]|]; reflexivity.
Qed.

Lemma checkIfOverflow_count_pos s min_p max_p n :
  ordered (min_p, max_p) →
  (0 <= c0 (VoxelStructT.inverse_leaf_size_ s))%Q →
  (0 <= c1 (VoxelStructT.inverse_leaf_size_ s))%Q →
  (0 <= c2 (VoxelStructT.inverse_leaf_size_ s))%Q →
  VoxelStructT.checkIfOverflow s min_p max_p = Some (Some n) → 1 ≤ n.
Proof.
  intros (H0 & H1 & H2) I0 I1 I2. cbn [fst snd] in *.
  unfold VoxelStructT.checkIfOverflow.
  pose proof (axis_count_pos _ _ _ H0 I0) as P0.
  pose proof (axis_count_pos _ _ _ H1 I1) as P1.
  pose proof (axis_count_pos _ _ _ H2 I2) as P2.
  unfold axis_count in *.
  set (dx := floor ((c0 max_p - c0 min_p) * _)%Q + 1) in *.
  set (dy := floor ((c1 max_p - c1 min_p) * _)%Q + 1) in *.
  set (dz := floor ((c2 max_p - c2 min_p) * _)%Q + 1) in *.
  clearbody dx dy dz.
  destruct (to_size_t dx) as [ex|] eqn:Ex; [|discriminate].
  destruct (to_size_t dy) as [ey|] eqn:Ey; [|discriminate].
  destruct (to_size_t dz) as [ez|] eqn:Ez; [|discriminate].
  cbn [mbind option_bind].
  apply to_size_t_inv in Ex as [-> Bx], Ey as [-> By], Ez as [-> Bz].
  destruct (overflows_spec _ _ _ (conj P0 (proj2 Bx)) By (conj P2 (proj2 Bz)))
    as (o & -> & _ & Hex).
  cbn [mbind option_bind]. destruct o; [discriminate|].
  intros [= <-]. destruct (Hex eq_refl) as [_ ->].
  apply (product_bounds dx dy dz (dx * dy * dz)); lia.
Qed.

Lemma setUp_agree pcl d a b :
  is_empty (getFilterFieldName d) = true →
  agree_before d a b →
  ordered (getMinMax3D pcl (getInputCloud d) (getIndices d)) →
  nonneg_inverse a →
  agree_after d (VoxelStructT.setUp pcl d a) (VoxelStructT_base.setUp pcl d b).
Proof.
  intros Hname (Hl & Hi & Hlay & Hg & Hsave) Hord (I0 & I1 & I2).
  unfold VoxelStructT.setUp, VoxelStructT_base.setUp, VoxelStructT.extrema.
  cbn [VoxelStructT.filter_field_name_ VoxelStructT.set_filter].
  rewrite Hname. cbn [negb].
  destruct (getMinMax3D pcl (getInputCloud d) (getIndices d))
    as [min_p max_p].
  cbn [VoxelStructT.inverse_leaf_size_ VoxelStructT.set_filter
       VoxelStructT_base.inverse_leaf_size_ VoxelStructT_base.set_settings].
  rewrite <- Hi.
  destruct (floor_cast_int min_p _) as [min_b|]; cbn; [|exact I].
  destruct (floor_cast_int max_p _) as [max_b|]; cbn; [|exact I].
  match goal with
  | |- context [VoxelStructT.checkIfOverflow ?st _ _] => set (a1 := st)
  end.
  pose proof (checks_agree a1 min_p max_p) as Hc.
  change (VoxelStructT.inverse_leaf_size_ a1)
    with (VoxelStructT.inverse_leaf_size_ a) in Hc.
  rewrite Hi in Hc. rewrite Hc.
  destruct (VoxelStructT.checkIfOverflow a1 min_p max_p) as [[n|]|] eqn:Eo;
    cbn; [| |exact I].
  - assert (Hn : 1 ≤ n)
      by (apply (checkIfOverflow_count_pos a1 min_p max_p n Hord I0 I1 I2 Eo)).
    destruct (Z.eqb_spec n 0); [lia|]. rewrite Hsave.
    destruct (getSaveLeafLayout d) eqn:Es; cbn;
      (split; [reflexivity|]); constructor; cbn; auto;
      try (rewrite Hg, fmap_empty; reflexivity);
      try (intros h v; rewrite Hg, lookup_empty; discriminate);
      try congruence.
  - split; [reflexivity|]. constructor; cbn; auto;
      try (rewrite Hg, fmap_empty; reflexivity);
      try (intros h v; rewrite Hg, lookup_empty; discriminate);
      try congruence.
Qed.


Lemma add_points_agree d pts : ∀ a b,
  getDownsampleAllData d = true → revisions_agree d a b →
  agree_after d (pair tt <$> VoxelStructT.add_points d a pts)
                (pair tt <$> VoxelStructT_base.add_points b pts).
Proof.
  induction pts as [|pt pts IH]; intros a b Hall R.
  - cbn. auto.
  - cbn [VoxelStructT.add_points VoxelStructT_base.add_points].
    pose proof (addPointToGrid_agree d a b pt Hall R) as H.
    destruct (VoxelStructT.addPointToGrid d a pt) as [a'|],
             (VoxelStructT_base.addPointToGrid b pt) as [b'|];
      cbn in H; try contradiction; cbn [mbind option_bind]; [|exact I].
    apply IH; [exact Hall|apply H].
Qed.

Lemma filter_cells_agree pcl d cells : ∀ a b,
  getDownsampleAllData d = true → revisions_agree d a b →
  agree_after d (VoxelStructT.filter_cells pcl d a cells)
                (VoxelStructT_base.filter_cells pcl b cells).
Proof.
  induction cells as [|h cells IH]; intros a b Hall R.
  - cbn. auto.
  - cbn [VoxelStructT.filter_cells VoxelStructT_base.filter_cells].
    pose proof (filterGrid_agree pcl d a b h Hall R) as H.
    destruct (VoxelStructT.filterGrid pcl d a h) as [[o a']|],
             (VoxelStructT_base.filterGrid pcl b h) as [[o' b']|];
      cbn in H; try contradiction; cbn [mbind option_bind]; [|exact I].
    destruct H as [<- R']. specialize (IH a' b' Hall R').
    destruct (VoxelStructT.filter_cells pcl d a' cells) as [[out a'']|],
             (VoxelStructT_base.filter_cells pcl b' cells) as [[out' b'']|];
      cbn in IH; try contradiction; cbn [mbind option_bind]; [|exact I].
    destruct IH as [<- R'']. cbn. auto.
Qed.

(** X28.  A whole filter call of the two revisions, from structures with the
    same leaf size and an empty grid, in all-fields mode without a filter
    field: both are defined or neither is, and they return the same output
    cloud and leave structures that agree. *)
Theorem revisions_return_the_same_cloud (pcl : Common) (d : Derived)
    (a : VoxelStructT.t) (b : VoxelStructT_base.t) :
  getDownsampleAllData d = true →
  is_empty (getFilterFieldName d) = true →
  getInputCloud d ≠ [] →
  agree_before d a b →
  ordered (getMinMax3D pcl (getInputCloud d) (getIndices d)) →
  nonneg_inverse a →
  agree_after d (VoxelStructT.applyFilter pcl d a)
                (VoxelStructT_base.applyFilter pcl d b).
Proof.
  intros Hall Hname Hin Hb Hord Hinv.
  pose proof (setUp_agree pcl d a b Hname Hb Hord Hinv) as H1.
  unfold VoxelStructT.applyFilter, VoxelStructT_base.applyFilter.
  destruct (getInputCloud d) as [|pt pts] eqn:Ein; [contradiction|].
  destruct (VoxelStructT.setUp pcl d a) as [[ok a1]|],
           (VoxelStructT_base.setUp pcl d b) as [[ok' b1]|];
    cbn in H1; try contradiction; cbn [mbind option_bind]; [|exact I].
  destruct H1 as [<- R1]. destruct ok; [|cbn; auto].
  pose proof (add_points_agree d (pt :: pts) a1 b1 Hall R1) as H2.
  destruct (VoxelStructT.add_points d a1 (pt :: pts)) as [a2|],
           (VoxelStructT_base.add_points b1 (pt :: pts)) as [b2|];
    cbn in H2; try contradiction; cbn [mbind option_bind]; [|exact I].
  destruct H2 as [_ R2].
  assert (Hcells : VoxelStructT.cells_of (VoxelStructT.grid_ a2)
                   = (map_to_list (VoxelStructT_base.grid_ b2)).*1).
  { rewrite (ra_grid _ _ _ R2), map_to_list_fmap.
    unfold VoxelStructT.cells_of. rewrite <- list_fmap_compose.
    apply list_fmap_ext. intros _ [k v] _. reflexivity. }
  rewrite <- Hcells.
  pose proof (filter_cells_agree pcl d
                (VoxelStructT.cells_of (VoxelStructT.grid_ a2)) a2 b2 Hall R2)
    as H3.
  destruct (VoxelStructT.filter_cells pcl d a2 _) as [[out a3]|],
           (VoxelStructT_base.filter_cells pcl b2 _) as [[out' b3]|];
    cbn in H3; try contradiction; cbn [mbind option_bind]; [|exact I].
  destruct H3 as [<- R3]. cbn. auto.
Qed.

(** Witness of [revisions_return_the_same_cloud]: the three-point cloud in
    all-fields mode, leaf layout saved. *)
Lemma revisions_return_the_same_cloud_witness :
  let d := Example.settings Example.cloud3 true true 0 in
  agree_after d
    (VoxelStructT.applyFilter Example.pcl d
       (VoxelStructT.setLeafSize VoxelStructT.new 1%Q 1%Q 1%Q))
    (VoxelStructT_base.applyFilter Example.pcl d
       (VoxelStructT_base.setSaveLeafLayout
          (VoxelStructT_base.setLeafSize VoxelStructT_base.new 1%Q 1%Q 1%Q)
          true)).
Proof.
  apply (revisions_return_the_same_cloud Example.pcl
           (Example.settings Example.cloud3 true true 0)).
  - reflexivity.
  - reflexivity.
  - discriminate.
  - repeat split.
  - vm_compute. repeat split; discriminate.
  - vm_compute. repeat split; discriminate.
Defined.


(** X29.  The 0 that checkHashRange returns is not ambiguous on a bounding box
    with min ≤ max and a leaf size that is not negative: it returns 0 exactly
    where checkIfOverflow returns [boost::none], and otherwise the count of
    checkIfOverflow, which is at least 1. *)
Theorem checkHashRange_zero_is_overflow (s : VoxelStructT.t)
    (min_p max_p : Vector4f) (r : Z) :
  ordered (min_p, max_p) →
  (0 <= c0 (VoxelStructT.inverse_leaf_size_ s))%Q →
  (0 <= c1 (VoxelStructT.inverse_leaf_size_ s))%Q →
  (0 <= c2 (VoxelStructT.inverse_leaf_size_ s))%Q →
  GridFilterBase.checkHashRange min_p max_p (VoxelStructT.inverse_leaf_size_ s)
  = Some r →
  (r = 0 ∧ VoxelStructT.checkIfOverflow s min_p max_p = Some None)
  ∨ (1 ≤ r ∧ VoxelStructT.checkIfOverflow s min_p max_p = Some (Some r)).
Proof.
  intros Hord I0 I1 I2 Hr. rewrite checks_agree in Hr.
  destruct (VoxelStructT.checkIfOverflow s min_p max_p) as [[n|]|] eqn:E;
    cbn in Hr; [| |discriminate].
  - injection Hr as <-. right. split; [|reflexivity].
    exact (checkIfOverflow_count_pos s min_p max_p n Hord I0 I1 I2 E).
  - injection Hr as <-. left. auto.
Qed.

(** Witness of [checkHashRange_zero_is_overflow]: the unit cube, leaf
    size 1, 8 cells. *)
Lemma checkHashRange_zero_is_overflow_witness :
  let s := VoxelStructT.setLeafSize VoxelStructT.new 1%Q 1%Q 1%Q in
  let min_p := mkVector4 0%Q 0%Q 0%Q 1%Q in
  let max_p := mkVector4 1%Q 1%Q 1%Q 1%Q in
  GridFilterBase.checkHashRange min_p max_p (VoxelStructT.inverse_leaf_size_ s)
  = Some 8
  ∧ ((8 = 0 ∧ VoxelStructT.checkIfOverflow s min_p max_p = Some None)
     ∨ (1 ≤ 8 ∧ VoxelStructT.checkIfOverflow s min_p max_p = Some (Some 8))).
Proof.
  intros s min_p max_p. split; [reflexivity|].
  apply (checkHashRange_zero_is_overflow s min_p max_p 8).
  - repeat split; vm_compute; discriminate.
  - vm_compute; discriminate.
  - vm_compute; discriminate.
  - vm_compute; discriminate.
  - reflexivity.
Defined.

(** ** The label vote of LabeledVoxel *)

Section LabeledVoxelFacts.

Context {AllFields : Type}.
Context (all_fields_add :
           AllFields → LabeledVoxel.PointXYZRGBL → AllFields).
Context (all_fields_get :
           AllFields → LabeledVoxel.PointXYZRGBL → LabeledVoxel.PointXYZRGBL).
Context (default_point : LabeledVoxel.PointXYZRGBL).

Local Abbreviation add := (LabeledVoxel.add all_fields_add).
Local Abbreviation get := (LabeledVoxel.get all_fields_get default_point).

Lemma label_count_nonneg k pts : 0 ≤ label_count k pts.
Proof. unfold label_count. lia. Qed.

Lemma label_count_le k pts : label_count k pts ≤ Z.of_nat (length pts).
Proof.
  unfold label_count.
  pose proof (filter_length_le (λ pt, LabeledVoxel.label pt =? k) pts). lia.
Qed.

Lemma add_keeps_mode v pt :
  LabeledVoxel.downsample_all_data_ (LabeledVoxel.base (add v pt))
  = LabeledVoxel.downsample_all_data_ (LabeledVoxel.base v).
Proof.
  unfold LabeledVoxel.add.
  destruct (LabeledVoxel.downsample_all_data_ (LabeledVoxel.base v));
    reflexivity.
Qed.

(** The label counts after adding points in geometry-only mode. *)
Lemma labels_after_add pts : ∀ v k,
  LabeledVoxel.downsample_all_data_ (LabeledVoxel.base v) = false →
  Z.of_nat (length pts) ≤ SIZE_MAX →
  (∀ j n, LabeledVoxel.labels_ v !! j = Some n →
          1 ≤ n ∧ n + Z.of_nat (length pts) ≤ SIZE_MAX) →
  LabeledVoxel.labels_ (foldl add v pts) !! k
  = if label_count k pts =? 0 then LabeledVoxel.labels_ v !! k
    else Some (default 0 (LabeledVoxel.labels_ v !! k) + label_count k pts).
Proof.
  induction pts as [|pt pts IH]; intros v k Hmode Hlen Hb; [reflexivity|].
  cbn [foldl]. rewrite IH.
  - unfold label_count. cbn [List.filter].
    unfold LabeledVoxel.add at 1 2. rewrite Hmode.
    cbn [LabeledVoxel.labels_].
    set (m := LabeledVoxel.labels_ v).
    set (c := Z.of_nat (length (List.filter _ pts))).
    assert (Hc : 0 ≤ c) by (subst c; lia).
    assert (Hold : 0 ≤ default 0 (m !! LabeledVoxel.label pt)
                   ∧ default 0 (m !! LabeledVoxel.label pt) + 1 ≤ SIZE_MAX).
    { destruct (m !! LabeledVoxel.label pt) as [n|] eqn:E; cbn.
      - destruct (Hb _ _ E). cbn [length] in *. lia.
      - unfold SIZE_MAX. lia. }
    rewrite (add_sz_small _ 1) by lia.
    destruct (Z.eqb_spec (LabeledVoxel.label pt) k) as [->|Hne].
    + rewrite lookup_insert_eq. cbn [length default from_option id].
      rewrite Nat2Z.inj_succ. fold c.
      destruct (Z.eqb_spec (Z.succ c) 0); [lia|].
      destruct (Z.eqb_spec c 0) as [->|_]; f_equal; lia.
    + rewrite lookup_insert_ne by exact Hne. fold c. reflexivity.
  - rewrite add_keeps_mode. exact Hmode.
  - cbn [length] in Hlen. lia.
  - intros j n. unfold LabeledVoxel.add. rewrite Hmode.
    cbn [LabeledVoxel.labels_]. cbn [length] in Hb.
    destruct (decide (LabeledVoxel.label pt = j)) as [->|Hne].
    + rewrite lookup_insert_eq. intros [= <-].
      destruct (LabeledVoxel.labels_ v !! j) as [n0|] eqn:E; cbn.
      * destruct (Hb _ _ E). rewrite add_sz_small by lia. lia.
      * change (add_sz 0 1) with 1. cbn [length] in Hlen. lia.
    + rewrite lookup_insert_ne by exact Hne. intros Hj.
      destruct (Hb _ _ Hj). lia.
Qed.

#[local] Instance key_le_trans : Transitive LabeledVoxel.key_le.
Proof. intros a b c. unfold LabeledVoxel.key_le. lia. Qed.

#[local] Instance key_le_total : Total LabeledVoxel.key_le.
Proof. intros a b. unfold LabeledVoxel.key_le. lia. Qed.

(** The loop of the vote over entries sorted by key: it ends with the largest
    count and, among the entries with that count, the one of least key. *)
Lemma vote_fold l : ∀ mx lab,
  StronglySorted LabeledVoxel.key_le l →
  let r := foldl LabeledVoxel.vote_step (mx, lab) l in
  mx ≤ r.1
  ∧ (∀ e, e ∈ l → e.2 ≤ r.1)
  ∧ (r = (mx, lab)
     ∨ ((r.2, r.1) ∈ l ∧ mx < r.1
        ∧ ∀ e, e ∈ l → e.2 = r.1 → r.2 ≤ e.1)).
Proof.
  induction l as [|[k n] l IH]; intros mx lab Hs; cbn zeta.
  - cbn. split; [lia|]. split; [|left; reflexivity].
    intros e He. inversion He.
  - apply StronglySorted_inv in Hs as [Hs Hall].
    rewrite Forall_forall in Hall.
    assert (Hstep : LabeledVoxel.vote_step (mx, lab) (k, n)
                    = if mx <? n then (n, k) else (mx, lab)) by reflexivity.
    cbn [foldl]. rewrite Hstep.
    destruct (Z.ltb_spec mx n) as [Hlt|Hge].
    + destruct (IH n k Hs) as (I1 & I2 & I3).
      set (r := foldl LabeledVoxel.vote_step (n, k) l) in *.
      split; [lia|]. split.
      * intros e He. apply elem_of_cons in He as [->|He]; [exact I1|].
        exact (I2 e He).
      * right. destruct I3 as [Hr|(Hin & Hgt & Htie)].
        -- rewrite Hr. cbn [fst snd]. split; [left|]. split; [exact Hlt|].
           intros e He _. apply elem_of_cons in He as [->|He]; [cbn; lia|].
           exact (Hall e He).
        -- split; [right; exact Hin|]. split; [lia|].
           intros e He Heq. apply elem_of_cons in He as [->|He].
           ++ cbn [snd] in Heq. lia.
           ++ exact (Htie e He Heq).
    + destruct (IH mx lab Hs) as (I1 & I2 & I3).
      set (r := foldl LabeledVoxel.vote_step (mx, lab) l) in *.
      split; [exact I1|]. split.
      * intros e He. apply elem_of_cons in He as [->|He]; [cbn; lia|].
        exact (I2 e He).
      * destruct I3 as [Hr|(Hin & Hgt & Htie)]; [left; exact Hr|].
        right. split; [right; exact Hin|]. split; [exact Hgt|].
        intros e He Heq. apply elem_of_cons in He as [->|He].
        -- cbn [snd] in Heq. lia.
        -- exact (Htie e He Heq).
Qed.

Lemma entries_elem (m : gmap Z Z) k n :
  (k, n) ∈ LabeledVoxel.entries m ↔ m !! k = Some n.
Proof.
  unfold LabeledVoxel.entries. rewrite merge_sort_Permutation.
  apply elem_of_map_to_list.
Qed.

(** X30.  The label that [get] returns in geometry-only mode is decided by
    majority: it is the label of one of the points added, no label occurs more
    often among them, and among the labels that occur as often it is the
    least. *)
Theorem label_is_majority_vote (v : LabeledVoxel.t)
    (pts : list LabeledVoxel.PointXYZRGBL) :
  LabeledVoxel.downsample_all_data_ (LabeledVoxel.base v) = false →
  LabeledVoxel.labels_ v = ∅ →
  pts ≠ [] →
  Z.of_nat (length pts) ≤ SIZE_MAX →
  let L := LabeledVoxel.label (get (foldl add v pts)) in
  (∃ pt, pt ∈ pts ∧ LabeledVoxel.label pt = L)
  ∧ ∀ k, label_count k pts ≤ label_count L pts
         ∧ (label_count k pts = label_count L pts → L ≤ k).
Proof.
  intros Hmode Hempty Hne Hlen L.
  set (vf := foldl add v pts) in *.
  assert (Hmodef : LabeledVoxel.downsample_all_data_ (LabeledVoxel.base vf)
                   = false).
  { subst vf. clear - Hmode. revert v Hmode.
    induction pts as [|pt pts IH]; intros v Hmode; [exact Hmode|].
    cbn [foldl]. apply IH. rewrite add_keeps_mode. exact Hmode. }
  assert (Hlab : ∀ k n, LabeledVoxel.labels_ vf !! k = Some n
                        ↔ label_count k pts = n ∧ 1 ≤ n).
  { intros k n. subst vf. rewrite (labels_after_add pts v k Hmode Hlen).
    - rewrite Hempty, lookup_empty. cbn [default from_option id].
      pose proof (label_count_nonneg k pts).
      destruct (Z.eqb_spec (label_count k pts) 0) as [E|E].
      + split; [discriminate|lia].
      + split; [intros [= <-]; lia|intros [<- _]; f_equal; lia].
    - intros j m. rewrite Hempty, lookup_empty. discriminate. }
  subst L. unfold LabeledVoxel.get. rewrite Hmodef.
  cbn [LabeledVoxel.label]. unfold LabeledVoxel.vote.
  set (l := LabeledVoxel.entries (LabeledVoxel.labels_ vf)).
  assert (Hs : StronglySorted LabeledVoxel.key_le l)
    by (apply StronglySorted_merge_sort; apply _).
  assert (Hel : ∀ k n, (k, n) ∈ l ↔ label_count k pts = n ∧ 1 ≤ n).
  { intros k n. unfold l. rewrite entries_elem. apply Hlab. }
  destruct (vote_fold l 0 (LabeledVoxel.label default_point) Hs)
    as (_ & Hmax & Hr).
  set (r := foldl LabeledVoxel.vote_step
              (0, LabeledVoxel.label default_point) l) in *.
  destruct pts as [|pt0 pts'] eqn:Epts; [contradiction|]. rewrite <- Epts in *.
  assert (H0 : 1 ≤ label_count (LabeledVoxel.label pt0) pts).
  { rewrite Epts. unfold label_count. cbn [List.filter].
    rewrite Z.eqb_refl. cbn [length]. lia. }
  assert (Hin0 : (LabeledVoxel.label pt0,
                  label_count (LabeledVoxel.label pt0) pts) ∈ l)
    by (apply Hel; auto).
  destruct Hr as [Hr|(Hin & _ & Htie)].
  { specialize (Hmax _ Hin0). rewrite Hr in Hmax. cbn [fst snd] in Hmax. lia. }
  apply Hel in Hin as [Hcount Hpos]. split.
  - unfold label_count in Hcount.
    destruct (List.filter (λ pt, LabeledVoxel.label pt =? r.2) pts)
      as [|pt c] eqn:Ef; [cbn in Hcount; lia|].
    assert (Hpt : In pt (List.filter (λ pt, LabeledVoxel.label pt =? r.2) pts))
      by (rewrite Ef; left; reflexivity).
    apply filter_In in Hpt as [Hpt Hl]. exists pt.
    split; [apply list_elem_of_In; exact Hpt|]. apply Z.eqb_eq. exact Hl.
  - intros k. rewrite Hcount.
    pose proof (label_count_nonneg k pts) as Hk.
    destruct (Z.eq_dec (label_count k pts) 0) as [E|E].
    + split; [lia|]. intros E'. lia.
    + assert (Hink : (k, label_count k pts) ∈ l) by (apply Hel; lia).
      split; [exact (Hmax _ Hink)|].
      intros E'. exact (Htie _ Hink E').
Qed.

End LabeledVoxelFacts.

(** Witness of [label_is_majority_vote]: the labels 3, 1, 3, 1, 2; the
    labels 1 and 3 tie and the vote goes to 1. *)
Lemma label_is_majority_vote_witness :
  let pt l := LabeledVoxel.mkPointXYZRGBL 0%Q 0%Q 0%Q 1%Q 0 l in
  let pts := [pt 3; pt 1; pt 3; pt 1; pt 2] in
  let v := LabeledVoxel.mkT (LabeledVoxel.mkVoxel 0 false vec4f_zero tt) ∅ in
  let L := LabeledVoxel.label
             (LabeledVoxel.get (λ _ p, p) (pt 0)
                (foldl (LabeledVoxel.add (λ a _, a)) v pts)) in
  L = 1
  ∧ (∃ p, p ∈ pts ∧ LabeledVoxel.label p = L)
  ∧ ∀ k, label_count k pts ≤ label_count L pts
         ∧ (label_count k pts = label_count L pts → L ≤ k).
Proof.
  split; [vm_compute; reflexivity|].
  apply (label_is_majority_vote (λ a _, a) (λ _ p, p)).
  - reflexivity.
  - reflexivity.
  - discriminate.
  - vm_compute. discriminate.
Defined.
